(** * serverStock: watch-list store, decision normalisation and analysis pipelines

    A shallow embedding of [src/serverStock.py].

    Strings are sequences of 8-bit characters; the case mappings, the
    whitespace class and the line boundaries are Python's, restricted to
    ASCII: [PyStr.lower], [PyStr.upper], [PyStr.strip] and
    [PyStr.splitlines] compute what Python computes on texts of ASCII
    characters ([is_ascii]), and leave the other characters alone.
    Properties that Python's Unicode case mappings or line boundaries
    would break are stated for ASCII texts.
    Prices are IEEE-754 binary64 numbers ([PrimFloat.float]).
    Python dictionaries keep insertion order, so they are association
    lists whose update keeps the position of a key that is already there.
    An exception is represented by its message. *)

From Stdlib Require Import String Ascii List Bool Arith ZArith Lia Floats Permutation.
Import ListNotations.
Open Scope string_scope.

(** ** Python strings *)

Module PyStr.

Definition is_upper (c : ascii) : bool :=
  let n := nat_of_ascii c in ((65 <=? n) && (n <=? 90))%nat.

Definition is_lower (c : ascii) : bool :=
  let n := nat_of_ascii c in ((97 <=? n) && (n <=? 122))%nat.

Definition lower_char (c : ascii) : ascii :=
  if is_upper c then ascii_of_nat (nat_of_ascii c + 32) else c.

Definition upper_char (c : ascii) : ascii :=
  if is_lower c then ascii_of_nat (nat_of_ascii c - 32) else c.

(** [s.lower()] and [s.upper()] on ASCII text: the letters A-Z and a-z
    are mapped, every other character is kept (Python also maps letters
    outside ASCII) *)
Fixpoint lower (s : string) : string :=
  match s with
  | EmptyString => EmptyString
  | String c r => String (lower_char c) (lower r)
  end.

Fixpoint upper (s : string) : string :=
  match s with
  | EmptyString => EmptyString
  | String c r => String (upper_char c) (upper r)
  end.

(** the ASCII characters [str.strip()] removes: tab, line feed, vertical
    tab, form feed, carriage return, the separators 28..31 and the space
    (Python also removes the whitespace outside ASCII, such as U+0085 and
    U+00A0) *)
Definition is_space (c : ascii) : bool :=
  let n := nat_of_ascii c in
  (((9 <=? n) && (n <=? 13)) || ((28 <=? n) && (n <=? 32)))%nat.

Fixpoint lstrip (s : string) : string :=
  match s with
  | EmptyString => EmptyString
  | String c r => if is_space c then lstrip r else s
  end.

Fixpoint rstrip (s : string) : string :=
  match s with
  | EmptyString => EmptyString
  | String c r =>
      match rstrip r with
      | EmptyString => if is_space c then EmptyString else String c EmptyString
      | r' => String c r'
      end
  end.

(** [s.strip()] *)
Definition strip (s : string) : string := rstrip (lstrip s).

(** [needle in hay] *)
Fixpoint contains (needle hay : string) : bool :=
  if prefix needle hay then true
  else match hay with
       | EmptyString => false
       | String _ r => contains needle r
       end.

(** truthiness of a string: [bool(s)] *)
Definition truthy (s : string) : bool :=
  match s with EmptyString => false | _ => true end.

(** the one-character ASCII line boundaries of [str.splitlines()] other
    than the carriage return, which may pair with a line feed (Python
    also splits at U+0085, U+2028 and U+2029) *)
Definition is_linebreak (c : ascii) : bool :=
  let n := nat_of_ascii c in
  ((n =? 10) || (n =? 11) || (n =? 12) || ((28 <=? n) && (n <=? 30)))%nat.

Definition is_cr (c : ascii) : bool := (nat_of_ascii c =? 13)%nat.
Definition is_lf (c : ascii) : bool := (nat_of_ascii c =? 10)%nat.

Fixpoint splitlines_from (cur s : string) : list string :=
  match s with
  | EmptyString => if truthy cur then [cur] else []
  | String c r =>
      if is_cr c then
        match r with
        | String c2 r2 =>
            if is_lf c2 then cur :: splitlines_from EmptyString r2
            else cur :: splitlines_from EmptyString r
        | EmptyString => [cur]
        end
      else if is_linebreak c then cur :: splitlines_from EmptyString r
      else splitlines_from (cur ++ String c EmptyString) r
  end.

(** [s.splitlines()] *)
Definition splitlines (s : string) : list string :=
  splitlines_from EmptyString s.

(** [sep.join(parts)] *)
Definition join (sep : string) (parts : list string) : string :=
  String.concat sep parts.

(** [s.rfind(c, start, stop)]: the highest index in [start, stop) that
    holds [c]; [i] is the index of the head of [s] *)
Fixpoint rfind_from (c : ascii) (s : string) (i start stop : nat) : option nat :=
  match s with
  | EmptyString => None
  | String a r =>
      match rfind_from c r (S i) start stop with
      | Some j => Some j
      | None =>
          if ((start <=? i) && (i <? stop))%nat && Ascii.eqb a c then Some i else None
      end
  end.

Definition rfind (c : ascii) (s : string) (start stop : nat) : option nat :=
  rfind_from c s 0 start stop.

(** [s[start:stop]] for [start <= stop] *)
Definition slice (s : string) (start stop : nat) : string :=
  substring start (stop - start) s.

End PyStr.

(** ** Python dictionaries with string keys *)

Module PyDict.

Definition t (V : Type) : Type := list (string * V).

Fixpoint get {V} (k : string) (d : t V) : option V :=
  match d with
  | [] => None
  | (k', v) :: r => if String.eqb k' k then Some v else get k r
  end.

(** [d[k] = v]: a key that is present keeps its place *)
Fixpoint set {V} (k : string) (v : V) (d : t V) : t V :=
  match d with
  | [] => [(k, v)]
  | (k', v') :: r =>
      if String.eqb k' k then (k', v) :: r else (k', v') :: set k v r
  end.

Definition mem {V} (k : string) (d : t V) : bool :=
  match get k d with Some _ => true | None => false end.

End PyDict.

(** [x in xs] for a collection of strings *)
Definition str_in (x : string) (xs : list string) : bool :=
  existsb (String.eqb x) xs.

(** ** Exceptions *)

(** A computation that may raise: [inl msg] is the exception with
    [str(e) = msg]. *)
Definition Exc (A : Type) : Type := (string + A)%type.

(** ** Decision normaliser *)

(** [run_tradingagents_analysis._norm]; [None] is Python's [None]. *)
Definition _norm (s : option string) : string :=
  let v := PyStr.lower (PyStr.strip (match s with Some x => x | None => "" end)) in
  if PyStr.contains "buy" v then "Buy"
  else if PyStr.contains "sell" v then "Sell"
  else "Hold".

(** The conditional expression of [analyze_post_stream.gen] that turns
    [decision] into [norm]. *)
Definition norm_of_decision (decision : string) : string :=
  if PyStr.contains "buy" (PyStr.lower decision) then "Buy"
  else if PyStr.contains "sell" (PyStr.lower decision) then "Sell"
  else "Hold".

(** [analyze_post_stream.gen._derive_decision_from_text] *)
Definition _derive_decision_from_text (text : option string) : option string :=
  let txt := PyStr.lower (match text with Some x => x | None => "" end) in
  if negb (PyStr.truthy txt) then None
  else
    let fallback :=
      if PyStr.contains "buy" txt then Some "Buy"
      else if PyStr.contains "sell" txt then Some "Sell"
      else if PyStr.contains "hold" txt then Some "Hold"
      else None in
    if PyStr.contains "final" txt || PyStr.contains "proposal" txt
       || PyStr.contains "decision" txt then
      if PyStr.contains "buy" txt then Some "Buy"
      else if PyStr.contains "sell" txt then Some "Sell"
      else if PyStr.contains "hold" txt then Some "Hold"
      else fallback
    else fallback.

(** One pass of the loop body of [summarize_post.parse_from_report]:
    [decision] is the loop-carried variable. *)
Definition parse_line (tk : string) (decision : option string) (line : string)
  : option string :=
  if negb (PyStr.contains (PyStr.upper tk) (PyStr.upper line)) then decision
  else
    let low := PyStr.lower line in
    if PyStr.contains "final" low || PyStr.contains "proposal" low
       || PyStr.contains "decision" low || PyStr.contains ":" low then
      if PyStr.contains "buy" low then Some "Buy"
      else if PyStr.contains "sell" low then Some "Sell"
      else if PyStr.contains "hold" low then Some "Hold"
      else decision
    else decision.

(** [summarize_post.parse_from_report], with the report text it closes
    over as an argument *)
Definition parse_from_report (report_text tk : string) : option string :=
  if negb (PyStr.truthy report_text) then None
  else fold_left (parse_line tk) (PyStr.splitlines report_text) None.

(** ** Calculations *)

Definition percent_change (purchase current : option float) : option float :=
  match purchase, current with
  | Some p, Some c =>
      if PrimFloat.eqb p 0%float then None
      else Some (PrimFloat.mul (PrimFloat.div (PrimFloat.sub c p) p) 100%float)
  | _, _ => None
  end.

(** ** Text wrapping *)

(** The [while start < n] loop of [_wrap_text] on one long line.  Every
    pass moves [start] forward, so [fuel = len(line)] passes are enough. *)
Fixpoint wrap_line (fuel : nat) (line : string) (width start : nat) : list string :=
  match fuel with
  | O => []
  | S fuel' =>
      let n := String.length line in
      if (start <? n)%nat then
        let stop := Nat.min (start + width) n in
        match PyStr.rfind " " line start stop with
        | Some space_idx =>
            if (space_idx <=? start)%nat then
              PyStr.slice line start stop :: wrap_line fuel' line width stop
            else
              PyStr.slice line start space_idx
                :: wrap_line fuel' line width (S space_idx)
        | None => PyStr.slice line start stop :: wrap_line fuel' line width stop
        end
      else []
  end.

Definition _wrap_text_width (s : string) (width : nat) : string :=
  PyStr.join (String "010" EmptyString)
    (flat_map
       (fun line =>
          if (String.length line <=? width)%nat then [line]
          else wrap_line (String.length line) line width 0)
       (PyStr.splitlines s)).

(** [_wrap_text(s)] with the default width *)
Definition _wrap_text (s : string) : string := _wrap_text_width s 120.

(** ** Data model *)

(** The [signals] bag of a per-ticker result: the four rationale fields
    taken from the engine's final state, an error marker, or the stub
    note. *)
Inductive Signals : Type :=
| SigState (final_trade_decision investment_plan
            judge_decision_invest judge_decision_risk : option string)
| SigError (error : string)
| SigNote (note : string).

Record TickerResult : Type := mkTickerResult {
  suggestion : string;
  signals : Signals
}.

Record Quote : Type := mkQuote {
  current : option float;
  pct : option float
}.

(** The [analysis] bundle of a post; a field that is [None] is a key
    that is absent. *)
Record Analysis : Type := mkAnalysis {
  report : option string;
  per_ticker : option (PyDict.t TickerResult);
  summary : option string;
  analysis_updatedAt : option string
}.

Inductive Purchases : Type :=
| PurchasesDict (d : PyDict.t (option float))
| PurchasesNumber (x : float)
| PurchasesOther.

(** Of the options only [date] is read by the server itself; the others
    are handed to the engine. *)
Record Options : Type := mkOptions {
  date : option string
}.

Record Post : Type := mkPost {
  id : string;
  createdAt : string;
  updatedAt : string;
  title : string;
  description : string;
  tickers : list string;
  options : Options;
  purchases : Purchases;
  analysis : option Analysis;
  snapshot : option (PyDict.t Quote)
}.

(** ** Store *)

(** The data file: missing or unreadable, or holding a list of posts. *)
Inductive DataFile : Type :=
| Unreadable
| Stored (posts : list Post).

Definition _read (f : DataFile) : list Post :=
  match f with
  | Unreadable => []
  | Stored posts => posts
  end.

Definition _write (obj : list Post) : DataFile := Stored obj.

Fixpoint _find (posts : list Post) (pid : string) : option Post :=
  match posts with
  | [] => None
  | p :: r => if String.eqb (id p) pid then Some p else _find r pid
  end.

(** The post object [_find] returns is an element of the list it was
    given, so mutating it changes the list at the first position that
    holds the id. *)
Fixpoint mutate_found (posts : list Post) (pid : string) (p' : Post) : list Post :=
  match posts with
  | [] => []
  | p :: r =>
      if String.eqb (id p) pid then p' :: r else p :: mutate_found r pid p'
  end.

(** [_update_post(pid, mutator)]: the outcome ([inl] when the mutator
    raised, else the returned flag) and the data file afterwards. *)
Definition _update_post (pid : string) (mutator : Post -> Exc Post) (f : DataFile)
  : Exc bool * DataFile :=
  let posts := _read f in
  match _find posts pid with
  | None => (inr false, f)
  | Some p =>
      match mutator p with
      | inl e => (inl e, f)
      | inr p' => (inr true, _write (mutate_found posts pid p'))
      end
  end.

(** ** Reordering *)

(** [{str(p.get("id")): p for p in posts}] *)
Definition index_by_id (posts : list Post) : PyDict.t Post :=
  fold_left (fun d p => PyDict.set (id p) p d) posts [].

(** first loop of [reorder_posts]: the state is [(new_posts, used)] *)
Definition pick_requested (by_id : PyDict.t Post)
  (st : list Post * list string) (pid_s : string) : list Post * list string :=
  let '(new_posts, used) := st in
  match PyDict.get pid_s by_id with
  | Some p =>
      if negb (str_in pid_s used) then ((new_posts ++ [p])%list, (used ++ [pid_s])%list)
      else st
  | None => st
  end.

(** second loop of [reorder_posts] *)
Definition append_remaining
  (st : list Post * list string) (p : Post) : list Post * list string :=
  let '(new_posts, used) := st in
  if negb (str_in (id p) used) then ((new_posts ++ [p])%list, (used ++ [id p])%list)
  else st.

(** [reorder_posts] for a request body whose [order] is the list
    [order]: the ids of the response and the data file afterwards. *)
Definition reorder_posts (order : list string) (f : DataFile)
  : list string * DataFile :=
  let posts := _read f in
  let by_id := index_by_id posts in
  let st1 := fold_left (pick_requested by_id) order ([], []) in
  let '(new_posts, _) := fold_left append_remaining posts st1 in
  (map id new_posts, _write new_posts).

(** ** The collaborators: Analysis Engine, Price Feed, clock *)

Record DebateState : Type := mkDebateState {
  judge_decision : option string
}.

Record Message : Type := mkMessage {
  content : option string
}.

(** A state of the engine's graph: the final state [propagate] returns
    and each chunk [graph.stream] yields. *)
Record GraphState : Type := mkGraphState {
  messages : list Message;
  final_trade_decision : option string;
  investment_plan : option string;
  investment_debate_state : option DebateState;
  risk_debate_state : option DebateState
}.

(** What one [TradingAgentsGraph] instance does for one ticker and date:
    the result of [propagate]; the chunks [graph.stream] yields and the
    exception, if any, that ends the iteration (with no chunk before it
    when construction itself raises); and [process_signal]. *)
Record Session : Type := mkSession {
  propagate : Exc (GraphState * option string);
  stream_chunks : list GraphState;
  stream_raises : option string;
  process_signal : string -> Exc (option string)
}.

(** Everything a run reads from outside the data file.  The clock is read
    as one instant per run; [engine i t d] is the engine instance built in
    pass [i] of the ticker loop, for ticker [t] and date [d];
    [get_latest_price i t] is the price the feed gives in pass [i]. *)
Record Env : Type := mkEnv {
  _utcnow_iso : string;
  today : string;
  tradingagents_installed : bool;
  import_error : option string;
  engine : nat -> string -> string -> Session;
  get_latest_price : nat -> string -> option float
}.

(** [opts.get("date") or datetime.now(APP_TZ).date().isoformat()] *)
Definition date_of (env : Env) (opts : Options) : string :=
  match date opts with
  | Some d => if PyStr.truthy d then d else today env
  | None => today env
  end.

Definition debate_judge (d : option DebateState) : option string :=
  match d with
  | Some s => judge_decision s
  | None => None
  end.

(** the [signals] dictionary built from a final state *)
Definition signals_of (final_state : GraphState) : Signals :=
  SigState (final_trade_decision final_state)
           (investment_plan final_state)
           (debate_judge (investment_debate_state final_state))
           (debate_judge (risk_debate_state final_state)).

(** the purchase price looked up for a ticker *)
Definition purchase_of (p : Post) (t : string) : option float :=
  match purchases p with
  | PurchasesDict d =>
      match PyDict.get t d with
      | Some v => v
      | None => None
      end
  | PurchasesNumber x => Some x
  | PurchasesOther => None
  end.

(** [percent_change(buy, cur) if buy is not None else None] *)
Definition pct_of (buy cur : option float) : option float :=
  match buy with
  | Some _ => percent_change buy cur
  | None => None
  end.

(** ** Non-streaming pipeline *)

Definition summary_line (t sug d : string) : string :=
  t ++ ": " ++ sug ++ " (" ++ d ++ ")".

(** the [for t in tickers] loop of [run_tradingagents_analysis]; the
    state is [(result["per_ticker"], lines)] *)
Fixpoint propagate_loop (env : Env) (date_str : string) (i : nat)
  (ts : list string) (st : PyDict.t TickerResult * list string)
  : PyDict.t TickerResult * list string :=
  match ts with
  | [] => st
  | t :: r =>
      let '(per, lines) := st in
      match propagate (engine env i t date_str) with
      | inr (final_state, decision) =>
          let sug := _norm decision in
          propagate_loop env date_str (S i) r
            (PyDict.set t (mkTickerResult sug (signals_of final_state)) per,
             (lines ++ [summary_line t sug date_str])%list)
      | inl e =>
          propagate_loop env date_str (S i) r
            (PyDict.set t (mkTickerResult "Hold" (SigError e)) per,
             (lines ++ [(t ++ ": Hold (error)")%string])%list)
      end
  end.

(** [run_tradingagents_analysis]: the pair [(summary, per_ticker)] *)
Definition run_tradingagents_analysis (env : Env) (tickers : list string)
  (opts : Options) : string * PyDict.t TickerResult :=
  if negb (tradingagents_installed env) then
    ("TradingAgents not installed; using Hold placeholder.",
     fold_left
       (fun per t => PyDict.set t (mkTickerResult "Hold" (SigNote "stub")) per)
       tickers [])
  else
    match import_error env with
    | Some e =>
        ("TradingAgents import error: " ++ e,
         fold_left
           (fun per t => PyDict.set t (mkTickerResult "Hold" (SigError e)) per)
           tickers [])
    | None =>
        let date_str := date_of env opts in
        let '(per, lines) := propagate_loop env date_str 0 tickers ([], []) in
        (PyStr.join (String "010" EmptyString) lines, per)
    end.

(** the snapshot loop of [analyze_post] *)
Fixpoint snapshot_loop (env : Env) (p : Post) (i : nat) (ts : list string)
  (snap : PyDict.t Quote) : PyDict.t Quote :=
  match ts with
  | [] => snap
  | t :: r =>
      let cur := get_latest_price env i t in
      let buy := purchase_of p t in
      snapshot_loop env p (S i) r
        (PyDict.set t (mkQuote cur (pct_of buy cur)) snap)
  end.

(** [analyze_post]: [None] is the 404 response, otherwise the post
    returned; and the data file afterwards. *)
Definition analyze_post (env : Env) (pid : string) (f : DataFile)
  : option Post * DataFile :=
  let posts := _read f in
  match _find posts pid with
  | None => (None, f)
  | Some p =>
      let '(summ, per) := run_tradingagents_analysis env (tickers p) (options p) in
      let snap := snapshot_loop env p 0 (tickers p) [] in
      let p' :=
        mkPost (id p) (createdAt p) (_utcnow_iso env) (title p) (description p)
          (tickers p) (options p) (purchases p)
          (Some (mkAnalysis None (Some per) (Some summ) (Some (_utcnow_iso env))))
          (Some snap) in
      (Some p', _write (mutate_found posts pid p'))
  end.

(** ** Streaming pipeline *)

(** The progress events, before their [_sse] framing. *)
Inductive Event : Type :=
| EvStart (pid : string) (tks : list string)
| EvTickerStart (ticker : string)
| EvLog (ticker message : string)
| EvTickerDone (ticker sug : string) (cur pc : option float)
| EvTickerError (ticker error : string)
| EvError (message : string)
| EvDone (pid : string).

Definition with_analysis (a : Analysis) (pp : Post) : Post :=
  mkPost (id pp) (createdAt pp) (updatedAt pp) (title pp) (description pp)
    (tickers pp) (options pp) (purchases pp) (Some a) (snapshot pp).

Definition or_empty {V} (d : option (PyDict.t V)) : PyDict.t V :=
  match d with
  | Some x => x
  | None => []
  end.

Definition or_blank (s : option string) : string :=
  match s with
  | Some x => x
  | None => ""
  end.

(** [gen.init_analysis] *)
Definition init_analysis (env : Env) (pp : Post) : Post :=
  let ana :=
    match analysis pp with
    | Some a => a
    | None => mkAnalysis None None None None
    end in
  with_analysis
    (mkAnalysis (Some (or_blank (report ana)))
                (Some (or_empty (per_ticker ana)))
                (summary ana)
                (Some (_utcnow_iso env)))
    pp.

(** the analysis bundle after [init_analysis], which always sets one *)
Definition analysis_now (env : Env) (pp : Post) : Analysis :=
  match analysis (init_analysis env pp) with
  | Some a => a
  | None => mkAnalysis None None None None
  end.

(** [rep + ("\n" if rep else "") + text] *)
Definition append_log (rep text : string) : string :=
  rep ++ (if PyStr.truthy rep then String "010" EmptyString else "") ++ text.

(** [gen.log_err], closing over the import exception [e] *)
Definition log_err (env : Env) (e : string) (pp : Post) : Post :=
  let a := analysis_now env pp in
  with_analysis
    (mkAnalysis
       (Some (append_log (or_blank (report a)) (_wrap_text ("ERROR: " ++ e))))
       (per_ticker a) (summary a) (Some (_utcnow_iso env)))
    pp.

(** [gen.log_line.m], closing over [wrapped] *)
Definition m (env : Env) (wrapped : string) (pp : Post) : Post :=
  let a := analysis_now env pp in
  with_analysis
    (mkAnalysis (Some (append_log (or_blank (report a)) wrapped))
                (per_ticker a) (summary a) (Some (_utcnow_iso env)))
    pp.

(** [gen.upd], closing over [t], [norm] and [signals] *)
Definition upd (env : Env) (t norm : string) (sigs : Signals) (pp : Post) : Post :=
  let a := analysis_now env pp in
  with_analysis
    (mkAnalysis (report a)
                (Some (PyDict.set t (mkTickerResult norm sigs)
                         (or_empty (per_ticker a))))
                (summary a) (Some (_utcnow_iso env)))
    pp.

(** [gen.upd_snap], closing over [t], [cur] and [pct] *)
Definition upd_snap (env : Env) (t : string) (cur pc : option float) (pp : Post)
  : Post :=
  mkPost (id pp) (createdAt pp) (_utcnow_iso env) (title pp) (description pp)
    (tickers pp) (options pp) (purchases pp) (analysis pp)
    (Some (PyDict.set t (mkQuote cur pc) (or_empty (snapshot pp)))).

(** [per.get(t, {}).get("suggestion", "Hold")] *)
Definition previous_or_hold (t : string) (per : PyDict.t TickerResult) : string :=
  match PyDict.get t per with
  | Some v => suggestion v
  | None => "Hold"
  end.

(** [gen.upd_err], closing over [t] and the exception [e] *)
Definition upd_err (env : Env) (t e : string) (pp : Post) : Post :=
  let a := analysis_now env pp in
  let per := or_empty (per_ticker a) in
  with_analysis
    (mkAnalysis (report a)
                (Some (PyDict.set t
                         (mkTickerResult (previous_or_hold t per) (SigError e))
                         per))
                (summary a) (Some (_utcnow_iso env)))
    pp.

(** [gen.set_summary], closing over [lines] *)
Definition set_summary (env : Env) (lines : list string) (pp : Post) : Post :=
  let a := analysis_now env pp in
  with_analysis
    (mkAnalysis (report a) (per_ticker a)
                (Some (PyStr.join (String "010" EmptyString) lines))
                (Some (_utcnow_iso env)))
    pp.

(** The closures [gen] hands to [_update_post], by name and captured
    values. *)
Inductive Mutator : Type :=
| InitAnalysis
| LogErr (e : string)
| LogLine (wrapped : string)
| Upd (t norm : string) (sigs : Signals)
| UpdSnap (t : string) (cur pc : option float)
| UpdErr (t e : string)
| SetSummary (lines : list string).

Definition run_mutator (env : Env) (mu : Mutator) : Post -> Post :=
  match mu with
  | InitAnalysis => init_analysis env
  | LogErr e => log_err env e
  | LogLine wrapped => m env wrapped
  | Upd t norm sigs => upd env t norm sigs
  | UpdSnap t cur pc => upd_snap env t cur pc
  | UpdErr t e => upd_err env t e
  | SetSummary lines => set_summary env lines
  end.

(** the transactions that append to the report log *)
Definition is_log_append (mu : Mutator) : bool :=
  match mu with
  | LogErr _ | LogLine _ => true
  | _ => false
  end.

Definition is_error_event (ev : Event) : bool :=
  match ev with
  | EvError _ => true
  | _ => false
  end.

(** What a run of the generator leaves behind: the data file, the events
    yielded so far and the store transactions made so far, oldest first. *)
Record World : Type := mkWorld {
  file : DataFile;
  events : list Event;
  transactions : list Mutator
}.

Definition M (A : Type) : Type := World -> A * World.

Definition ret {A} (a : A) : M A := fun w => (a, w).

Definition bind {A B} (c : M A) (k : A -> M B) : M B :=
  fun w => let '(a, w') := c w in k a w'.

Declare Scope gen_scope.
Delimit Scope gen_scope with gen.
Notation "x <- c ;; k" := (bind c (fun x => k))
  (at level 61, c at next level, right associativity) : gen_scope.
Notation "c ;; k" := (bind c (fun _ => k))
  (at level 61, right associativity) : gen_scope.

(** [yield _sse(ev)] *)
Definition emit (ev : Event) : M unit :=
  fun w => (tt, mkWorld (file w) (events w ++ [ev])%list (transactions w)).

(** [_update_post(pid, mu)], whose result [gen] drops *)
Definition transact (env : Env) (pid : string) (mu : Mutator) : M unit :=
  fun w =>
    let '(_, f') := _update_post pid (fun pp => inr (run_mutator env mu pp)) (file w) in
    (tt, mkWorld f' (events w) (transactions w ++ [mu])%list).

Definition read_posts : M (list Post) := fun w => (_read (file w), w).

(** [gen.log_line] *)
Definition log_line (env : Env) (pid msg : string) : M unit :=
  transact env pid (LogLine (_wrap_text msg)).

(** [xs[-1]] of a list that is not empty *)
Fixpoint last_item {A} (xs : list A) : option A :=
  match xs with
  | [] => None
  | [x] => Some x
  | _ :: r => last_item r
  end.

Definition or_else {A} (a b : option A) : option A :=
  match a with
  | Some _ => a
  | None => b
  end.

Open Scope gen_scope.

(** One pass of [for chunk in ta.graph.stream(...)]; the state is
    [(final_state, last_decision_seen)]. *)
Definition stream_chunk (env : Env) (pid t : string)
  (st : option GraphState * option string) (chunk : GraphState)
  : M (option GraphState * option string) :=
  let '(final_state, last_decision_seen) := st in
  match last_item (messages chunk) with
  | None => ret st
  | Some message =>
      let text := PyStr.strip (or_blank (content message)) in
      if PyStr.truthy (or_blank (content message)) && PyStr.truthy text then
        log_line env pid (t ++ ": " ++ text) ;;
        emit (EvLog t text) ;;
        ret (Some chunk,
             or_else (_derive_decision_from_text (Some text)) last_decision_seen)
      else ret (Some chunk, last_decision_seen)
  end.

Fixpoint stream_chunks_loop (env : Env) (pid t : string) (chunks : list GraphState)
  (st : option GraphState * option string)
  : M (option GraphState * option string) :=
  match chunks with
  | [] => ret st
  | chunk :: r =>
      st' <- stream_chunk env pid t st chunk ;;
      stream_chunks_loop env pid t r st'
  end.

(** the [# Decide] block: [decision] from the final state, the fallback
    to the transcript, and its normalisation *)
Definition decide (s : Session) (final_state : GraphState)
  (last_decision_seen : option string) : string :=
  let decision :=
    match final_trade_decision final_state with
    | Some ftd =>
        if PyStr.truthy ftd then
          match process_signal s ftd with
          | inr r => or_blank r
          | inl _ => ftd
          end
        else ""
    | None => ""
    end in
  let decision :=
    if negb (PyStr.truthy decision) then
      match last_decision_seen with
      | Some d => d
      | None => "Hold"
      end
    else decision in
  norm_of_decision decision.

(** the [except Exception as e] handler of the ticker loop *)
Definition on_ticker_error (env : Env) (pid t e : string) : M unit :=
  (if PyStr.contains "already exists" e && PyStr.contains "memory" (PyStr.lower e)
   then log_line env pid
          (t ++ ": warning Memory collection already exists; reusing existing memory.")
   else log_line env pid (t ++ ": error " ++ e)) ;;
  transact env pid (UpdErr t e) ;;
  emit (EvTickerError t e).

(** One pass of [for t in tickers] in [gen]; [p] is the post object read
    when the request came in. *)
Definition stream_ticker (env : Env) (pid : string) (p : Post) (date_str : string)
  (i : nat) (t : string) : M unit :=
  let s := engine env i t date_str in
  emit (EvTickerStart t) ;;
  st <- stream_chunks_loop env pid t (stream_chunks s) (None, None) ;;
  match stream_raises s with
  | Some e => on_ticker_error env pid t e
  | None =>
      match fst st with
      | None => on_ticker_error env pid t "No final state produced by graph.stream"
      | Some final_state =>
          let norm := decide s final_state (snd st) in
          transact env pid (Upd t norm (signals_of final_state)) ;;
          let cur := get_latest_price env i t in
          let pc := pct_of (purchase_of p t) cur in
          transact env pid (UpdSnap t cur pc) ;;
          emit (EvTickerDone t norm cur pc)
      end
  end.

Fixpoint stream_loop (env : Env) (pid : string) (p : Post) (date_str : string)
  (i : nat) (ts : list string) : M unit :=
  match ts with
  | [] => ret tt
  | t :: r =>
      stream_ticker env pid p date_str i t ;;
      stream_loop env pid p date_str (S i) r
  end.

(** the per-ticker mapping as the code reads it:
    [(p.get("analysis") or {}).get("per_ticker") or {}] *)
Definition per_ticker_of (p : Post) : PyDict.t TickerResult :=
  match analysis p with
  | Some a => or_empty (per_ticker a)
  | None => []
  end.

(** [v.get('suggestion', '')] for [v = per.get(tk) or {}] *)
Definition suggestion_or_blank (tk : string) (per : PyDict.t TickerResult) : string :=
  match PyDict.get tk per with
  | Some v => suggestion v
  | None => ""
  end.

(** [analyze_post_stream.gen]; [inl] is an exception that escapes the
    generator. *)
Definition gen (env : Env) (pid : string) (p : Post) : M (Exc unit) :=
  let tickers := tickers p in
  let opts := options p in
  transact env pid InitAnalysis ;;
  emit (EvStart pid tickers) ;;
  match import_error env with
  | Some e =>
      transact env pid (LogErr e) ;;
      emit (EvError ("TradingAgents import error: " ++ e)) ;;
      ret (inr tt)
  | None =>
      let date_str := date_of env opts in
      stream_loop env pid p date_str 0 tickers ;;
      posts_now <- read_posts ;;
      match _find posts_now pid with
      | None => ret (inl "'NoneType' object has no attribute 'get'")
      | Some p_now =>
          let per := per_ticker_of p_now in
          let lines :=
            map (fun tk =>
                   summary_line tk (suggestion_or_blank tk per) (date_of env opts))
                tickers in
          transact env pid (SetSummary lines) ;;
          emit (EvDone pid) ;;
          ret (inr tt)
      end
  end.

(** [analyze_post_stream] with its response body consumed to the end:
    [None] is the 404 response. *)
Definition analyze_post_stream (env : Env) (pid : string) (f : DataFile)
  : option (Exc unit) * World :=
  match _find (_read f) pid with
  | None => (None, mkWorld f [] [])
  | Some p =>
      let '(r, w) := gen env pid p (mkWorld f [] []) in
      (Some r, w)
  end.

Close Scope gen_scope.

(** ** What the analysis claims observe of a post *)

Definition summary_of (p : Post) : option string :=
  match analysis p with
  | Some a => summary a
  | None => None
  end.

Definition snapshot_of (p : Post) : PyDict.t Quote := or_empty (snapshot p).

(** the persisted state of post [pid]: per-ticker results, summary and
    snapshot *)
Definition persisted (pid : string) (f : DataFile)
  : option (PyDict.t TickerResult * option string * PyDict.t Quote) :=
  match _find (_read f) pid with
  | Some p => Some (per_ticker_of p, summary_of p, snapshot_of p)
  | None => None
  end.

(** ** Request payloads and the other endpoints *)

(** The JSON body of a create or update request.  A field is [None] when
    its key is absent, [Some None] when it is [null]. *)
Record Payload : Type := mkPayload {
  payload_title : option (option string);
  payload_description : option (option string);
  payload_tickers : option (option (list string));
  payload_options : option (option Options);
  payload_purchases : option (option Purchases)
}.

(** [payload.get(key)], with [None] for an absent key and for [null] *)
Definition payload_get {A} (x : option (option A)) : option A :=
  match x with
  | Some (Some v) => Some v
  | _ => None
  end.

(** [(x or "").strip() or "Untitled"] *)
Definition title_or_untitled (x : option string) : string :=
  let s := PyStr.strip (or_blank x) in
  if PyStr.truthy s then s else "Untitled".

(** [[t.strip().upper() for t in (x or []) if t.strip()]] *)
Definition normalize_tickers (x : option (list string)) : list string :=
  map (fun t => PyStr.upper (PyStr.strip t))
      (filter (fun t => PyStr.truthy (PyStr.strip t))
              (match x with Some ts => ts | None => [] end)).

(** [x or {}] for the options *)
Definition options_or_empty (x : option Options) : Options :=
  match x with
  | Some o => o
  | None => mkOptions None
  end.

(** [x or {}] for the purchases: an empty mapping and a zero are falsy;
    [PurchasesOther] stands for a truthy value of another type *)
Definition purchases_or_empty (x : option Purchases) : Purchases :=
  match x with
  | Some (PurchasesDict d) => PurchasesDict d
  | Some (PurchasesNumber v) =>
      if PrimFloat.eqb v 0%float then PurchasesDict [] else PurchasesNumber v
  | Some PurchasesOther => PurchasesOther
  | None => PurchasesDict []
  end.

(** [create_post]; [now] is the clock reading and [new_id] the
    [str(uuid.uuid4())] drawn for the post.  The post returned and the
    data file afterwards. *)
Definition create_post (now new_id : string) (payload : Payload) (f : DataFile)
  : Post * DataFile :=
  let p :=
    mkPost new_id now now
      (title_or_untitled (payload_get (payload_title payload)))
      (PyStr.strip (or_blank (payload_get (payload_description payload))))
      (normalize_tickers (payload_get (payload_tickers payload)))
      (options_or_empty (payload_get (payload_options payload)))
      (purchases_or_empty (payload_get (payload_purchases payload)))
      None (Some []) in
  (p, _write (_read f ++ [p])%list).

(** [update_post]: [None] is the 404 response *)
Definition update_post (now pid : string) (payload : Payload) (f : DataFile)
  : option Post * DataFile :=
  let posts := _read f in
  match _find posts pid with
  | None => (None, f)
  | Some p =>
      let p' :=
        mkPost (id p) (createdAt p) now
          (match payload_title payload with
           | Some x => title_or_untitled x
           | None => title p
           end)
          (match payload_description payload with
           | Some x => PyStr.strip (or_blank x)
           | None => description p
           end)
          (match payload_tickers payload with
           | Some x => normalize_tickers x
           | None => tickers p
           end)
          (match payload_options payload with
           | Some x => options_or_empty x
           | None => options p
           end)
          (match payload_purchases payload with
           | Some x => purchases_or_empty x
           | None => purchases p
           end)
          (analysis p) (snapshot p) in
      (Some p', _write (mutate_found posts pid p'))
  end.

(** [delete_post]: [false] is the 404 response *)
Definition delete_post (pid : string) (f : DataFile) : bool * DataFile :=
  let posts := _read f in
  let new_posts := filter (fun x => negb (String.eqb (id x) pid)) posts in
  if (List.length new_posts =? List.length posts)%nat then (false, f)
  else (true, _write new_posts).

(** the suggestion [summarize_post] prints for a ticker: the stored one
    when it is not empty, else the one parsed from the report, else Hold *)
Definition summarized_suggestion (p : Post) (tk : string) : string :=
  let report_text :=
    match analysis p with
    | Some a => or_blank (report a)
    | None => ""
    end in
  let sug := suggestion_or_blank tk (per_ticker_of p) in
  if PyStr.truthy sug then sug
  else match parse_from_report report_text tk with
       | Some dcs => dcs
       | None => "Hold"
       end.

(** [summarize_post].  The [analysis] of a post is [None] when the stored
    value is [null], as [create_post] writes it: [setdefault] then returns
    that [None] and the assignment of the summary raises.  [inr None] is
    the 404 response. *)
Definition summarize_post (env : Env) (pid : string) (f : DataFile)
  : Exc (option Post) * DataFile :=
  let posts := _read f in
  match _find posts pid with
  | None => (inr None, f)
  | Some p =>
      let date_str := date_of env (options p) in
      let lines :=
        map (fun tk => summary_line tk (summarized_suggestion p tk) date_str)
            (tickers p) in
      match lines with
      | [] => (inr (Some p), f)
      | _ :: _ =>
          match analysis p with
          | None => (inl "'NoneType' object does not support item assignment", f)
          | Some a =>
              let p' :=
                mkPost (id p) (createdAt p) (_utcnow_iso env) (title p)
                  (description p) (tickers p) (options p) (purchases p)
                  (Some (mkAnalysis (report a) (per_ticker a)
                           (Some (PyStr.join (String "010" EmptyString) lines))
                           (Some (_utcnow_iso env))))
                  (snapshot p) in
              (inr (Some p'), _write (mutate_found posts pid p'))
          end
      end
  end.

(** [refresh_snapshot]: [None] is the 404 response *)
Definition refresh_snapshot (env : Env) (pid : string) (f : DataFile)
  : option Post * DataFile :=
  let posts := _read f in
  match _find posts pid with
  | None => (None, f)
  | Some p =>
      let snap := snapshot_loop env p 0 (tickers p) [] in
      let p' :=
        mkPost (id p) (createdAt p) (_utcnow_iso env) (title p) (description p)
          (tickers p) (options p) (purchases p) (analysis p) (Some snap) in
      (Some p', _write (mutate_found posts pid p'))
  end.

(** [row_suggestion] *)
Definition row_suggestion (a : Analysis) (primary : string) : string :=
  match PyDict.get primary (or_empty (per_ticker a)) with
  | Some rec => suggestion rec
  | None => "Hold"
  end.

(** The loop of [analyze_all] over the posts read at the start: pass [k]
    runs [analyze_post] in the environment [envs k] on the data file as
    the passes before left it.  An entry of [out] is the post returned, or
    the error recorded when the route answered 404. *)
Fixpoint analyze_all_loop (envs : nat -> Env) (k : nat) (ps : list Post)
  (st : list (Exc Post) * DataFile) : list (Exc Post) * DataFile :=
  match ps with
  | [] => st
  | p :: r =>
      let '(out, f) := st in
      let '(res, f') := analyze_post (envs k) (id p) f in
      let entry :=
        match res with
        | Some p' => inr p'
        | None => inl "'tuple' object has no attribute 'response'"
        end in
      analyze_all_loop envs (S k) r ((out ++ [entry])%list, f')
  end.

Definition analyze_all (envs : nat -> Env) (f : DataFile)
  : list (Exc Post) * DataFile :=
  analyze_all_loop envs 0 (_read f) ([], f).

(** ** Scheduler *)

Definition DAILY_REGEN_HOUR : Z := 13.
Definition DAILY_REGEN_MIN : Z := 10.

Definition microseconds_per_day : Z := 86400 * 1000000.

(** [_sleep_until_next_run(now)].  [now] and [target] carry the same date
    and time zone, and Python subtracts such datetimes on the wall clock,
    so [now] is given by its time of day, in microseconds since midnight;
    the result is the number of microseconds whose millionth part the
    function returns as seconds. *)
Definition _sleep_until_next_run (now : Z) : Z :=
  let target := ((DAILY_REGEN_HOUR * 3600 + DAILY_REGEN_MIN * 60) * 1000000)%Z in
  let target := if (now >=? target)%Z then (target + microseconds_per_day)%Z
                else target in
  let delta := (target - now)%Z in
  Z.max 10000000 delta.

(** ** Auxiliary definitions used to state the properties *)

(** every character of [s] satisfies [P] *)
Fixpoint all_chars (P : ascii -> bool) (s : string) : bool :=
  match s with
  | EmptyString => true
  | String c r => P c && all_chars P r
  end.

Definition no_space (s : string) : bool :=
  all_chars (fun c => negb (PyStr.is_space c)) s.

(** a line looks like an explicit decision for the report scanner *)
Definition has_marker (low : string) : bool :=
  PyStr.contains "final" low || PyStr.contains "proposal" low
  || PyStr.contains "decision" low || PyStr.contains ":" low.

(** the buy > sell > hold reading of a lowercased text *)
Definition keyword_of (low : string) : option string :=
  if PyStr.contains "buy" low then Some "Buy"
  else if PyStr.contains "sell" low then Some "Sell"
  else if PyStr.contains "hold" low then Some "Hold"
  else None.

(** a line of the report that sets the decision for ticker [tk] *)
Definition line_decides (tk line : string) : option string :=
  if PyStr.contains (PyStr.upper tk) (PyStr.upper line)
     && has_marker (PyStr.lower line)
  then keyword_of (PyStr.lower line)
  else None.

(** the request of a reorder, read as the spec words it: ids that are
    not stored are dropped, and of a repeated id the first mention
    counts *)
Fixpoint first_mentions (seen : list string) (order : list string) : list string :=
  match order with
  | [] => []
  | x :: r =>
      if str_in x seen then first_mentions seen r
      else x :: first_mentions (x :: seen) r
  end.

Definition requested_ids (posts : list Post) (order : list string) : list string :=
  first_mentions [] (filter (fun x => str_in x (map id posts)) order).

(** the posts stored under the given ids, in the order of the ids *)
Definition lookup_all (posts : list Post) (ids : list string) : list Post :=
  flat_map (fun i => match _find posts i with Some p => [p] | None => [] end) ids.

(** the posts the request does not mention, in stored order *)
Definition unrequested (posts : list Post) (order : list string) : list Post :=
  filter (fun p => negb (str_in (id p) order)) posts.

(** the last value that is present *)
Fixpoint last_some {A} (l : list (option A)) : option A :=
  match l with
  | [] => None
  | x :: r => or_else (last_some r) x
  end.

(** the text a streamed chunk contributes to the log, if any *)
Definition chunk_text (chunk : GraphState) : option string :=
  match last_item (messages chunk) with
  | Some message =>
      let text := PyStr.strip (or_blank (content message)) in
      if PyStr.truthy (or_blank (content message)) && PyStr.truthy text
      then Some text else None
  | None => None
  end.

(** the decision the transcript of one ticker leaves behind: of the
    chunks whose text names a keyword, the last one counts *)
Definition transcript_decision (chunks : list GraphState) : option string :=
  last_some
    (map (fun chunk =>
            match chunk_text chunk with
            | Some text => keyword_of (PyStr.lower text)
            | None => None
            end)
         chunks).

(** *** The generator as a writer of transactions and events *)

(** the post after a sequence of transactions *)
Definition apply_all (env : Env) (txs : list Mutator) (p : Post) : Post :=
  fold_left (fun q mu => run_mutator env mu q) txs p.

(** the world once post [pid] has become [p'], the transactions [txs]
    have been made and the events [evs] yielded *)
Definition commit (w : World) (pid : string) (p' : Post)
  (txs : list Mutator) (evs : list Event) : World :=
  mkWorld (Stored (mutate_found (_read (file w)) pid p'))
          (events w ++ evs)%list (transactions w ++ txs)%list.

(** [c] returns [a] after making the transactions [txs] on post [pid] and
    yielding the events [evs], whatever the post held before *)
Definition Writes {A} (env : Env) (pid : string) (c : M A) (a : A)
  (txs : list Mutator) (evs : list Event) : Prop :=
  forall w p, _find (_read (file w)) pid = Some p ->
    c w = (a, commit w pid (apply_all env txs p) txs evs).

Definition chunk_logs (t : string) (chunks : list GraphState) : list Mutator :=
  flat_map (fun chunk =>
              match chunk_text chunk with
              | Some text => [LogLine (_wrap_text (t ++ ": " ++ text))]
              | None => []
              end) chunks.

Definition chunk_events (t : string) (chunks : list GraphState) : list Event :=
  flat_map (fun chunk =>
              match chunk_text chunk with
              | Some text => [EvLog t text]
              | None => []
              end) chunks.

(** the last chunk that carries messages: [final_state] after the loop *)
Definition stream_final (chunks : list GraphState) : option GraphState :=
  last_some
    (map (fun chunk =>
            match last_item (messages chunk) with
            | Some _ => Some chunk
            | None => None
            end) chunks).

(** the known memory-collection condition of the exception handler *)
Definition benign (e : string) : bool :=
  PyStr.contains "already exists" e && PyStr.contains "memory" (PyStr.lower e).

Definition warning_text (t : string) : string :=
  t ++ ": warning Memory collection already exists; reusing existing memory.".

Definition error_trace (t e : string) : list Mutator * list Event :=
  ([LogLine (_wrap_text (if benign e then warning_text t else t ++ ": error " ++ e));
    UpdErr t e],
   [EvTickerError t e]).

(** what pass [i] of the ticker loop writes and yields *)
Definition ticker_trace (env : Env) (p : Post) (date_str : string)
  (i : nat) (t : string) : list Mutator * list Event :=
  let s := engine env i t date_str in
  let '(txs, evs) :=
    match stream_raises s with
    | Some e => error_trace t e
    | None =>
        match stream_final (stream_chunks s) with
        | None => error_trace t "No final state produced by graph.stream"
        | Some final_state =>
            let norm := decide s final_state (transcript_decision (stream_chunks s)) in
            let cur := get_latest_price env i t in
            let pc := pct_of (purchase_of p t) cur in
            ([Upd t norm (signals_of final_state); UpdSnap t cur pc],
             [EvTickerDone t norm cur pc])
        end
    end in
  ((chunk_logs t (stream_chunks s) ++ txs)%list,
   (EvTickerStart t :: chunk_events t (stream_chunks s) ++ evs)%list).

Fixpoint loop_trace (env : Env) (p : Post) (date_str : string)
  (i : nat) (ts : list string) : list Mutator * list Event :=
  match ts with
  | [] => ([], [])
  | t :: r =>
      let '(txs, evs) := ticker_trace env p date_str i t in
      let '(txs', evs') := loop_trace env p date_str (S i) r in
      ((txs ++ txs')%list, (evs ++ evs')%list)
  end.

(** what a transaction does to the per-ticker mapping and to the
    snapshot *)
Definition per_step (mu : Mutator) (per : PyDict.t TickerResult)
  : PyDict.t TickerResult :=
  match mu with
  | Upd t norm sigs => PyDict.set t (mkTickerResult norm sigs) per
  | UpdErr t e =>
      PyDict.set t (mkTickerResult (previous_or_hold t per) (SigError e)) per
  | _ => per
  end.

Definition snap_step (mu : Mutator) (snap : PyDict.t Quote) : PyDict.t Quote :=
  match mu with
  | UpdSnap t cur pc => PyDict.set t (mkQuote cur pc) snap
  | _ => snap
  end.

(** the lines of the final summary, read from the post as the ticker
    loop left it *)
Definition summary_lines (p_mid : Post) (tks : list string) (d : string)
  : list string :=
  map (fun tk => summary_line tk (suggestion_or_blank tk (per_ticker_of p_mid)) d) tks.

(** the ticker whose per-ticker entry a transaction writes *)
Definition written_ticker (mu : Mutator) : option string :=
  match mu with
  | Upd t _ _ | UpdErr t _ => Some t
  | _ => None
  end.

(** the summary line the non-streaming loop appends in pass [i] *)
Definition batch_line (env : Env) (d : string) (i : nat) (t : string) : string :=
  match propagate (engine env i t d) with
  | inr (_, decision) => summary_line t (_norm decision) d
  | inl _ => t ++ ": Hold (error)"
  end.

Fixpoint batch_lines (env : Env) (d : string) (i : nat) (ts : list string)
  : list string :=
  match ts with
  | [] => []
  | t :: r => batch_line env d i t :: batch_lines env d (S i) r
  end.

(** the per-ticker entry the non-streaming loop writes in pass [i] *)
Definition batch_entry (env : Env) (d : string) (i : nat) (t : string)
  : TickerResult :=
  match propagate (engine env i t d) with
  | inr (final_state, decision) =>
      mkTickerResult (_norm decision) (signals_of final_state)
  | inl e => mkTickerResult "Hold" (SigError e)
  end.

Fixpoint batch_per (env : Env) (d : string) (i : nat) (ts : list string)
  (per : PyDict.t TickerResult) : PyDict.t TickerResult :=
  match ts with
  | [] => per
  | t :: r => batch_per env d (S i) r (PyDict.set t (batch_entry env d i t) per)
  end.


(** one of the three suggestions *)
Definition is_suggestion (s : string) : Prop :=
  s = "Buy" \/ s = "Sell" \/ s = "Hold".

(** *** Statements about the further endpoints *)

(** the data file [f'] differs from [f] at most in the first post of id
    [pid]: the ids are the same, in the same order, and every post of
    another id sits where it sat *)
Definition only_touches (pid : string) (f f' : DataFile) : Prop :=
  map id (_read f') = map id (_read f)
  /\ forall n q, nth_error (_read f) n = Some q -> id q <> pid ->
       nth_error (_read f') n = Some q.

(** the events of one pass of the ticker loop: the ticker-start event,
    log events of the ticker, then its ticker-done or ticker-error
    event *)
Definition is_log_for (t : string) (ev : Event) : Prop :=
  exists message, ev = EvLog t message.

Definition is_terminal_for (t : string) (ev : Event) : Prop :=
  (exists sug cur pc, ev = EvTickerDone t sug cur pc)
  \/ (exists e, ev = EvTickerError t e).

Definition ticker_block (t : string) (evs : list Event) : Prop :=
  exists logs last,
    evs = (EvTickerStart t :: logs ++ [last])%list
    /\ Forall (is_log_for t) logs
    /\ is_terminal_for t last.

(** the report log of a post, empty when there is none *)
Definition report_of (p : Post) : string :=
  match analysis p with
  | Some a => or_blank (report a)
  | None => ""
  end.

(** the ticker whose quote a transaction writes *)
Definition quoted_ticker (mu : Mutator) : option string :=
  match mu with
  | UpdSnap t _ _ => Some t
  | _ => None
  end.


(** no character of [s] is a line boundary *)
Definition no_linebreak (s : string) : bool :=
  all_chars (fun c => negb (PyStr.is_cr c || PyStr.is_linebreak c)) s.

(** the time of day of the daily run, in microseconds since midnight *)
Definition regen_time : Z :=
  ((DAILY_REGEN_HOUR * 3600 + DAILY_REGEN_MIN * 60) * 1000000)%Z.

(** every character of [s] is an ASCII character *)
Definition is_ascii (s : string) : bool :=
  all_chars (fun c => (nat_of_ascii c <? 128)%nat) s.

(** a loop that makes one assignment [d[t] = value i t] per pass, [t]
    being the ticker of pass [i]: the shape of the per-ticker loop and of
    the snapshot loop *)
Fixpoint assign_loop {V} (value : nat -> string -> V) (i : nat)
  (ts : list string) (d : PyDict.t V) : PyDict.t V :=
  match ts with
  | [] => d
  | t :: r => assign_loop value (S i) r (PyDict.set t (value i t) d)
  end.

(** the quote the snapshot loop stores in pass [i] *)
Definition batch_quote (env : Env) (p : Post) (i : nat) (t : string) : Quote :=
  mkQuote (get_latest_price env i t)
          (pct_of (purchase_of p t) (get_latest_price env i t)).

(** ** Sample data *)

Definition sample_post (pid : string) (tks : list string) : Post :=
  mkPost pid "2025-01-01T00:00:00Z" "2025-01-01T00:00:00Z" "Basket" ""
    tks (mkOptions (Some "2025-01-02"))
    (PurchasesDict [("AAPL", Some 100%float)]) None (Some []).

(** a session whose engine raises [e] before any chunk is streamed *)
Definition raising_session (e : string) : Session :=
  mkSession (inl e) [] (Some e) (fun _ => inr None).

(** an environment in which the engine package cannot be imported *)
Definition env_unavailable : Env :=
  mkEnv "2025-01-03T00:00:00Z" "2025-01-03" false
    (Some "No module named 'tradingagents'")
    (fun _ _ _ => raising_session "unreachable") (fun _ _ => None).

(** an environment whose engine raises [e] for every ticker while the
    price feed answers 150 *)
Definition env_raising (e : string) : Env :=
  mkEnv "2025-01-03T00:00:00Z" "2025-01-03" true None
    (fun _ _ _ => raising_session e) (fun _ _ => Some 150%float).

Definition memory_error : string :=
  "Collection bull_memory already exists".

(** a post on AAPL whose last analysis recorded Buy *)
Definition post_with_buy : Post :=
  mkPost "p1" "2025-01-01T00:00:00Z" "2025-01-02T00:00:00Z" "Basket" ""
    ["AAPL"] (mkOptions (Some "2025-01-02"))
    (PurchasesDict [("AAPL", Some 100%float)])
    (Some (mkAnalysis (Some "") 
             (Some [("AAPL", mkTickerResult "Buy" (SigNote "earlier run"))])
             (Some "AAPL: Buy (2025-01-01)") (Some "2025-01-02T00:00:00Z")))
    (Some [("AAPL", mkQuote (Some 140%float) (Some 40%float))]).

(** the same post after its ticker list has been changed to MSFT: the
    stored result and quote are for a ticker it lists no more *)
Definition post_retargeted : Post :=
  mkPost "p1" "2025-01-01T00:00:00Z" "2025-01-02T00:00:00Z" "Basket" ""
    ["MSFT"] (mkOptions (Some "2025-01-02"))
    (PurchasesDict [("AAPL", Some 100%float)])
    (analysis post_with_buy) (snapshot post_with_buy).

(** a session that streams one chunk and succeeds with BUY through both
    interfaces *)
Definition buy_state : GraphState :=
  mkGraphState [mkMessage (Some "Final decision: BUY")]
    (Some "FINAL TRANSACTION PROPOSAL: **BUY**") (Some "accumulate")
    (Some (mkDebateState (Some "Buy"))) None.

Definition buy_session : Session :=
  mkSession (inr (buy_state, Some "BUY")) [buy_state] None
    (fun _ => inr (Some "BUY")).

Definition env_buy : Env :=
  mkEnv "2025-01-03T00:00:00Z" "2025-01-03" true None
    (fun _ _ _ => buy_session) (fun _ _ => Some 150%float).

(** a session that succeeds with SELL through both interfaces, and an
    environment whose engine answers BUY in the first pass and SELL in
    every later one *)
Definition sell_state : GraphState :=
  mkGraphState [mkMessage (Some "Final decision: SELL")]
    (Some "FINAL TRANSACTION PROPOSAL: **SELL**") (Some "reduce")
    (Some (mkDebateState (Some "Sell"))) None.

Definition sell_session : Session :=
  mkSession (inr (sell_state, Some "SELL")) [sell_state] None
    (fun _ => inr (Some "SELL")).

Definition env_flip : Env :=
  mkEnv "2025-01-03T00:00:00Z" "2025-01-03" true None
    (fun i _ _ => if (i =? 0)%nat then buy_session else sell_session)
    (fun _ _ => Some 150%float).

(** * Properties *)

(** ** Strings *)

Section StringFacts.

Import PyStr.

Lemma is_space_lower_char (c : ascii) : is_space (lower_char c) = is_space c.
Proof. destruct c as [[] [] [] [] [] [] [] []]; reflexivity. Qed.

Lemma lower_lstrip (s : string) : lower (lstrip s) = lstrip (lower s).
Proof.
  induction s as [|c r IH]; simpl; [reflexivity|].
  rewrite is_space_lower_char.
  destruct (is_space c); [exact IH | reflexivity].
Qed.

Lemma lower_rstrip (s : string) : lower (rstrip s) = rstrip (lower s).
Proof.
  induction s as [|c r IH]; simpl; [reflexivity|].
  rewrite <- IH, is_space_lower_char.
  destruct (rstrip r); simpl; [destruct (is_space c)|]; reflexivity.
Qed.

Lemma lower_strip (s : string) : lower (strip s) = strip (lower s).
Proof. unfold strip. now rewrite lower_rstrip, lower_lstrip. Qed.

Lemma prefix_nil_r (n : string) : n <> "" -> prefix n "" = false.
Proof. destruct n; [congruence | reflexivity]. Qed.

Lemma prefix_rstrip (r n : string) :
  no_space n = true -> prefix n (rstrip r) = prefix n r.
Proof.
  revert n; induction r as [|c r0 IH]; intros n Hn; [reflexivity|].
  destruct n as [|a n']; [now destruct (rstrip (String c r0))|].
  simpl in Hn. apply andb_prop in Hn as [Ha Hn'].
  specialize (IH n' Hn').
  simpl rstrip. destruct (rstrip r0) as [|b s] eqn:E.
  - destruct (is_space c) eqn:Ec; simpl.
    + destruct (ascii_dec a c) as [->|]; [|reflexivity].
      rewrite Ec in Ha; discriminate.
    + destruct (ascii_dec a c); [exact IH | reflexivity].
  - simpl. destruct (ascii_dec a c); [exact IH | reflexivity].
Qed.

Lemma contains_rstrip (n r : string) :
  n <> "" -> no_space n = true -> contains n (rstrip r) = contains n r.
Proof.
  intros Hne Hn. induction r as [|c r0 IH]; [reflexivity|].
  change (contains n (String c r0))
    with (if prefix n (String c r0) then true else contains n r0).
  rewrite <- (prefix_rstrip (String c r0) n Hn), <- IH.
  simpl rstrip. destruct (rstrip r0) as [|b s]; [|reflexivity].
  destruct n as [|a n']; [congruence|].
  destruct (is_space c); simpl; [reflexivity|].
  now destruct (ascii_dec a c); [destruct n'|].
Qed.

Lemma contains_lstrip (n s : string) :
  n <> "" -> no_space n = true -> contains n (lstrip s) = contains n s.
Proof.
  intros Hne Hn. induction s as [|c r IH]; [reflexivity|].
  simpl lstrip. destruct (is_space c) eqn:Ec; [|reflexivity].
  rewrite IH. destruct n as [|a n']; [congruence|].
  simpl in Hn. apply andb_prop in Hn as [Ha _].
  simpl. destruct (ascii_dec a c) as [->|]; [|reflexivity].
  rewrite Ec in Ha; discriminate.
Qed.

Lemma contains_strip (n s : string) :
  n <> "" -> no_space n = true -> contains n (strip s) = contains n s.
Proof.
  intros Hne Hn. unfold strip.
  now rewrite contains_rstrip, contains_lstrip.
Qed.

(** Stripping does not change which keywords the lowercased text holds. *)
Lemma contains_lower_strip (n s : string) :
  n <> "" -> no_space n = true ->
  contains n (lower (strip s)) = contains n (lower s).
Proof. intros. rewrite lower_strip. now apply contains_strip. Qed.

End StringFacts.

(** ** Decision normaliser: the lenient variant *)

Example _norm_buy_and_sell : _norm (Some "  Sell now, BUY later ") = "Buy".
Proof. reflexivity. Qed.

Example _norm_sell_only : _norm (Some "SELL") = "Sell".
Proof. reflexivity. Qed.

Example norm_of_decision_other : norm_of_decision "wait and see" = "Hold".
Proof. reflexivity. Qed.

Lemma _norm_priority (s : option string) :
  _norm s =
    (if PyStr.contains "buy" (PyStr.lower (or_blank s)) then "Buy"
     else if PyStr.contains "sell" (PyStr.lower (or_blank s)) then "Sell"
     else "Hold").
Proof.
  unfold _norm. fold (or_blank s).
  rewrite !contains_lower_strip by (reflexivity || discriminate).
  reflexivity.
Qed.

(** C6: the lenient normaliser is total and follows the fixed priority:
    for every input (a string, or [None]) [_norm] returns one of Buy,
    Sell, Hold; it is Buy exactly when the lowercased text contains "buy",
    Sell when it contains "sell" and not "buy", Hold otherwise, in
    particular on [None] and on the empty string.  The inline
    normalisation of the streaming pipeline follows the same rule. *)
Theorem normalize_total_priority (s : option string) (decision : string) :
  (_norm s = "Buy" \/ _norm s = "Sell" \/ _norm s = "Hold")
  /\ _norm s =
       (if PyStr.contains "buy" (PyStr.lower (or_blank s)) then "Buy"
        else if PyStr.contains "sell" (PyStr.lower (or_blank s)) then "Sell"
        else "Hold")
  /\ _norm None = "Hold"
  /\ _norm (Some "") = "Hold"
  /\ (norm_of_decision decision = "Buy" \/ norm_of_decision decision = "Sell"
      \/ norm_of_decision decision = "Hold")
  /\ norm_of_decision decision =
       (if PyStr.contains "buy" (PyStr.lower decision) then "Buy"
        else if PyStr.contains "sell" (PyStr.lower decision) then "Sell"
        else "Hold").
Proof.
  pose proof (_norm_priority s) as E.
  repeat split; try reflexivity.
  - rewrite E.
    destruct (PyStr.contains "buy" _); [now left|].
    destruct (PyStr.contains "sell" _); [right; now left | right; now right].
  - exact E.
  - clear E. unfold norm_of_decision.
    destruct (PyStr.contains "buy" _); [now left|].
    destruct (PyStr.contains "sell" _); [right; now left | right; now right].
Qed.

(** ** Percent change *)

Example percent_change_100_150 :
  percent_change (Some 100%float) (Some 150%float) = Some 50%float.
Proof. vm_compute. reflexivity. Qed.

Example percent_change_negative_zero :
  percent_change (Some (-0)%float) (Some 150%float) = None.
Proof. vm_compute. reflexivity. Qed.

(** C7: [percent_change purchase current] is [None] exactly when the
    purchase is [None], the current price is [None], or the purchase
    compares equal to zero; in every other case it is
    [(current - purchase) / purchase * 100] in binary64 arithmetic. *)
Theorem percent_change_defined_iff (purchase current : option float) :
  (percent_change purchase current = None <->
     purchase = None \/ current = None
     \/ exists p, purchase = Some p /\ PrimFloat.eqb p 0%float = true)
  /\ (forall p c,
        percent_change (Some p) (Some c) =
          if PrimFloat.eqb p 0%float then None
          else Some (PrimFloat.mul (PrimFloat.div (PrimFloat.sub c p) p) 100%float)).
Proof.
  split; [|reflexivity].
  unfold percent_change.
  destruct purchase as [p|], current as [c|]; split; intros H;
    try solve [auto | reflexivity].
  - destruct (PrimFloat.eqb p 0%float) eqn:E; [|discriminate].
    right; right. now exists p.
  - destruct H as [H|[H|[q [Hq E]]]]; try discriminate.
    injection Hq as <-. now rewrite E.
Qed.

(** ** Store transactions *)

Section StoreFacts.

Lemma _find_split (posts : list Post) (pid : string) :
  (exists l1 p l2,
     posts = (l1 ++ p :: l2)%list /\ id p = pid
     /\ Forall (fun q => id q <> pid) l1
     /\ _find posts pid = Some p
     /\ forall p', mutate_found posts pid p' = (l1 ++ p' :: l2)%list)
  \/ (Forall (fun q => id q <> pid) posts /\ _find posts pid = None).
Proof.
  induction posts as [|q r IH]; [right; split; [constructor | reflexivity]|].
  simpl. destruct (String.eqb (id q) pid) eqn:E.
  - apply String.eqb_eq in E. left. exists [], q, r.
    repeat split; auto.
  - apply String.eqb_neq in E.
    destruct IH as [(l1 & p & l2 & -> & Hid & Hl1 & Hf & Hm) | [Hall Hf]].
    + left. exists (q :: l1), p, l2. repeat split; auto.
      intros p'. simpl. now rewrite Hm.
    + right. split; [constructor|]; assumption.
Qed.

Lemma _find_some (posts : list Post) (pid : string) (p : Post) :
  _find posts pid = Some p -> In p posts /\ id p = pid.
Proof.
  induction posts as [|q r IH]; simpl; [discriminate|].
  destruct (String.eqb (id q) pid) eqn:E.
  - intros [= ->]. apply String.eqb_eq in E. auto.
  - intros H. destruct (IH H). auto.
Qed.

Lemma _find_none (posts : list Post) (pid : string) :
  _find posts pid = None <-> ~ In pid (map id posts).
Proof.
  induction posts as [|q r IH]; simpl; [tauto|].
  destruct (String.eqb (id q) pid) eqn:E.
  - apply String.eqb_eq in E. split; [discriminate | tauto].
  - apply String.eqb_neq in E. tauto.
Qed.

Lemma _find_mutate_found (posts : list Post) (pid : string) (p p' : Post) :
  _find posts pid = Some p -> id p' = pid ->
  _find (mutate_found posts pid p') pid = Some p'.
Proof.
  intros Hf Hid. induction posts as [|q r IH]; simpl in *; [discriminate|].
  destruct (String.eqb (id q) pid) eqn:E; simpl.
  - now rewrite Hid, String.eqb_refl.
  - rewrite E. auto.
Qed.

End StoreFacts.

(** C8: the store transaction reads the whole collection; when a post
    with the id exists, the mutator is applied to the first such post in
    its place, the whole collection is written back and the result is
    [True]; when none exists the result is [False] and the data file is
    the one that was there. *)
Theorem _update_post_transaction
  (pid : string) (mutator : Post -> Post) (f : DataFile) :
  (exists l1 p l2,
     _read f = (l1 ++ p :: l2)%list /\ id p = pid
     /\ Forall (fun q => id q <> pid) l1
     /\ _update_post pid (fun pp => inr (mutator pp)) f
        = (inr true, Stored (l1 ++ mutator p :: l2)))
  \/ (Forall (fun q => id q <> pid) (_read f)
      /\ _update_post pid (fun pp => inr (mutator pp)) f = (inr false, f)).
Proof.
  unfold _update_post, _write.
  destruct (_find_split (_read f) pid)
    as [(l1 & p & l2 & E & Hid & Hl1 & Hf & Hm) | [Hall Hf]].
  - left. exists l1, p, l2. rewrite Hf, Hm. auto.
  - right. rewrite Hf. auto.
Qed.

(** C10: when the mutator raises on the post found, [_update_post]
    propagates the exception and the data file is the one that was
    there: the write is not reached. *)
Theorem _update_post_mutator_raises
  (pid : string) (mutator : Post -> Exc Post) (f : DataFile) (p : Post) (e : string) :
  _find (_read f) pid = Some p ->
  mutator p = inl e ->
  _update_post pid mutator f = (inl e, f).
Proof.
  intros Hf He. unfold _update_post. now rewrite Hf, He.
Qed.

Lemma _update_post_mutator_raises_witness :
  _update_post "p1" (fun _ => inl "boom") (Stored [sample_post "p1" ["AAPL"]])
  = (inl "boom", Stored [sample_post "p1" ["AAPL"]]).
Proof.
  apply (_update_post_mutator_raises "p1" (fun _ => inl "boom")
           (Stored [sample_post "p1" ["AAPL"]]) (sample_post "p1" ["AAPL"]) "boom");
    reflexivity.
Defined.

(** ** Dictionaries *)

Section DictFacts.

Context {V : Type}.

Lemma get_set_same (k : string) (v : V) (d : PyDict.t V) :
  PyDict.get k (PyDict.set k v d) = Some v.
Proof.
  induction d as [|[k' v'] r IH]; simpl.
  - now rewrite String.eqb_refl.
  - destruct (String.eqb k' k) eqn:E; simpl; now rewrite E.
Qed.

Lemma get_set_other (k k' : string) (v : V) (d : PyDict.t V) :
  k <> k' -> PyDict.get k' (PyDict.set k v d) = PyDict.get k' d.
Proof.
  intros Hne. induction d as [|[k0 v0] r IH]; simpl.
  - apply String.eqb_neq in Hne. now rewrite Hne.
  - destruct (String.eqb k0 k) eqn:E; simpl.
    + apply String.eqb_eq in E. subst k0.
      apply String.eqb_neq in Hne. now rewrite Hne.
    + destruct (String.eqb k0 k'); [reflexivity | exact IH].
Qed.

End DictFacts.

(** ** Reordering *)

Section ReorderFacts.

Lemma str_in_In (x : string) (xs : list string) :
  str_in x xs = true <-> In x xs.
Proof.
  unfold str_in. rewrite existsb_exists. split.
  - intros (y & Hy & E). apply String.eqb_eq in E. now subst.
  - intros H. exists x. split; [assumption | apply String.eqb_refl].
Qed.

Lemma str_in_false (x : string) (xs : list string) :
  str_in x xs = false <-> ~ In x xs.
Proof.
  rewrite <- str_in_In. destruct (str_in x xs); split; congruence.
Qed.

Lemma str_in_ext (x : string) (xs ys : list string) :
  (forall y, In y xs <-> In y ys) -> str_in x xs = str_in x ys.
Proof.
  intros H. destruct (str_in x ys) eqn:E.
  - apply str_in_In, H, str_in_In, E.
  - apply str_in_false. rewrite H. now apply str_in_false.
Qed.

Lemma In_first_mentions (seen order : list string) (x : string) :
  In x (first_mentions seen order) <-> In x order /\ ~ In x seen.
Proof.
  revert seen; induction order as [|y r IH]; intros seen; simpl; [tauto|].
  destruct (str_in y seen) eqn:E.
  - apply str_in_In in E. rewrite IH. split; [tauto|].
    intros [[->|H] Hn]; tauto.
  - apply str_in_false in E. simpl. rewrite IH. simpl.
    destruct (string_dec y x) as [->|Hne]; tauto.
Qed.

Lemma NoDup_first_mentions (seen order : list string) :
  NoDup (first_mentions seen order).
Proof.
  revert seen; induction order as [|y r IH]; intros seen; simpl; [constructor|].
  destruct (str_in y seen); [apply IH|].
  constructor; [|apply IH].
  rewrite In_first_mentions. simpl. tauto.
Qed.

Variable posts : list Post.
Hypothesis ids_unique : NoDup (map id posts).

Lemma index_by_id_absent (i : string) (r : list Post) (d : PyDict.t Post) :
  ~ In i (map id r) ->
  PyDict.get i (fold_left (fun d p => PyDict.set (id p) p d) r d) = PyDict.get i d.
Proof.
  revert d; induction r as [|p r IH]; intros d Hn; simpl; [reflexivity|].
  simpl in Hn. rewrite IH by tauto. apply get_set_other. tauto.
Qed.

Lemma index_by_id_find (i : string) (r : list Post) (d : PyDict.t Post) :
  NoDup (map id r) ->
  PyDict.get i (fold_left (fun d p => PyDict.set (id p) p d) r d) =
    match _find r i with
    | Some p => Some p
    | None => PyDict.get i d
    end.
Proof.
  revert d; induction r as [|p r IH]; intros d Hnd; simpl; [reflexivity|].
  inversion Hnd as [|? ? Hp Hr]; subst.
  destruct (String.eqb (id p) i) eqn:E.
  - apply String.eqb_eq in E. subst i.
    rewrite index_by_id_absent by assumption. apply get_set_same.
  - apply String.eqb_neq in E. rewrite (IH _ Hr).
    destruct (_find r i); [reflexivity|]. now apply get_set_other.
Qed.

Lemma get_index_by_id (i : string) :
  PyDict.get i (index_by_id posts) = _find posts i.
Proof.
  unfold index_by_id. rewrite index_by_id_find by exact ids_unique.
  now destruct (_find posts i).
Qed.

Lemma _find_unique (p : Post) : In p posts -> _find posts (id p) = Some p.
Proof.
  revert ids_unique. clear. induction posts as [|q r IH]; simpl; [tauto|].
  intros Hnd Hin. inversion Hnd as [|? ? Hq Hr]; subst.
  destruct (String.eqb (id q) (id p)) eqn:E.
  - apply String.eqb_eq in E. destruct Hin as [->|Hin]; [reflexivity|].
    exfalso. apply Hq. rewrite E. now apply in_map.
  - apply String.eqb_neq in E. destruct Hin as [->|Hin]; [congruence|].
    now apply IH.
Qed.

Lemma known_iff_found (i : string) :
  str_in i (map id posts) = match _find posts i with Some _ => true | None => false end.
Proof.
  destruct (_find posts i) as [p|] eqn:E.
  - apply str_in_In. apply _find_some in E as [Hin <-]. now apply in_map.
  - apply str_in_false. now apply _find_none.
Qed.

(** The first loop appends, for every first mention of a stored id, the
    post stored under it. *)
Lemma pick_requested_loop (order : list string)
  (acc : list Post) (used seen : list string) :
  (forall y, In y used <-> In y seen) ->
  fold_left (pick_requested (index_by_id posts)) order (acc, used) =
    let ids := first_mentions seen (filter (fun x => str_in x (map id posts)) order) in
    ((acc ++ lookup_all posts ids)%list, (used ++ ids)%list).
Proof.
  revert acc used seen; induction order as [|x r IH]; intros acc used seen Hs; simpl.
  - now rewrite !app_nil_r.
  - rewrite get_index_by_id, known_iff_found.
    destruct (_find posts x) as [p|] eqn:Ef; [|now apply IH].
    simpl. rewrite (str_in_ext x used seen Hs).
    destruct (str_in x seen) eqn:Ex; simpl; [now apply IH|].
    rewrite (IH _ _ (x :: seen)).
    + simpl. rewrite Ef. now rewrite <- !app_assoc.
    + intros y. rewrite in_app_iff, Hs. simpl. tauto.
Qed.

(** The second loop appends the posts whose id has not been used. *)
Lemma append_remaining_loop (r : list Post) (acc : list Post) (used : list string) :
  NoDup (map id r) ->
  fst (fold_left append_remaining r (acc, used)) =
    (acc ++ filter (fun p => negb (str_in (id p) used)) r)%list.
Proof.
  revert acc used; induction r as [|p r IH]; intros acc used Hnd; simpl.
  - now rewrite app_nil_r.
  - inversion Hnd as [|? ? Hp Hr]; subst.
    destruct (str_in (id p) used) eqn:E; simpl; [now apply IH|].
    rewrite (IH _ _ Hr), <- app_assoc. simpl. do 2 f_equal.
    apply filter_ext_in. intros q Hq. f_equal.
    unfold str_in. rewrite existsb_app. simpl.
    destruct (String.eqb (id q) (id p)) eqn:Eq; [|now rewrite !orb_false_r].
    exfalso. apply Hp. apply String.eqb_eq in Eq. rewrite <- Eq. now apply in_map.
Qed.

Lemma filter_requested (order : list string) :
  filter (fun p => negb (str_in (id p) (requested_ids posts order))) posts
  = unrequested posts order.
Proof.
  apply filter_ext_in. intros p Hp. f_equal.
  destruct (str_in (id p) order) eqn:E.
  - apply str_in_In. unfold requested_ids. rewrite In_first_mentions, filter_In.
    apply str_in_In in E. repeat split; auto.
    apply str_in_In. now apply in_map.
  - apply str_in_false. apply str_in_false in E.
    unfold requested_ids. rewrite In_first_mentions, filter_In. tauto.
Qed.

Lemma map_id_lookup_all (ids : list string) :
  (forall i, In i ids -> In i (map id posts)) ->
  map id (lookup_all posts ids) = ids.
Proof.
  induction ids as [|i r IH]; intros H; simpl; [reflexivity|].
  destruct (_find posts i) as [p|] eqn:E.
  - simpl. apply _find_some in E as [_ ->]. f_equal. apply IH.
    intros j Hj. apply H. now right.
  - exfalso. apply _find_none in E. apply E, H. now left.
Qed.

Lemma In_lookup_all (ids : list string) (p : Post) :
  In p (lookup_all posts ids) <-> In p posts /\ In (id p) ids.
Proof.
  unfold lookup_all. rewrite in_flat_map. split.
  - intros (i & Hi & Hp). destruct (_find posts i) as [q|] eqn:E; [|destruct Hp].
    destruct Hp as [->|[]]. apply _find_some in E as [Hin <-]. auto.
  - intros [Hin Hid]. exists (id p). split; [assumption|].
    rewrite _find_unique by assumption. now left.
Qed.

Lemma requested_ids_known (order : list string) (i : string) :
  In i (requested_ids posts order) -> In i (map id posts).
Proof.
  unfold requested_ids. rewrite In_first_mentions, filter_In, str_in_In. tauto.
Qed.

Lemma Permutation_partition {A} (P : A -> bool) (l : list A) :
  Permutation l (filter P l ++ filter (fun x => negb (P x)) l).
Proof.
  induction l as [|a l IH]; simpl; [constructor|].
  destruct (P a); simpl.
  - now constructor.
  - now apply Permutation_cons_app.
Qed.

Lemma picked_permutation (order : list string) :
  Permutation (filter (fun p => str_in (id p) order) posts)
              (lookup_all posts (requested_ids posts order)).
Proof.
  assert (Hposts : NoDup posts) by (eapply NoDup_map_inv; exact ids_unique).
  apply NoDup_Permutation.
  - now apply NoDup_filter.
  - apply (NoDup_map_inv id). rewrite map_id_lookup_all.
    + apply NoDup_first_mentions.
    + apply requested_ids_known.
  - intros p. rewrite filter_In, In_lookup_all, str_in_In.
    unfold requested_ids. rewrite In_first_mentions, filter_In, str_in_In.
    split; [|tauto]. intros [Hin Ho]. repeat split; auto.
    now apply in_map.
Qed.

End ReorderFacts.

Example reorder_posts_sample :
  fst (reorder_posts ["c"; "zz"; "a"; "c"]
         (Stored [sample_post "a" []; sample_post "b" []; sample_post "c" [];
                  sample_post "d" []]))
  = ["c"; "a"; "b"; "d"].
Proof. reflexivity. Qed.

(** The claim fails on a stored collection in which two posts share an
    id: the reorder keeps one post per id, so a stored post is lost and
    the new collection is no permutation of the stored one. *)
Lemma reorder_posts_counterexample :
  reorder_posts [] (Stored [sample_post "a" ["X"]; sample_post "a" ["Y"]])
  = (["a"], Stored [sample_post "a" ["X"]])
  /\ ~ Permutation [sample_post "a" ["X"]; sample_post "a" ["Y"]]
                   [sample_post "a" ["X"]].
Proof.
  split; [reflexivity|].
  intros H. apply Permutation_length in H. discriminate H.
Qed.

(** C9, amended: on a stored collection whose ids are unique, reordering
    yields a permutation of the stored posts: first the posts of the
    requested ids, in the order of the request with unknown ids and
    repeated mentions dropped, then every post the request does not
    mention, in stored order; the response lists the ids in the new
    order. *)
Theorem reorder_posts_permutation (order : list string) (f : DataFile) :
  NoDup (map id (_read f)) ->
  exists picked,
    reorder_posts order f
      = (map id (picked ++ unrequested (_read f) order),
         Stored (picked ++ unrequested (_read f) order))
    /\ map id picked = requested_ids (_read f) order
    /\ Permutation (_read f) (picked ++ unrequested (_read f) order).
Proof.
  intros Hnd. set (posts := _read f) in *.
  exists (lookup_all posts (requested_ids posts order)).
  split; [|split].
  - unfold reorder_posts. fold posts.
    rewrite (pick_requested_loop posts Hnd order [] [] []) by tauto.
    cbv zeta. simpl app. fold (requested_ids posts order).
    pose proof (append_remaining_loop posts
                  (lookup_all posts (requested_ids posts order))
                  (requested_ids posts order) Hnd) as H.
    destruct (fold_left append_remaining posts _) as [new_posts used'].
    simpl in H. subst new_posts.
    now rewrite (filter_requested posts order).
  - apply map_id_lookup_all. apply requested_ids_known.
  - etransitivity; [apply (Permutation_partition (fun p => str_in (id p) order))|].
    apply Permutation_app; [|reflexivity].
    now apply picked_permutation.
Qed.

Lemma reorder_posts_permutation_witness :
  exists picked,
    reorder_posts ["c"; "zz"; "a"; "c"]
      (Stored [sample_post "a" []; sample_post "b" []; sample_post "c" []])
      = (map id (picked ++ [sample_post "b" []]),
         Stored (picked ++ [sample_post "b" []]))
    /\ map id picked = ["c"; "a"]
    /\ Permutation [sample_post "a" []; sample_post "b" []; sample_post "c" []]
                   (picked ++ [sample_post "b" []]).
Proof.
  apply (reorder_posts_permutation ["c"; "zz"; "a"; "c"]
           (Stored [sample_post "a" []; sample_post "b" []; sample_post "c" []])).
  simpl. repeat constructor; simpl; intuition discriminate.
Defined.

(** Two stored posts with one id are outside the data model; on such a
    file the second loop keeps the first of them only. *)
Remark reorder_posts_shared_id :
  fst (reorder_posts [] (Stored [sample_post "a" ["X"]; sample_post "a" ["Y"]]))
  = ["a"].
Proof. reflexivity. Qed.

(** ** Decision scanners *)

Section ScannerFacts.

Lemma or_else_None_r {A} (a : option A) : or_else a None = a.
Proof. now destruct a. Qed.

Lemma or_else_assoc {A} (a b c : option A) :
  or_else a (or_else b c) = or_else (or_else a b) c.
Proof. now destruct a. Qed.

Lemma last_some_app {A} (l1 l2 : list (option A)) :
  last_some (l1 ++ l2) = or_else (last_some l2) (last_some l1).
Proof.
  induction l1 as [|x r IH]; simpl.
  - now rewrite or_else_None_r.
  - now rewrite IH, or_else_assoc.
Qed.

Lemma last_some_all_None {A} (l : list (option A)) :
  (forall x, In x l -> x = None) -> last_some l = None.
Proof.
  induction l as [|x r IH]; intros H; simpl; [reflexivity|].
  rewrite IH by (intros; apply H; now right).
  simpl. apply H. now left.
Qed.

Lemma parse_line_decides (tk : string) (decision : option string) (line : string) :
  parse_line tk decision line = or_else (line_decides tk line) decision.
Proof.
  unfold parse_line, line_decides, has_marker, keyword_of.
  destruct (PyStr.contains (PyStr.upper tk) (PyStr.upper line)); simpl;
    [|reflexivity].
  destruct (_ || _ || _ || _); [|reflexivity].
  destruct (PyStr.contains "buy" _); [reflexivity|].
  destruct (PyStr.contains "sell" _); [reflexivity|].
  now destruct (PyStr.contains "hold" _).
Qed.

Lemma parse_lines_last (tk : string) (lines : list string) (decision : option string) :
  fold_left (parse_line tk) lines decision
  = or_else (last_some (map (line_decides tk) lines)) decision.
Proof.
  revert decision; induction lines as [|l r IH]; intros decision; simpl;
    [reflexivity|].
  now rewrite IH, parse_line_decides, or_else_assoc.
Qed.

Lemma parse_from_report_last (report_text tk : string) :
  parse_from_report report_text tk
  = last_some (map (line_decides tk) (PyStr.splitlines report_text)).
Proof.
  unfold parse_from_report. destruct report_text; [reflexivity|].
  simpl negb. cbv iota. rewrite parse_lines_last. apply or_else_None_r.
Qed.

Lemma line_decides_marker (tk line d : string) :
  line_decides tk line = Some d ->
  has_marker (PyStr.lower line) = true
  /\ PyStr.contains (PyStr.upper tk) (PyStr.upper line) = true
  /\ keyword_of (PyStr.lower line) = Some d.
Proof.
  unfold line_decides.
  destruct (PyStr.contains _ _), (has_marker _); simpl; intros H;
    try discriminate; auto.
Qed.

Lemma _derive_decision_keyword (text : string) :
  _derive_decision_from_text (Some text) = keyword_of (PyStr.lower text).
Proof.
  unfold _derive_decision_from_text, keyword_of.
  destruct (PyStr.lower text) eqn:E; [reflexivity|].
  simpl negb. cbv iota.
  destruct (_ || _ || _); [|reflexivity].
  destruct (PyStr.contains "buy" _); [reflexivity|].
  destruct (PyStr.contains "sell" _); [reflexivity|].
  now destruct (PyStr.contains "hold" _).
Qed.

End ScannerFacts.

(** ** The generator writes a trace *)

Section WriterFacts.

Variable env : Env.
Variable pid : string.

Lemma id_run_mutator (mu : Mutator) (q : Post) : id (run_mutator env mu q) = id q.
Proof. now destruct mu. Qed.

Lemma id_apply_all (txs : list Mutator) (q : Post) : id (apply_all env txs q) = id q.
Proof.
  revert q; induction txs as [|mu r IH]; intros q; simpl; [reflexivity|].
  unfold apply_all in *. simpl. now rewrite IH, id_run_mutator.
Qed.

Lemma apply_all_app (txs1 txs2 : list Mutator) (q : Post) :
  apply_all env (txs1 ++ txs2) q = apply_all env txs2 (apply_all env txs1 q).
Proof. apply fold_left_app. Qed.

Lemma mutate_found_same (posts : list Post) (p : Post) :
  _find posts pid = Some p -> mutate_found posts pid p = posts.
Proof.
  induction posts as [|q r IH]; simpl; [reflexivity|].
  destruct (String.eqb (id q) pid); [now intros [= ->]|].
  intros H. now rewrite IH.
Qed.

Lemma mutate_found_twice (posts : list Post) (p1 p2 : Post) :
  id p1 = pid ->
  mutate_found (mutate_found posts pid p1) pid p2 = mutate_found posts pid p2.
Proof.
  intros Hid. induction posts as [|q r IH]; simpl; [reflexivity|].
  destruct (String.eqb (id q) pid) eqn:E; simpl.
  - now rewrite Hid, String.eqb_refl.
  - now rewrite E, IH.
Qed.

Lemma commit_nothing (w : World) (p : Post) :
  _find (_read (file w)) pid = Some p -> commit w pid p [] [] = w.
Proof.
  intros H. destruct w as [f evs txs]. unfold commit. simpl in *.
  rewrite (mutate_found_same _ _ H), !app_nil_r.
  destruct f; [discriminate | reflexivity].
Qed.

Lemma commit_commit (w : World) (p p1 p2 : Post)
  (txs1 txs2 : list Mutator) (evs1 evs2 : list Event) :
  id p1 = pid ->
  commit (commit w pid p1 txs1 evs1) pid p2 txs2 evs2
  = commit w pid p2 (txs1 ++ txs2) (evs1 ++ evs2).
Proof.
  intros Hid. unfold commit. simpl.
  now rewrite (mutate_found_twice _ _ _ Hid), !app_assoc.
Qed.

Lemma _find_commit (w : World) (p p' : Post)
  (txs : list Mutator) (evs : list Event) :
  _find (_read (file w)) pid = Some p -> id p' = pid ->
  _find (_read (file (commit w pid p' txs evs))) pid = Some p'.
Proof. intros H Hid. simpl. now apply (_find_mutate_found _ _ p). Qed.

Lemma Writes_ret {A} (a : A) : Writes env pid (ret a) a [] [].
Proof.
  intros w p H. unfold ret. simpl. now rewrite (commit_nothing _ _ H).
Qed.

Lemma Writes_bind {A B} (c : M A) (k : A -> M B) (a : A) (b : B)
  (txs1 txs2 : list Mutator) (evs1 evs2 : list Event) :
  Writes env pid c a txs1 evs1 ->
  Writes env pid (k a) b txs2 evs2 ->
  Writes env pid (bind c k) b (txs1 ++ txs2) (evs1 ++ evs2).
Proof.
  intros Hc Hk w p H. unfold bind. rewrite (Hc w p H).
  assert (Hid : id (apply_all env txs1 p) = pid).
  { rewrite id_apply_all. now apply _find_some in H. }
  rewrite (Hk _ _ (_find_commit w p _ txs1 evs1 H Hid)).
  now rewrite (commit_commit w p _ _ _ _ _ _ Hid), apply_all_app.
Qed.

Lemma Writes_emit (ev : Event) : Writes env pid (emit ev) tt [] [ev].
Proof.
  intros w p H. unfold emit, commit. simpl.
  rewrite (mutate_found_same _ _ H), app_nil_r.
  destruct w as [[|posts] evs txs]; [discriminate | reflexivity].
Qed.

Lemma Writes_transact (mu : Mutator) : Writes env pid (transact env pid mu) tt [mu] [].
Proof.
  intros w p H. unfold transact, _update_post, commit. rewrite H. simpl.
  now rewrite app_nil_r.
Qed.

Lemma Writes_log_line (msg : string) :
  Writes env pid (log_line env pid msg) tt [LogLine (_wrap_text msg)] [].
Proof. apply Writes_transact. Qed.

(** [Writes] with the trace given up to equality *)
Lemma Writes_eq {A} (c : M A) (a a' : A) (txs txs' : list Mutator)
  (evs evs' : list Event) :
  Writes env pid c a txs evs -> a = a' -> txs = txs' -> evs = evs' ->
  Writes env pid c a' txs' evs'.
Proof. now intros H <- <- <-. Qed.

Lemma stream_chunk_writes (t : string) (st : option GraphState * option string)
  (chunk : GraphState) :
  Writes env pid (stream_chunk env pid t st chunk)
    (or_else (stream_final [chunk]) (fst st),
     or_else (transcript_decision [chunk]) (snd st))
    (chunk_logs t [chunk]) (chunk_events t [chunk]).
Proof.
  destruct st as [fs seen].
  unfold stream_chunk, stream_final, transcript_decision, chunk_logs,
    chunk_events, chunk_text. simpl.
  destruct (last_item (messages chunk)) as [message|]; simpl.
  2: { apply Writes_ret. }
  destruct (PyStr.truthy (or_blank (content message))
            && PyStr.truthy (PyStr.strip (or_blank (content message)))); simpl.
  - rewrite _derive_decision_keyword. eapply Writes_eq.
    + eapply Writes_bind; [apply Writes_log_line|].
      eapply Writes_bind; [apply Writes_emit | apply Writes_ret].
    + reflexivity.
    + reflexivity.
    + reflexivity.
  - apply Writes_ret.
Qed.

End WriterFacts.

Section StreamTrace.

Variable env : Env.
Variable pid : string.

Lemma stream_chunks_loop_writes (t : string) (chunks : list GraphState)
  (st : option GraphState * option string) :
  Writes env pid (stream_chunks_loop env pid t chunks st)
    (or_else (stream_final chunks) (fst st),
     or_else (transcript_decision chunks) (snd st))
    (chunk_logs t chunks) (chunk_events t chunks).
Proof.
  revert st; induction chunks as [|c r IH]; intros st.
  - destruct st. apply Writes_ret.
  - simpl stream_chunks_loop. eapply Writes_eq.
    + eapply Writes_bind; [apply stream_chunk_writes | apply IH].
    + unfold stream_final, transcript_decision. simpl.
      now rewrite !or_else_assoc.
    + unfold chunk_logs. simpl. now rewrite app_nil_r.
    + unfold chunk_events. simpl. now rewrite app_nil_r.
Qed.

Lemma on_ticker_error_writes (t e : string) :
  Writes env pid (on_ticker_error env pid t e) tt
    (fst (error_trace t e)) (snd (error_trace t e)).
Proof.
  unfold on_ticker_error, error_trace, benign, warning_text.
  destruct (_ && _); cbv iota.
  all: eapply Writes_eq;
    [ eapply Writes_bind; [apply Writes_log_line|];
      eapply Writes_bind; [apply Writes_transact | apply Writes_emit]
    | reflexivity .. ].
Qed.

Lemma stream_ticker_writes (p : Post) (date_str : string) (i : nat) (t : string) :
  Writes env pid (stream_ticker env pid p date_str i t) tt
    (fst (ticker_trace env p date_str i t))
    (snd (ticker_trace env p date_str i t)).
Proof.
  unfold stream_ticker, ticker_trace.
  set (s := engine env i t date_str).
  destruct (stream_raises s) as [e|].
  - eapply Writes_eq.
    + eapply Writes_bind; [apply Writes_emit|].
      eapply Writes_bind; [apply stream_chunks_loop_writes|].
      apply on_ticker_error_writes.
    + reflexivity.
    + reflexivity.
    + reflexivity.
  - destruct (stream_final (stream_chunks s)) as [final_state|] eqn:Ef.
    + eapply Writes_eq.
      * eapply Writes_bind; [apply Writes_emit|].
        eapply Writes_bind; [apply stream_chunks_loop_writes|].
        simpl fst. simpl snd. rewrite !or_else_None_r, Ef.
        eapply Writes_bind; [apply Writes_transact|].
        eapply Writes_bind; [apply Writes_transact | apply Writes_emit].
      * reflexivity.
      * reflexivity.
      * reflexivity.
    + eapply Writes_eq.
      * eapply Writes_bind; [apply Writes_emit|].
        eapply Writes_bind; [apply stream_chunks_loop_writes|].
        simpl fst. rewrite or_else_None_r, Ef.
        apply on_ticker_error_writes.
      * reflexivity.
      * reflexivity.
      * reflexivity.
Qed.

Lemma stream_loop_writes (p : Post) (date_str : string) (i : nat) (ts : list string) :
  Writes env pid (stream_loop env pid p date_str i ts) tt
    (fst (loop_trace env p date_str i ts))
    (snd (loop_trace env p date_str i ts)).
Proof.
  revert i; induction ts as [|t r IH]; intros i; simpl.
  - apply Writes_ret.
  - pose proof (stream_ticker_writes p date_str i t) as Ht.
    specialize (IH (S i)).
    destruct (ticker_trace env p date_str i t) as [txs evs].
    destruct (loop_trace env p date_str (S i) r) as [txs' evs'].
    eapply Writes_bind; [exact Ht | exact IH].
Qed.

Lemma Writes_then {A B} (c : M A) (k : A -> M B) (a : A)
  (txs : list Mutator) (evs : list Event) (w : World) (p : Post) :
  Writes env pid c a txs evs ->
  _find (_read (file w)) pid = Some p ->
  bind c k w = k a (commit w pid (apply_all env txs p) txs evs).
Proof. intros Hc H. unfold bind. now rewrite (Hc w p H). Qed.

(** When the engine cannot be imported the generator logs the error and
    stops. *)
Lemma gen_import_error (p : Post) (e : string) :
  import_error env = Some e ->
  Writes env pid (gen env pid p) (inr tt)
    [InitAnalysis; LogErr e]
    [EvStart pid (tickers p); EvError ("TradingAgents import error: " ++ e)].
Proof.
  intros He. unfold gen. rewrite He.
  eapply Writes_eq.
  - eapply Writes_bind; [apply Writes_transact|].
    eapply Writes_bind; [apply Writes_emit|].
    eapply Writes_bind; [apply Writes_transact|].
    eapply Writes_bind; [apply Writes_emit | apply Writes_ret].
  - reflexivity.
  - reflexivity.
  - reflexivity.
Qed.

(** With the engine importable the generator runs to its end: it returns
    normally, having made the transactions of the ticker loop between the
    initialisation and the summary. *)
Lemma gen_completes (p p0 : Post) (w : World) :
  import_error env = None ->
  _find (_read (file w)) pid = Some p0 ->
  let d := date_of env (options p) in
  let loop := loop_trace env p d 0 (tickers p) in
  let p_mid := apply_all env (InitAnalysis :: fst loop) p0 in
  let lines := summary_lines p_mid (tickers p) d in
  gen env pid p w =
    (inr tt,
     commit w pid (set_summary env lines p_mid)
       (InitAnalysis :: fst loop ++ [SetSummary lines])
       (EvStart pid (tickers p) :: snd loop ++ [EvDone pid])).
Proof.
  intros He H0 d loop p_mid lines.
  assert (Hpre : Writes env pid
            (bind (transact env pid InitAnalysis)
               (fun _ => bind (emit (EvStart pid (tickers p)))
                  (fun _ => stream_loop env pid p d 0 (tickers p))))
            tt (InitAnalysis :: fst loop) (EvStart pid (tickers p) :: snd loop)).
  { eapply Writes_eq.
    - eapply Writes_bind; [apply Writes_transact|].
      eapply Writes_bind; [apply Writes_emit | apply stream_loop_writes].
    - reflexivity.
    - reflexivity.
    - reflexivity. }
  set (rest := fun _ : unit =>
         bind read_posts (fun posts_now =>
           match _find posts_now pid with
           | None => ret (inl "'NoneType' object has no attribute 'get'")
           | Some p_now =>
               bind (transact env pid
                       (SetSummary (summary_lines p_now (tickers p) d)))
                    (fun _ => bind (emit (EvDone pid)) (fun _ => ret (inr tt)))
           end)).
  assert (Hgen : gen env pid p w =
            bind (bind (transact env pid InitAnalysis)
               (fun _ => bind (emit (EvStart pid (tickers p)))
                  (fun _ => stream_loop env pid p d 0 (tickers p)))) rest w).
  { unfold gen, rest, summary_lines. rewrite He. unfold bind. fold d.
    destruct (transact env pid InitAnalysis w) as [u1 w1].
    destruct (emit (EvStart pid (tickers p)) w1) as [u2 w2].
    now destruct (stream_loop env pid p d 0 (tickers p) w2) as [u3 w3]. }
  rewrite Hgen, (Writes_then _ rest tt _ _ w p0 Hpre H0).
  fold p_mid. unfold rest, read_posts, bind at 1.
  assert (Hid : id p_mid = pid).
  { unfold p_mid. rewrite id_apply_all. now apply _find_some in H0. }
  pose proof (_find_commit pid w p0 p_mid (InitAnalysis :: fst loop)
                (EvStart pid (tickers p) :: snd loop) H0 Hid) as Hmid.
  rewrite Hmid. fold lines.
  assert (Hsuf : Writes env pid
            (bind (transact env pid (SetSummary lines))
               (fun _ => bind (emit (EvDone pid)) (fun _ => ret (inr tt : Exc unit))))
            (inr tt) [SetSummary lines] [EvDone pid]).
  { eapply Writes_eq.
    - eapply Writes_bind; [apply Writes_transact|].
      eapply Writes_bind; [apply Writes_emit | apply Writes_ret].
    - reflexivity.
    - reflexivity.
    - reflexivity. }
  etransitivity; [exact (Hsuf _ _ Hmid)|].
  now rewrite (commit_commit pid w p0 _ _ _ _ _ _ Hid).
Qed.

End StreamTrace.

(** ** What the transactions do to the observed state *)

Section Observations.

Variable env : Env.

Lemma per_ticker_of_init (q : Post) :
  per_ticker_of (init_analysis env q) = per_ticker_of q.
Proof. unfold per_ticker_of, init_analysis. simpl. now destruct (analysis q). Qed.

Lemma per_ticker_of_analysis_now (q : Post) :
  or_empty (per_ticker (analysis_now env q)) = per_ticker_of q.
Proof.
  unfold analysis_now, init_analysis, per_ticker_of. simpl.
  now destruct (analysis q).
Qed.

Lemma per_ticker_of_run (mu : Mutator) (q : Post) :
  per_ticker_of (run_mutator env mu q) = per_step mu (per_ticker_of q).
Proof.
  destruct mu; unfold per_ticker_of; simpl; now destruct (analysis q).
Qed.

Lemma snapshot_of_run (mu : Mutator) (q : Post) :
  snapshot_of (run_mutator env mu q) = snap_step mu (snapshot_of q).
Proof. now destruct mu. Qed.

Lemma summary_of_analysis_now (q : Post) :
  summary (analysis_now env q) = summary_of q.
Proof.
  unfold analysis_now, init_analysis, summary_of. simpl.
  now destruct (analysis q).
Qed.

Lemma summary_of_run (mu : Mutator) (q : Post) :
  summary_of (run_mutator env mu q) =
    match mu with
    | SetSummary lines => Some (PyStr.join (String "010" EmptyString) lines)
    | _ => summary_of q
    end.
Proof.
  destruct mu; unfold summary_of; simpl; now destruct (analysis q).
Qed.

Lemma per_ticker_of_apply_all (txs : list Mutator) (q : Post) :
  per_ticker_of (apply_all env txs q)
  = fold_left (fun per mu => per_step mu per) txs (per_ticker_of q).
Proof.
  revert q; induction txs as [|mu r IH]; intros q; [reflexivity|].
  unfold apply_all in *. simpl. now rewrite IH, per_ticker_of_run.
Qed.

Lemma snapshot_of_apply_all (txs : list Mutator) (q : Post) :
  snapshot_of (apply_all env txs q)
  = fold_left (fun snap mu => snap_step mu snap) txs (snapshot_of q).
Proof.
  revert q; induction txs as [|mu r IH]; intros q; [reflexivity|].
  unfold apply_all in *. simpl. now rewrite IH, snapshot_of_run.
Qed.

Lemma str_app_nil_r (s : string) : s ++ "" = s.
Proof. induction s as [|c r IH]; simpl; [reflexivity | now rewrite IH]. Qed.

Lemma str_app_assoc (a b c : string) : (a ++ b) ++ c = a ++ (b ++ c).
Proof. induction a as [|x r IH]; simpl; [reflexivity | now rewrite IH]. Qed.

Lemma report_of_run (mu : Mutator) (q : Post) :
  exists suffix, report_of (run_mutator env mu q) = report_of q ++ suffix.
Proof.
  destruct mu; unfold report_of; simpl; unfold append_log;
    destruct (analysis q) as [a|]; simpl;
    try (exists ""; now rewrite ?str_app_nil_r);
    eexists; reflexivity.
Qed.

Lemma report_of_apply_all (txs : list Mutator) (q : Post) :
  exists suffix, report_of (apply_all env txs q) = report_of q ++ suffix.
Proof.
  revert q; induction txs as [|mu r IH]; intros q.
  - exists "". simpl. now rewrite str_app_nil_r.
  - unfold apply_all in *. simpl.
    destruct (IH (run_mutator env mu q)) as (s2 & ->).
    destruct (report_of_run mu q) as (s1 & ->).
    exists (s1 ++ s2). apply str_app_assoc.
Qed.

(** what the three transactions that touch the report store in it *)
Lemma report_of_init (q : Post) :
  report_of (init_analysis env q) = report_of q.
Proof. unfold report_of, init_analysis. simpl. now destruct (analysis q). Qed.

Lemma report_of_analysis_now (q : Post) :
  or_blank (report (analysis_now env q)) = report_of q.
Proof.
  unfold analysis_now, init_analysis, report_of. simpl.
  now destruct (analysis q).
Qed.

Lemma report_of_log_err (e : string) (q : Post) :
  report_of (log_err env e q)
  = append_log (report_of q) (_wrap_text ("ERROR: " ++ e)).
Proof.
  unfold log_err. unfold report_of at 1.
  cbn [analysis with_analysis report or_blank].
  now rewrite report_of_analysis_now.
Qed.

Lemma report_of_log_line (wrapped : string) (q : Post) :
  report_of (m env wrapped q) = append_log (report_of q) wrapped.
Proof.
  unfold m. unfold report_of at 1.
  cbn [analysis with_analysis report or_blank].
  now rewrite report_of_analysis_now.
Qed.

(** a line logged in the course of the transactions is in the report
    they leave *)
Lemma report_of_apply_all_logged (wrapped : string) (txs : list Mutator)
  (q : Post) :
  In (LogLine wrapped) txs ->
  exists before after,
    report_of (apply_all env txs q) = report_of q ++ before ++ wrapped ++ after.
Proof.
  intros Hin. apply in_split in Hin. destruct Hin as (l1 & l2 & ->).
  rewrite apply_all_app.
  change (apply_all env (LogLine wrapped :: l2) (apply_all env l1 q))
    with (apply_all env l2 (m env wrapped (apply_all env l1 q))).
  destruct (report_of_apply_all l2 (m env wrapped (apply_all env l1 q)))
    as (s2 & ->).
  rewrite report_of_log_line. unfold append_log.
  destruct (report_of_apply_all l1 q) as (s1 & ->).
  exists (s1 ++ (if PyStr.truthy (report_of q ++ s1)
                 then String "010" EmptyString else "")), s2.
  now rewrite !str_app_assoc.
Qed.

End Observations.

(** ** Engine unavailable *)

(** The claim fails for an engine that is imported but cannot be
    constructed: the constructor is called inside the exception handler
    of the ticker loop, so its failure is a failure of each ticker.  On a
    post that recorded Buy for AAPL the run yields no error event, it
    yields a ticker-error event instead, and it rewrites the stored
    per-ticker result of AAPL; on a post with two tickers it appends two
    lines to the log. *)
Lemma engine_construction_counterexample :
  import_error (env_raising "boom") = None
  /\ events (snd (analyze_post_stream (env_raising "boom") "p1"
                    (Stored [post_with_buy])))
     = [EvStart "p1" ["AAPL"]; EvTickerStart "AAPL";
        EvTickerError "AAPL" "boom"; EvDone "p1"]
  /\ filter is_error_event
       (events (snd (analyze_post_stream (env_raising "boom") "p1"
                       (Stored [post_with_buy]))))
     = []
  /\ persisted "p1" (Stored [post_with_buy])
     = Some ([("AAPL", mkTickerResult "Buy" (SigNote "earlier run"))],
             Some "AAPL: Buy (2025-01-01)",
             [("AAPL", mkQuote (Some 140%float) (Some 40%float))])
  /\ persisted "p1" (file (snd (analyze_post_stream (env_raising "boom") "p1"
                                  (Stored [post_with_buy]))))
     = Some ([("AAPL", mkTickerResult "Buy" (SigError "boom"))],
             Some "AAPL: Buy (2025-01-02)",
             [("AAPL", mkQuote (Some 140%float) (Some 40%float))])
  /\ filter is_log_append
       (transactions (snd (analyze_post_stream (env_raising "boom") "p1"
                             (Stored [sample_post "p1" ["AAPL"; "MSFT"]]))))
     = [LogLine "AAPL: error boom"; LogLine "MSFT: error boom"]
  /\ option_map report_of
       (_find (_read (file (snd (analyze_post_stream (env_raising "boom") "p1"
                                   (Stored [sample_post "p1" ["AAPL"; "MSFT"]])))))
              "p1")
     = Some ("AAPL: error boom" ++ String "010" "MSFT: error boom").
Proof.
  split; [reflexivity|].
  split; [vm_compute; reflexivity|].
  split; [vm_compute; reflexivity|].
  split; [vm_compute; reflexivity|].
  split; [vm_compute; reflexivity|].
  split; vm_compute; reflexivity.
Qed.

(** C3, amended: when the engine cannot be imported, a streaming run on a
    stored post returns normally after yielding the start event and
    exactly one error event, and after making the initialisation
    transaction and exactly one log-append transaction.  The stored post
    is the post found after these two transactions: its report is the
    report from before with the wrapped error line appended, and its
    per-ticker mapping, read as the code reads it, is the one from before
    the run. *)
Theorem stream_engine_unavailable
  (env : Env) (pid : string) (f : DataFile) (p : Post) (e : string) :
  _find (_read f) pid = Some p ->
  import_error env = Some e ->
  exists w p',
    analyze_post_stream env pid f = (Some (inr tt), w)
    /\ events w = [EvStart pid (tickers p);
                   EvError ("TradingAgents import error: " ++ e)]
    /\ List.length (filter is_error_event (events w)) = 1
    /\ transactions w = [InitAnalysis; LogErr e]
    /\ List.length (filter is_log_append (transactions w)) = 1
    /\ file w = Stored (mutate_found (_read f) pid p')
    /\ _find (_read (file w)) pid = Some p'
    /\ p' = log_err env e (init_analysis env p)
    /\ report_of p'
       = report_of p
         ++ (if PyStr.truthy (report_of p) then String "010" EmptyString else "")
         ++ _wrap_text ("ERROR: " ++ e)
    /\ per_ticker_of p' = per_ticker_of p.
Proof.
  intros Hf He. unfold analyze_post_stream. rewrite Hf.
  rewrite (gen_import_error env pid p e He (mkWorld f [] []) p Hf).
  eexists. exists (log_err env e (init_analysis env p)).
  split; [reflexivity|].
  split; [reflexivity|]. split; [reflexivity|].
  split; [reflexivity|]. split; [reflexivity|].
  split; [reflexivity|].
  split; [|split; [reflexivity|split]].
  - simpl. apply (_find_mutate_found _ _ p); [assumption|].
    change (id (apply_all env [InitAnalysis; LogErr e] p) = pid).
    rewrite id_apply_all. now apply _find_some in Hf.
  - rewrite report_of_log_err, report_of_init. reflexivity.
  - change (per_ticker_of (apply_all env [InitAnalysis; LogErr e] p)
            = per_ticker_of p).
    now rewrite per_ticker_of_apply_all.
Qed.

Lemma stream_engine_unavailable_witness :
  exists w p',
    analyze_post_stream env_unavailable "p1" (Stored [post_with_buy])
      = (Some (inr tt), w)
    /\ events w = [EvStart "p1" ["AAPL"];
                   EvError ("TradingAgents import error: "
                            ++ "No module named 'tradingagents'")]
    /\ List.length (filter is_error_event (events w)) = 1
    /\ transactions w = [InitAnalysis; LogErr "No module named 'tradingagents'"]
    /\ List.length (filter is_log_append (transactions w)) = 1
    /\ file w = Stored (mutate_found [post_with_buy] "p1" p')
    /\ _find (_read (file w)) "p1" = Some p'
    /\ p' = log_err env_unavailable "No module named 'tradingagents'"
              (init_analysis env_unavailable post_with_buy)
    /\ report_of p' = "ERROR: No module named 'tradingagents'"
    /\ per_ticker_of p' = [("AAPL", mkTickerResult "Buy" (SigNote "earlier run"))].
Proof.
  apply (stream_engine_unavailable env_unavailable "p1" (Stored [post_with_buy])
           post_with_buy "No module named 'tradingagents'"); reflexivity.
Defined.

(** ** Decision scanners: what each of them reads *)

Example parse_from_report_last_line :
  parse_from_report
    ("AAPL final decision: hold for now" ++ String "010"
     ("AAPL looks like a buy" ++ String "010" "AAPL proposal: SELL"))
    "aapl"
  = Some "Sell".
Proof. reflexivity. Qed.

Example parse_from_report_no_marker :
  parse_from_report "AAPL looks like a buy" "AAPL" = None.
Proof. reflexivity. Qed.

Lemma stream_chunks_loop_value (env : Env) (pid t : string)
  (chunks : list GraphState) (st : option GraphState * option string) (w : World) :
  fst (stream_chunks_loop env pid t chunks st w)
  = (or_else (stream_final chunks) (fst st),
     or_else (transcript_decision chunks) (snd st)).
Proof.
  revert st w; induction chunks as [|c r IH]; intros [fs seen] w.
  - reflexivity.
  - change (stream_chunks_loop env pid t (c :: r) (fs, seen) w)
      with (bind (stream_chunk env pid t (fs, seen) c)
              (fun st' => stream_chunks_loop env pid t r st') w).
    unfold bind.
    destruct (stream_chunk env pid t (fs, seen) c w) as [st' w'] eqn:E.
    rewrite IH.
    assert (Hst : st' = (or_else (stream_final [c]) fs,
                         or_else (transcript_decision [c]) seen)).
    { revert E. unfold stream_chunk, stream_final, transcript_decision, chunk_text.
      simpl. destruct (last_item (messages c)) as [message|]; simpl.
      - destruct (_ && _); simpl; unfold bind, log_line, transact, emit, ret.
        + destruct (_update_post _ _ _). intros [= <- _].
          now rewrite _derive_decision_keyword.
        + now intros [= <- _].
      - unfold ret. now intros [= <- _]. }
    subst st'. unfold stream_final, transcript_decision. simpl.
    now rewrite !or_else_assoc.
Qed.

(** The claim fails on the scanner of the streaming pipeline: a text
    with no decision marker yields Buy, and in a two-line text whose last
    line says sell the earlier buy wins. *)
Lemma strict_scanner_counterexample :
  has_marker (PyStr.lower "I would rather buy more here") = false
  /\ _derive_decision_from_text (Some "I would rather buy more here") = Some "Buy"
  /\ _derive_decision_from_text
       (Some ("final decision: buy" ++ String "010" "final decision: sell"))
     = Some "Buy".
Proof. repeat split. Qed.

(** C5, amended: the report scanner [parse_from_report] takes a decision
    only from lines that mention the ticker and contain "final",
    "proposal", "decision" or a colon (case-insensitively): a report with
    no such line yields no decision, and of several deciding lines the
    last one wins.  The scanner of the streaming pipeline,
    [_derive_decision_from_text], reads each chunk as a whole, with or
    without a marker, by the buy > sell > hold priority, and over the
    chunks of a ticker the last chunk that names a keyword wins. *)
Theorem decision_scanners
  (report_text tk text : string) (chunks : list GraphState) :
  parse_from_report report_text tk
    = last_some (map (line_decides tk) (PyStr.splitlines report_text))
  /\ (forall line d, line_decides tk line = Some d ->
        has_marker (PyStr.lower line) = true
        /\ PyStr.contains (PyStr.upper tk) (PyStr.upper line) = true
        /\ keyword_of (PyStr.lower line) = Some d)
  /\ ((forall line, In line (PyStr.splitlines report_text) ->
         has_marker (PyStr.lower line) = false) ->
      parse_from_report report_text tk = None)
  /\ (forall before line after d,
        PyStr.splitlines report_text = (before ++ line :: after)%list ->
        line_decides tk line = Some d ->
        (forall l, In l after -> line_decides tk l = None) ->
        parse_from_report report_text tk = Some d)
  /\ _derive_decision_from_text (Some text) = keyword_of (PyStr.lower text)
  /\ (forall env pid t st w,
        snd (fst (stream_chunks_loop env pid t chunks st w))
        = or_else (transcript_decision chunks) (snd st)).
Proof.
  split; [apply parse_from_report_last|].
  split; [apply line_decides_marker|].
  split; [|split; [|split]].
  - intros H. rewrite parse_from_report_last. apply last_some_all_None.
    intros x Hx. apply in_map_iff in Hx as (line & <- & Hl).
    unfold line_decides. rewrite (H line Hl). now rewrite andb_false_r.
  - intros before line after d E Hd Hafter.
    rewrite parse_from_report_last, E, map_app, last_some_app. simpl.
    rewrite last_some_all_None, Hd; [reflexivity|].
    intros x Hx. apply in_map_iff in Hx as (l & <- & Hl). now apply Hafter.
  - apply _derive_decision_keyword.
  - intros. now rewrite stream_chunks_loop_value.
Qed.

(** ** Which per-ticker entries a run writes *)

Section TraceFacts.

Variable env : Env.
Variable p : Post.
Variable date_str : string.

Lemma per_step_keeps (k : string) (mu : Mutator) (per : PyDict.t TickerResult) :
  written_ticker mu <> Some k ->
  PyDict.get k (per_step mu per) = PyDict.get k per.
Proof.
  destruct mu; simpl; intros H; try reflexivity;
    apply get_set_other; congruence.
Qed.

Lemma fold_per_step_keeps (k : string) (txs : list Mutator)
  (per : PyDict.t TickerResult) :
  Forall (fun mu => written_ticker mu <> Some k) txs ->
  PyDict.get k (fold_left (fun per mu => per_step mu per) txs per)
  = PyDict.get k per.
Proof.
  revert per; induction txs as [|mu r IH]; intros per H; simpl; [reflexivity|].
  inversion H; subst. rewrite IH by assumption. now apply per_step_keeps.
Qed.

Lemma fold_per_step_logs (txs : list Mutator) (per : PyDict.t TickerResult) :
  Forall (fun mu => written_ticker mu = None) txs ->
  fold_left (fun per mu => per_step mu per) txs per = per.
Proof.
  revert per; induction txs as [|mu r IH]; intros per H; simpl; [reflexivity|].
  inversion H as [|? ? Hmu Hr]; subst. rewrite IH by assumption.
  now destruct mu.
Qed.

Lemma chunk_logs_written (t : string) (chunks : list GraphState) :
  Forall (fun mu => written_ticker mu = None) (chunk_logs t chunks).
Proof.
  unfold chunk_logs. induction chunks as [|c r IH]; simpl; [constructor|].
  apply Forall_app. split; [|exact IH].
  destruct (chunk_text c); repeat constructor.
Qed.

(** the transactions of one pass, after the log lines of its chunks *)
Lemma ticker_trace_shape (i : nat) (t : string) :
  exists tail evs,
    ticker_trace env p date_str i t
    = ((chunk_logs t (stream_chunks (engine env i t date_str)) ++ tail)%list,
       (EvTickerStart t
          :: chunk_events t (stream_chunks (engine env i t date_str)) ++ evs)%list)
    /\ ((exists norm sigs cur pc,
           tail = [Upd t norm sigs; UpdSnap t cur pc]
           /\ evs = [EvTickerDone t norm cur pc]
           /\ is_suggestion norm)
        \/ (exists wrapped e,
              tail = [LogLine wrapped; UpdErr t e] /\ evs = [EvTickerError t e])).
Proof.
  unfold ticker_trace. set (s := engine env i t date_str).
  destruct (stream_raises s) as [e|].
  - do 2 eexists. split; [reflexivity|]. right. now do 2 eexists.
  - destruct (stream_final (stream_chunks s)) as [fs|].
    + do 2 eexists. split; [reflexivity|]. left. do 4 eexists.
      repeat split. unfold decide, norm_of_decision, is_suggestion.
      destruct (PyStr.contains "buy" _); [now left|].
      destruct (PyStr.contains "sell" _); [right; now left | right; now right].
    + do 2 eexists. split; [reflexivity|]. right. now do 2 eexists.
Qed.

Lemma ticker_trace_written (i : nat) (t : string) :
  Forall (fun mu => written_ticker mu = None \/ written_ticker mu = Some t)
         (fst (ticker_trace env p date_str i t)).
Proof.
  destruct (ticker_trace_shape i t) as (tail & evs & -> & H). simpl.
  apply Forall_app. split.
  - eapply Forall_impl; [|apply chunk_logs_written]. simpl. tauto.
  - destruct H as [(n & sg & c & pc & -> & _)|(wr & e & -> & _)];
      repeat (apply Forall_cons || apply Forall_nil); simpl; auto.
Qed.

Lemma loop_trace_written (i : nat) (ts : list string) :
  Forall (fun mu => forall k, written_ticker mu = Some k -> In k ts)
         (fst (loop_trace env p date_str i ts)).
Proof.
  revert i; induction ts as [|t r IH]; intros i; simpl; [constructor|].
  pose proof (ticker_trace_written i t) as Ht. specialize (IH (S i)).
  destruct (ticker_trace env p date_str i t) as [txs evs].
  destruct (loop_trace env p date_str (S i) r) as [txs' evs']. simpl in *.
  apply Forall_app. split.
  - eapply Forall_impl; [|exact Ht]. simpl. intros mu [H|H] k Hk.
    + congruence.
    + left. congruence.
  - eapply Forall_impl; [|exact IH]. simpl. intros mu H k Hk. right. auto.
Qed.

Lemma loop_trace_keeps (k : string) (i : nat) (ts : list string) :
  ~ In k ts ->
  Forall (fun mu => written_ticker mu <> Some k)
         (fst (loop_trace env p date_str i ts)).
Proof.
  intros Hk. eapply Forall_impl; [|apply loop_trace_written].
  simpl. intros mu H E. apply Hk. now apply H.
Qed.

Lemma loop_trace_app (i : nat) (l1 l2 : list string) :
  loop_trace env p date_str i (l1 ++ l2)
  = ((fst (loop_trace env p date_str i l1)
      ++ fst (loop_trace env p date_str (i + List.length l1) l2))%list,
     (snd (loop_trace env p date_str i l1)
      ++ snd (loop_trace env p date_str (i + List.length l1) l2))%list).
Proof.
  revert i; induction l1 as [|t r IH]; intros i; simpl.
  - rewrite Nat.add_0_r. now destruct (loop_trace env p date_str i l2).
  - rewrite IH, <- Nat.add_succ_comm.
    destruct (ticker_trace env p date_str i t) as [txs evs].
    destruct (loop_trace env p date_str (S i) r) as [txs1 evs1].
    destruct (loop_trace env p date_str (S i + List.length r) l2) as [txs2 evs2].
    simpl. now rewrite !app_assoc.
Qed.

End TraceFacts.

(** ** A streaming run with the engine importable *)

(** The run returns normally; the events and transactions are those of
    the ticker loop between the opening and the closing ones; the stored
    post carries the per-ticker entries and quotes the loop wrote and the
    summary read from them. *)
Lemma stream_run_completes (env : Env) (pid : string) (f : DataFile) (p : Post) :
  _find (_read f) pid = Some p ->
  import_error env = None ->
  let d := date_of env (options p) in
  let loop := loop_trace env p d 0 (tickers p) in
  let per' := fold_left (fun per mu => per_step mu per) (fst loop) (per_ticker_of p) in
  let lines :=
    map (fun tk => summary_line tk (suggestion_or_blank tk per') d) (tickers p) in
  exists w p',
    analyze_post_stream env pid f = (Some (inr tt), w)
    /\ events w = (EvStart pid (tickers p) :: snd loop ++ [EvDone pid])%list
    /\ transactions w = (InitAnalysis :: fst loop ++ [SetSummary lines])%list
    /\ _find (_read (file w)) pid = Some p'
    /\ per_ticker_of p' = per'
    /\ snapshot_of p'
       = fold_left (fun snap mu => snap_step mu snap) (fst loop) (snapshot_of p)
    /\ summary_of p' = Some (PyStr.join (String "010" EmptyString) lines).
Proof.
  intros Hf He d loop per' lines.
  unfold analyze_post_stream. rewrite Hf.
  rewrite (gen_completes env pid p p (mkWorld f [] []) He Hf).
  fold d. fold loop.
  set (p_mid := apply_all env (InitAnalysis :: fst loop) p).
  assert (Hper : per_ticker_of p_mid = per').
  { unfold p_mid. now rewrite per_ticker_of_apply_all. }
  assert (Hlines : summary_lines p_mid (tickers p) d = lines).
  { unfold summary_lines. now rewrite Hper. }
  rewrite Hlines.
  eexists. exists (set_summary env lines p_mid).
  split; [reflexivity|].
  split; [reflexivity|]. split; [reflexivity|].
  split; [|split; [|split]].
  - simpl. apply (_find_mutate_found _ _ p); [assumption|].
    change (id (run_mutator env (SetSummary lines) p_mid) = pid).
    unfold p_mid. rewrite id_run_mutator, id_apply_all.
    now apply _find_some in Hf.
  - change (per_ticker_of (run_mutator env (SetSummary lines) p_mid) = per').
    now rewrite per_ticker_of_run.
  - change (snapshot_of (run_mutator env (SetSummary lines) p_mid) = 
            fold_left (fun snap mu => snap_step mu snap) (fst loop) (snapshot_of p)).
    rewrite snapshot_of_run. unfold p_mid. now rewrite snapshot_of_apply_all.
  - change (summary_of (run_mutator env (SetSummary lines) p_mid) = 
            Some (PyStr.join (String "010" EmptyString) lines)).
    now rewrite summary_of_run.
Qed.

(** Whether the engine can be imported or not, the post a streaming run
    leaves in the store is the post it found after the transactions of
    the run, in their order. *)
Lemma stream_run_stored (env : Env) (pid : string) (f : DataFile) (p : Post) :
  _find (_read f) pid = Some p ->
  _find (_read (file (snd (analyze_post_stream env pid f)))) pid
  = Some (apply_all env (transactions (snd (analyze_post_stream env pid f))) p).
Proof.
  intros Hf. assert (Hid : id p = pid) by now apply _find_some in Hf.
  unfold analyze_post_stream. rewrite Hf.
  destruct (import_error env) as [e|] eqn:He.
  - rewrite (gen_import_error env pid p e He (mkWorld f [] []) p Hf).
    simpl. apply (_find_mutate_found _ _ p); [assumption|].
    change (id (apply_all env [InitAnalysis; LogErr e] p) = pid).
    now rewrite id_apply_all.
  - rewrite (gen_completes env pid p p (mkWorld f [] []) He Hf).
    set (d := date_of env (options p)).
    set (txs := (InitAnalysis :: fst (loop_trace env p d 0 (tickers p)))%list).
    set (lines := summary_lines (apply_all env txs p) (tickers p) d).
    cbn [snd file transactions commit _read app].
    change (InitAnalysis :: fst (loop_trace env p d 0 (tickers p))
              ++ [SetSummary lines])%list
      with (txs ++ [SetSummary lines])%list.
    rewrite apply_all_app.
    apply (_find_mutate_found _ _ p); [assumption|].
    change (id (run_mutator env (SetSummary lines) (apply_all env txs p)) = pid).
    now rewrite id_run_mutator, id_apply_all.
Qed.

(** ** The known memory-collection condition *)

(** membership in a list written with [::] and [++] *)
Ltac find_in :=
  repeat (rewrite in_app_iff || simpl In); intuition (auto; fail).

(** The claim fails at its last part: on a post that recorded Buy for
    AAPL, a run whose engine raises the memory-collection message logs the
    warning and keeps Buy, and yields the ticker-error event for AAPL all
    the same. *)
Lemma benign_error_counterexample :
  benign memory_error = true
  /\ PyDict.get "AAPL" (per_ticker_of post_with_buy)
     = Some (mkTickerResult "Buy" (SigNote "earlier run"))
  /\ events (snd (analyze_post_stream (env_raising memory_error) "p1"
                    (Stored [post_with_buy])))
     = [EvStart "p1" ["AAPL"]; EvTickerStart "AAPL";
        EvTickerError "AAPL" memory_error; EvDone "p1"].
Proof. repeat split. Qed.

(** C2, amended: in a streaming run, let ticker [t] occur once in the
    ticker list, let the engine raise for it an exception whose message
    contains "already exists" and, lowercased, "memory", and let the post
    hold a suggestion [s] for [t] before the run.  Then the run returns
    normally; the report of the stored post is the report from before the
    run with more text appended, and the appended text holds the wrapped
    warning line for [t]; the stored suggestion for [t] is still [s]
    (with the error as its signals); and the ticker-error event for [t]
    has been yielded. *)
Theorem stream_benign_error
  (env : Env) (pid : string) (f : DataFile) (p : Post)
  (before after : list string) (t e : string) (v : TickerResult) :
  _find (_read f) pid = Some p ->
  import_error env = None ->
  tickers p = (before ++ t :: after)%list ->
  ~ In t before -> ~ In t after ->
  stream_raises (engine env (List.length before) t (date_of env (options p))) = Some e ->
  benign e = true ->
  PyDict.get t (per_ticker_of p) = Some v ->
  exists w p',
    analyze_post_stream env pid f = (Some (inr tt), w)
    /\ In (LogLine (_wrap_text (warning_text t))) (transactions w)
    /\ _find (_read (file w)) pid = Some p'
    /\ p' = apply_all env (transactions w) p
    /\ (exists logged_before logged_after,
          report_of p'
          = report_of p ++ logged_before ++ _wrap_text (warning_text t)
              ++ logged_after)
    /\ PyDict.get t (per_ticker_of p')
       = Some (mkTickerResult (suggestion v) (SigError e))
    /\ In (EvTickerError t e) (events w).
Proof.
  intros Hf He Hts Hb Ha Hraise Hben Hv.
  destruct (stream_run_completes env pid f p Hf He)
    as (w & p' & Hrun & Hev & Htx & Hf' & Hper & _ & _).
  pose proof (stream_run_stored env pid f p Hf) as Hst.
  rewrite Hrun in Hst. cbn [snd] in Hst. rewrite Hf' in Hst.
  injection Hst as Hp'.
  set (d := date_of env (options p)) in *.
  exists w, p'. split; [exact Hrun|].
  assert (Hloop : loop_trace env p d 0 (tickers p) =
     ((fst (loop_trace env p d 0 before)
       ++ (chunk_logs t (stream_chunks (engine env (List.length before) t d))
           ++ [LogLine (_wrap_text (warning_text t)); UpdErr t e])
       ++ fst (loop_trace env p d (S (List.length before)) after))%list,
      (snd (loop_trace env p d 0 before)
       ++ (EvTickerStart t
             :: chunk_events t (stream_chunks (engine env (List.length before) t d))
             ++ [EvTickerError t e])
       ++ snd (loop_trace env p d (S (List.length before)) after))%list)).
  { rewrite Hts, loop_trace_app. simpl.
    unfold ticker_trace, error_trace. rewrite Hraise, Hben.
    now destruct (loop_trace env p d (S (List.length before)) after). }
  assert (Hlog : In (LogLine (_wrap_text (warning_text t))) (transactions w)).
  { rewrite Htx, Hloop. simpl fst. find_in. }
  split; [exact Hlog|]. split; [exact Hf'|]. split; [exact Hp'|].
  rewrite Hloop in *. simpl fst in *. simpl snd in *.
  split; [|split].
  - rewrite Hp'. now apply report_of_apply_all_logged.
  - rewrite Hper, !fold_left_app.
    rewrite (fold_per_step_keeps t _ _ (loop_trace_keeps env p d t _ after Ha)).
    simpl. rewrite (fold_per_step_logs _ _ (chunk_logs_written t _)).
    rewrite get_set_same. unfold previous_or_hold.
    rewrite (fold_per_step_keeps t _ _ (loop_trace_keeps env p d t _ before Hb)).
    now rewrite Hv.
  - rewrite Hev. find_in.
Qed.

Lemma stream_benign_error_witness :
  exists w p',
    analyze_post_stream (env_raising memory_error) "p1" (Stored [post_with_buy])
      = (Some (inr tt), w)
    /\ In (LogLine (_wrap_text (warning_text "AAPL"))) (transactions w)
    /\ _find (_read (file w)) "p1" = Some p'
    /\ p' = apply_all (env_raising memory_error) (transactions w) post_with_buy
    /\ (exists logged_before logged_after,
          report_of p'
          = report_of post_with_buy ++ logged_before
              ++ _wrap_text (warning_text "AAPL") ++ logged_after)
    /\ PyDict.get "AAPL" (per_ticker_of p')
       = Some (mkTickerResult "Buy" (SigError memory_error))
    /\ In (EvTickerError "AAPL" memory_error) (events w).
Proof.
  apply (stream_benign_error (env_raising memory_error) "p1"
           (Stored [post_with_buy]) post_with_buy [] [] "AAPL" memory_error
           (mkTickerResult "Buy" (SigNote "earlier run")));
    try reflexivity; simpl; tauto.
Defined.

(** ** The summary of a completed run *)

Section SummaryFacts.

Variable env : Env.
Variable p : Post.
Variable d : string.

Lemma is_suggestion_norm (s : option string) : is_suggestion (_norm s).
Proof.
  rewrite _norm_priority. unfold is_suggestion.
  destruct (PyStr.contains "buy" _); [now left|].
  destruct (PyStr.contains "sell" _); [right; now left | right; now right].
Qed.

(** what the non-streaming loop returns *)
Lemma propagate_loop_spec (i : nat) (ts : list string)
  (per : PyDict.t TickerResult) (lines : list string) :
  propagate_loop env d i ts (per, lines)
  = (batch_per env d i ts per, (lines ++ batch_lines env d i ts)%list).
Proof.
  revert i per lines; induction ts as [|t r IH]; intros i per lines; simpl.
  - now rewrite app_nil_r.
  - unfold batch_entry, batch_line.
    destruct (propagate (engine env i t d)) as [e|[fs dec]];
      rewrite IH, <- app_assoc; reflexivity.
Qed.










End SummaryFacts.




(** ** Loops that assign one entry per pass *)

Section AssignFacts.

Context {V : Type}.
Variable value : nat -> string -> V.





Lemma get_assign_loop_other (k : string) (i : nat) (ts : list string)
  (d : PyDict.t V) :
  ~ In k ts -> PyDict.get k (assign_loop value i ts d) = PyDict.get k d.
Proof.
  revert i d; induction ts as [|t r IH]; intros i d Hk; simpl; [reflexivity|].
  simpl in Hk. rewrite IH by tauto. apply get_set_other. tauto.
Qed.


(** the entry of a listed ticker is the one of its last pass *)
Lemma get_assign_loop_last (t : string) (i : nat) (ts : list string)
  (d : PyDict.t V) :
  In t ts ->
  exists j, nth_error ts j = Some t
    /\ (forall j', nth_error ts j' = Some t -> j' <= j)
    /\ PyDict.get t (assign_loop value i ts d) = Some (value (i + j) t).
Proof.
  revert i d; induction ts as [|t0 r IH]; intros i d Hin; [destruct Hin|].
  simpl. destruct (in_dec string_dec t r) as [Hr|Hr].
  - destruct (IH (S i) (PyDict.set t0 (value i t0) d) Hr) as (j & Hj & Hlast & Hg).
    exists (S j). split; [exact Hj|]. split.
    + intros [|j'] Hj'; [lia|]. apply le_n_S. now apply Hlast.
    + rewrite Hg. now replace (i + S j) with (S i + j) by lia.
  - destruct Hin as [->|Hin]; [|contradiction].
    exists 0. split; [reflexivity|]. split.
    + intros [|j'] Hj'; [lia|]. exfalso. apply Hr.
      simpl in Hj'. now apply nth_error_In in Hj'.
    + rewrite get_assign_loop_other by assumption.
      now rewrite get_set_same, Nat.add_0_r.
Qed.






End AssignFacts.

(** ** The two pipelines side by side *)

Section Agreement.

Variable env : Env.
Variable p : Post.
Variable d : string.







Lemma batch_per_keeps (k : string) (i : nat) (ts : list string)
  (per : PyDict.t TickerResult) :
  ~ In k ts -> PyDict.get k (batch_per env d i ts per) = PyDict.get k per.
Proof.
  revert i per; induction ts as [|t r IH]; intros i per Hk; simpl; [reflexivity|].
  simpl in Hk. rewrite IH by tauto. apply get_set_other. tauto.
Qed.

Lemma batch_per_get (i j : nat) (ts : list string) (per : PyDict.t TickerResult)
  (t : string) :
  NoDup ts -> nth_error ts j = Some t ->
  PyDict.get t (batch_per env d i ts per) = Some (batch_entry env d (i + j) t).
Proof.
  revert i j per; induction ts as [|t0 r IH]; intros i j per Hnd Hj.
  - now destruct j.
  - inversion Hnd as [|? ? Ht0 Hr]; subst. destruct j as [|j]; simpl in *.
    + injection Hj as ->. rewrite batch_per_keeps by assumption.
      now rewrite get_set_same, Nat.add_0_r.
    + rewrite (IH (S i) j _ Hr Hj). do 2 f_equal. lia.
Qed.


Lemma snapshot_loop_assign (i : nat) (ts : list string) (snap : PyDict.t Quote) :
  snapshot_loop env p i ts snap = assign_loop (batch_quote env p) i ts snap.
Proof.
  revert i snap; induction ts as [|t r IH]; intros i snap; simpl;
    [reflexivity | apply IH].
Qed.


End Agreement.

Example pipelines_agree_sample :
  persisted "p1" (snd (analyze_post env_buy "p1"
                         (Stored [sample_post "p1" ["AAPL"; "MSFT"]])))
  = persisted "p1" (file (snd (analyze_post_stream env_buy "p1"
                                 (Stored [sample_post "p1" ["AAPL"; "MSFT"]])))).
Proof. reflexivity. Qed.


(** A second way for the claim to fail, with an engine that succeeds: a
    result stored for a ticker the post lists no more.  The non-streaming
    pipeline replaces the per-ticker mapping and the snapshot, the
    streaming pipeline adds to them, so the stale AAPL entries stay. *)
Example pipelines_differ_stale_key :
  persisted "p1" (snd (analyze_post env_buy "p1" (Stored [post_retargeted])))
  = Some ([("MSFT", mkTickerResult "Buy" (signals_of buy_state))],
          Some "MSFT: Buy (2025-01-02)",
          [("MSFT", mkQuote (Some 150%float) None)])
  /\ persisted "p1" (file (snd (analyze_post_stream env_buy "p1"
                                  (Stored [post_retargeted]))))
     = Some ([("AAPL", mkTickerResult "Buy" (SigNote "earlier run"));
              ("MSFT", mkTickerResult "Buy" (signals_of buy_state))],
             Some "MSFT: Buy (2025-01-02)",
             [("AAPL", mkQuote (Some 140%float) (Some 40%float));
              ("MSFT", mkQuote (Some 150%float) None)])
  /\ persisted "p1" (snd (analyze_post env_buy "p1" (Stored [post_retargeted])))
     <> persisted "p1" (file (snd (analyze_post_stream env_buy "p1"
                                     (Stored [post_retargeted])))).
Proof.
  split; [vm_compute; reflexivity|].
  split; [vm_compute; reflexivity|].
  vm_compute. discriminate.
Qed.

(** A third way: a ticker listed twice, for which the engine answers
    BUY in the first pass and SELL in the second.  The non-streaming
    pipeline writes one summary line per pass, the streaming pipeline
    reads both lines from the mapping once the loop has ended. *)
Example pipelines_differ_repeated_ticker :
  option_map (fun st => snd (fst st))
    (persisted "p1" (snd (analyze_post env_flip "p1"
                            (Stored [sample_post "p1" ["AAPL"; "AAPL"]]))))
  = Some (Some ("AAPL: Buy (2025-01-02)" ++ String "010" "AAPL: Sell (2025-01-02)"))
  /\ option_map (fun st => snd (fst st))
       (persisted "p1" (file (snd (analyze_post_stream env_flip "p1"
                                     (Stored [sample_post "p1" ["AAPL"; "AAPL"]])))))
     = Some (Some ("AAPL: Sell (2025-01-02)" ++ String "010" "AAPL: Sell (2025-01-02)")).
Proof. split; vm_compute; reflexivity. Qed.

(** On a re-run with the ticker list unchanged both pipelines leave the
    same state. *)
Example pipelines_agree_rerun :
  persisted "p1" (snd (analyze_post env_buy "p1" (Stored [post_with_buy])))
  = persisted "p1" (file (snd (analyze_post_stream env_buy "p1"
                                 (Stored [post_with_buy])))).
Proof. reflexivity. Qed.



(** * Further properties of the server *)

(** ** Ticker normalisation *)

Section NormalizeFacts.

Import PyStr.

Lemma upper_char_idem (c : ascii) : upper_char (upper_char c) = upper_char c.
Proof. destruct c as [[] [] [] [] [] [] [] []]; reflexivity. Qed.

Lemma is_space_upper_char (c : ascii) : is_space (upper_char c) = is_space c.
Proof. destruct c as [[] [] [] [] [] [] [] []]; reflexivity. Qed.

Lemma is_lower_upper_char (c : ascii) : is_lower (upper_char c) = false.
Proof. destruct c as [[] [] [] [] [] [] [] []]; reflexivity. Qed.

Lemma upper_idem (s : string) : upper (upper s) = upper s.
Proof.
  induction s as [|c r IH]; simpl; [reflexivity|].
  now rewrite IH, upper_char_idem.
Qed.

Lemma upper_lstrip (s : string) : upper (lstrip s) = lstrip (upper s).
Proof.
  induction s as [|c r IH]; simpl; [reflexivity|].
  rewrite is_space_upper_char.
  destruct (is_space c); [exact IH | reflexivity].
Qed.

Lemma upper_rstrip (s : string) : upper (rstrip s) = rstrip (upper s).
Proof.
  induction s as [|c r IH]; simpl; [reflexivity|].
  rewrite <- IH, is_space_upper_char.
  destruct (rstrip r); simpl; [destruct (is_space c)|]; reflexivity.
Qed.

Lemma upper_strip (s : string) : upper (strip s) = strip (upper s).
Proof. unfold strip. now rewrite upper_rstrip, upper_lstrip. Qed.

Lemma truthy_upper (s : string) : truthy (upper s) = truthy s.
Proof. now destruct s. Qed.

Lemma rstrip_idem (s : string) : rstrip (rstrip s) = rstrip s.
Proof.
  induction s as [|c r IH]; simpl; [reflexivity|].
  destruct (rstrip r) as [|a b] eqn:E.
  - destruct (is_space c) eqn:Ec; simpl; [reflexivity | now rewrite Ec].
  - change (rstrip (String c (String a b))) with
      (match rstrip (String a b) with
       | EmptyString => if is_space c then EmptyString else String c EmptyString
       | r' => String c r'
       end).
    now rewrite IH.
Qed.

Lemma lstrip_head (s : string) :
  lstrip s = EmptyString
  \/ exists c r, lstrip s = String c r /\ is_space c = false.
Proof.
  induction s as [|c r IH]; simpl; [now left|].
  destruct (is_space c) eqn:E; [exact IH|]. right. now exists c, r.
Qed.

Lemma rstrip_head (c : ascii) (r : string) :
  is_space c = false -> exists r', rstrip (String c r) = String c r'.
Proof.
  intros E. simpl. destruct (rstrip r) as [|a b].
  - rewrite E. now exists EmptyString.
  - now exists (String a b).
Qed.

Lemma strip_idem (s : string) : strip (strip s) = strip s.
Proof.
  unfold strip. destruct (lstrip_head s) as [->|(c & r & -> & E)];
    [reflexivity|].
  destruct (rstrip_head c r E) as [r' Hr]. rewrite Hr.
  simpl lstrip. rewrite E, <- Hr. apply rstrip_idem.
Qed.

Lemma all_chars_upper (s : string) :
  all_chars (fun c => negb (is_lower c)) (upper s) = true.
Proof.
  induction s as [|c r IH]; simpl; [reflexivity|].
  now rewrite is_lower_upper_char, IH.
Qed.

End NormalizeFacts.

(** X1: the ticker list [create_post] and [update_post] store is in
    normal form -- every ticker is stripped, holds no lowercase ASCII
    letter and is not empty -- and normalising it again changes
    nothing. *)
Theorem normalize_tickers_normal_form (x : option (list string)) :
  Forall (fun t => PyStr.strip t = t
                   /\ all_chars (fun c => negb (PyStr.is_lower c)) t = true
                   /\ PyStr.truthy t = true)
         (normalize_tickers x)
  /\ normalize_tickers (Some (normalize_tickers x)) = normalize_tickers x.
Proof.
  assert (H : Forall (fun t => PyStr.strip t = t
                   /\ all_chars (fun c => negb (PyStr.is_lower c)) t = true
                   /\ PyStr.truthy t = true
                   /\ PyStr.upper t = t)
         (normalize_tickers x)).
  { unfold normalize_tickers. apply Forall_forall. intros t Ht.
    apply in_map_iff in Ht as (t0 & <- & Ht0). apply filter_In in Ht0 as [_ Ht0].
    repeat split.
    - now rewrite <- upper_strip, strip_idem.
    - apply all_chars_upper.
    - now rewrite truthy_upper.
    - apply upper_idem. }
  split.
  - eapply Forall_impl; [|exact H]. simpl. tauto.
  - revert H. generalize (normalize_tickers x) as ts. intros ts H.
    unfold normalize_tickers. induction H as [|t r (Hs & _ & Ht & Hu) _ IH];
      simpl; [reflexivity|].
    now rewrite Hs, Ht; simpl; rewrite Hs, Hu, IH.
Qed.

(** ** Posts other than the one addressed *)

Section MutateFacts.

Lemma map_id_mutate_found (posts : list Post) (pid : string) (p' : Post) :
  id p' = pid -> map id (mutate_found posts pid p') = map id posts.
Proof.
  intros Hid. induction posts as [|q r IH]; simpl; [reflexivity|].
  destruct (String.eqb (id q) pid) eqn:E; simpl.
  - apply String.eqb_eq in E. congruence.
  - now rewrite IH.
Qed.

Lemma nth_error_mutate_found_other (posts : list Post) (pid : string)
  (p' q : Post) (n : nat) :
  nth_error posts n = Some q -> id q <> pid ->
  nth_error (mutate_found posts pid p') n = Some q.
Proof.
  revert n; induction posts as [|q0 r IH]; intros n Hn Hq; [now destruct n|].
  simpl. destruct (String.eqb (id q0) pid) eqn:E.
  - destruct n as [|n]; simpl in *; [|exact Hn].
    injection Hn as ->. apply String.eqb_eq in E. contradiction.
  - destruct n as [|n]; simpl in *; [exact Hn | now apply IH].
Qed.

Lemma _find_mutate_found_other (posts : list Post) (pid pid' : string) (p' : Post) :
  id p' = pid -> pid' <> pid ->
  _find (mutate_found posts pid p') pid' = _find posts pid'.
Proof.
  intros Hid Hne. induction posts as [|q r IH]; simpl; [reflexivity|].
  destruct (String.eqb (id q) pid) eqn:E; simpl.
  - apply String.eqb_eq in E.
    assert (E1 : String.eqb (id p') pid' = false)
      by (apply String.eqb_neq; congruence).
    assert (E2 : String.eqb (id q) pid' = false)
      by (apply String.eqb_neq; congruence).
    now rewrite E1, E2.
  - now rewrite IH.
Qed.

Lemma _find_app_fresh (posts : list Post) (p : Post) (pid : string) :
  _find (posts ++ [p]) pid =
    match _find posts pid with
    | Some q => Some q
    | None => if String.eqb (id p) pid then Some p else None
    end.
Proof.
  induction posts as [|q r IH]; simpl; [reflexivity|].
  now destruct (String.eqb (id q) pid).
Qed.

Lemma filter_length_eq {A} (P : A -> bool) (l : list A) :
  List.length (filter P l) = List.length l -> filter P l = l.
Proof.
  induction l as [|a r IH]; simpl; [reflexivity|].
  destruct (P a); simpl; intros H.
  - f_equal. apply IH. lia.
  - pose proof (filter_length_le P r). lia.
Qed.

Lemma _find_filter_other (posts : list Post) (pid pid' : string) :
  pid' <> pid ->
  _find (filter (fun x => negb (String.eqb (id x) pid)) posts) pid'
  = _find posts pid'.
Proof.
  intros Hne. induction posts as [|q r IH]; simpl; [reflexivity|].
  destruct (String.eqb (id q) pid) eqn:E; simpl.
  - apply String.eqb_eq in E.
    assert (E2 : String.eqb (id q) pid' = false)
      by (apply String.eqb_neq; congruence).
    now rewrite E2.
  - now rewrite IH.
Qed.

Lemma _find_filter_same (posts : list Post) (pid : string) :
  _find (filter (fun x => negb (String.eqb (id x) pid)) posts) pid = None.
Proof.
  induction posts as [|q r IH]; simpl; [reflexivity|].
  destruct (String.eqb (id q) pid) eqn:E; simpl; [exact IH|].
  now rewrite E.
Qed.

End MutateFacts.

(** ** Creating, deleting and editing posts *)

(** X2: when the id drawn is not yet stored, [create_post] appends the
    new post after the stored ones; the post starts with no analysis and
    an empty snapshot, is found under its id, and every other lookup
    answers as before. *)
Theorem create_post_appends
  (now new_id : string) (payload : Payload) (f : DataFile) :
  ~ In new_id (map id (_read f)) ->
  _read (snd (create_post now new_id payload f))
    = (_read f ++ [fst (create_post now new_id payload f)])%list
  /\ id (fst (create_post now new_id payload f)) = new_id
  /\ analysis (fst (create_post now new_id payload f)) = None
  /\ snapshot (fst (create_post now new_id payload f)) = Some []
  /\ _find (_read (snd (create_post now new_id payload f))) new_id
     = Some (fst (create_post now new_id payload f))
  /\ (forall pid, pid <> new_id ->
        _find (_read (snd (create_post now new_id payload f))) pid
        = _find (_read f) pid).
Proof.
  intros Hfresh. simpl. repeat split.
  - rewrite _find_app_fresh. apply _find_none in Hfresh. rewrite Hfresh.
    simpl. now rewrite String.eqb_refl.
  - intros pid Hne. rewrite _find_app_fresh. simpl.
    destruct (_find (_read f) pid); [reflexivity|].
    apply not_eq_sym, String.eqb_neq in Hne. now rewrite Hne.
Qed.

Lemma create_post_appends_witness :
  _read (snd (create_post "t0" "p2" (mkPayload None None None None None)
                (Stored [post_with_buy])))
    = ([post_with_buy]
       ++ [fst (create_post "t0" "p2" (mkPayload None None None None None)
                  (Stored [post_with_buy]))])%list
  /\ id (fst (create_post "t0" "p2" (mkPayload None None None None None)
                (Stored [post_with_buy]))) = "p2"
  /\ analysis (fst (create_post "t0" "p2" (mkPayload None None None None None)
                      (Stored [post_with_buy]))) = None
  /\ snapshot (fst (create_post "t0" "p2" (mkPayload None None None None None)
                      (Stored [post_with_buy]))) = Some []
  /\ _find (_read (snd (create_post "t0" "p2" (mkPayload None None None None None)
                          (Stored [post_with_buy])))) "p2"
     = Some (fst (create_post "t0" "p2" (mkPayload None None None None None)
                    (Stored [post_with_buy])))
  /\ (forall pid, pid <> "p2" ->
        _find (_read (snd (create_post "t0" "p2"
                             (mkPayload None None None None None)
                             (Stored [post_with_buy])))) pid
        = _find [post_with_buy] pid).
Proof.
  apply (create_post_appends "t0" "p2" (mkPayload None None None None None)
           (Stored [post_with_buy])).
  simpl. intuition discriminate.
Defined.

(** X3: [delete_post] answers "deleted" exactly when the id is stored;
    afterwards no post has that id, every post of another id is found as
    before, and a 404 leaves the data file as it was. *)
Theorem delete_post_removes (pid : string) (f : DataFile) :
  fst (delete_post pid f) = str_in pid (map id (_read f))
  /\ _find (_read (snd (delete_post pid f))) pid = None
  /\ (forall pid', pid' <> pid ->
        _find (_read (snd (delete_post pid f))) pid' = _find (_read f) pid')
  /\ (fst (delete_post pid f) = false -> snd (delete_post pid f) = f).
Proof.
  unfold delete_post.
  destruct (Nat.eqb_spec
              (List.length (filter (fun x => negb (String.eqb (id x) pid)) (_read f)))
              (List.length (_read f))) as [E|E]; simpl.
  - apply filter_length_eq in E.
    assert (Hnone : _find (_read f) pid = None)
      by (rewrite <- E; apply _find_filter_same).
    repeat split; auto.
    symmetry. apply str_in_false. now apply _find_none.
  - repeat split.
    + symmetry. apply str_in_In. destruct (_find (_read f) pid) as [q|] eqn:Hq.
      * apply _find_some in Hq as [Hin <-]. now apply in_map.
      * exfalso. apply E. f_equal.
        assert (H : forall l, _find l pid = None ->
                    filter (fun x => negb (String.eqb (id x) pid)) l = l).
        { clear. induction l as [|a r IH]; simpl; [reflexivity|].
          destruct (String.eqb (id a) pid); [discriminate|].
          intros H. simpl. now rewrite IH. }
        now apply H.
    + apply _find_filter_same.
    + intros pid' Hne. now apply _find_filter_other.
    + discriminate.
Qed.

(** X4: creating a post under a fresh id and deleting it again restores
    the stored collection. *)
Theorem delete_created_post
  (now new_id : string) (payload : Payload) (f : DataFile) :
  ~ In new_id (map id (_read f)) ->
  delete_post new_id (snd (create_post now new_id payload f))
  = (true, Stored (_read f)).
Proof.
  intros Hfresh. unfold delete_post, create_post, _write. simpl _read. simpl snd.
  rewrite filter_app. simpl. rewrite String.eqb_refl. simpl.
  assert (H : filter (fun x => negb (String.eqb (id x) new_id)) (_read f) = _read f).
  { induction (_read f) as [|a r IH]; simpl; [reflexivity|].
    simpl in Hfresh.
    destruct (String.eqb (id a) new_id) eqn:E.
    - apply String.eqb_eq in E. tauto.
    - simpl. rewrite IH by tauto. reflexivity. }
  rewrite H, app_nil_r, length_app. simpl.
  destruct (Nat.eqb_spec (List.length (_read f)) (List.length (_read f) + 1));
    [lia | reflexivity].
Qed.

Lemma delete_created_post_witness :
  delete_post "p2"
    (snd (create_post "t0" "p2" (mkPayload None None None None None)
            (Stored [post_with_buy])))
  = (true, Stored [post_with_buy]).
Proof.
  apply (delete_created_post "t0" "p2" (mkPayload None None None None None)
           (Stored [post_with_buy])).
  simpl. intuition discriminate.
Defined.

Section EndpointShapes.

Lemma mutate_found_absent (posts : list Post) (pid : string) (p' : Post) :
  _find posts pid = None -> mutate_found posts pid p' = posts.
Proof.
  induction posts as [|q r IH]; simpl; [reflexivity|].
  destruct (String.eqb (id q) pid); [discriminate|].
  intros H. now rewrite IH.
Qed.

Lemma only_touches_refl (pid : string) (f : DataFile) : only_touches pid f f.
Proof. split; auto. Qed.

Lemma only_touches_mutate (pid : string) (f : DataFile) (p' : Post) :
  id p' = pid ->
  only_touches pid f (Stored (mutate_found (_read f) pid p')).
Proof.
  intros Hid. split; simpl.
  - now apply map_id_mutate_found.
  - intros n q Hn Hq. now apply nth_error_mutate_found_other.
Qed.

Lemma only_touches_trans (pid : string) (f1 f2 f3 : DataFile) :
  only_touches pid f1 f2 -> only_touches pid f2 f3 -> only_touches pid f1 f3.
Proof.
  intros [H1 H1'] [H2 H2']. split; [congruence|].
  intros n q Hn Hq. apply H2'; auto.
Qed.

Lemma filter_absent (posts : list Post) (pid : string) :
  _find posts pid = None ->
  filter (fun x => negb (String.eqb (id x) pid)) posts = posts.
Proof.
  induction posts as [|a r IH]; simpl; [reflexivity|].
  destruct (String.eqb (id a) pid); [discriminate|].
  intros H. simpl. now rewrite IH.
Qed.

(** the data file a streaming request leaves, whatever its outcome *)
Lemma stream_file_shape (env : Env) (pid : string) (f : DataFile) :
  file (snd (analyze_post_stream env pid f)) = f
  \/ exists p', id p' = pid
       /\ file (snd (analyze_post_stream env pid f))
          = Stored (mutate_found (_read f) pid p').
Proof.
  unfold analyze_post_stream.
  destruct (_find (_read f) pid) as [p|] eqn:Hf; [|now left].
  right. assert (Hid : id p = pid) by now apply _find_some in Hf.
  destruct (import_error env) as [e|] eqn:He.
  - rewrite (gen_import_error env pid p e He (mkWorld f [] []) p Hf).
    eexists. split; [|reflexivity]. now rewrite id_apply_all.
  - rewrite (gen_completes env pid p p (mkWorld f [] []) He Hf).
    eexists. split; [|reflexivity].
    change (id (run_mutator env
                  (SetSummary
                     (summary_lines
                        (apply_all env
                           (InitAnalysis
                              :: fst (loop_trace env p (date_of env (options p)) 0
                                        (tickers p))) p)
                        (tickers p) (date_of env (options p))))
                  (apply_all env
                     (InitAnalysis
                        :: fst (loop_trace env p (date_of env (options p)) 0
                                  (tickers p))) p)) = pid).
    now rewrite id_run_mutator, id_apply_all.
Qed.

End EndpointShapes.

(** X5: [update_post] on a stored post returns the edited post and stores
    it in place: the id, the creation time, the analysis and the snapshot
    are the ones it had, and the post is found under its id afterwards. *)
Theorem update_post_keeps
  (now pid : string) (payload : Payload) (f : DataFile) (p : Post) :
  _find (_read f) pid = Some p ->
  exists p',
    update_post now pid payload f
      = (Some p', Stored (mutate_found (_read f) pid p'))
    /\ id p' = id p /\ createdAt p' = createdAt p
    /\ analysis p' = analysis p /\ snapshot p' = snapshot p
    /\ updatedAt p' = now
    /\ _find (_read (snd (update_post now pid payload f))) pid = Some p'.
Proof.
  intros Hf. unfold update_post. rewrite Hf. eexists.
  split; [reflexivity|]. do 5 (split; [reflexivity|]).
  simpl. apply (_find_mutate_found _ _ p); [assumption|].
  simpl. now apply _find_some in Hf.
Qed.

Lemma update_post_keeps_witness :
  exists p',
    update_post "t1" "p1" (mkPayload (Some None) None None None None)
      (Stored [post_with_buy])
      = (Some p', Stored (mutate_found [post_with_buy] "p1" p'))
    /\ id p' = "p1" /\ createdAt p' = "2025-01-01T00:00:00Z"
    /\ analysis p' = analysis post_with_buy
    /\ snapshot p' = snapshot post_with_buy
    /\ updatedAt p' = "t1"
    /\ _find (_read (snd (update_post "t1" "p1"
                            (mkPayload (Some None) None None None None)
                            (Stored [post_with_buy])))) "p1" = Some p'.
Proof.
  apply (update_post_keeps "t1" "p1" (mkPayload (Some None) None None None None)
           (Stored [post_with_buy]) post_with_buy).
  reflexivity.
Defined.

(** X6: a request for an id that is not stored changes nothing: every
    endpoint that addresses one post answers not-found (the transaction
    primitive answers [False]) and leaves the data file as it was; the
    streaming endpoint yields no event and makes no transaction. *)
Theorem not_found_changes_nothing
  (env : Env) (now pid : string) (payload : Payload)
  (mutator : Post -> Exc Post) (f : DataFile) :
  _find (_read f) pid = None ->
  _update_post pid mutator f = (inr false, f)
  /\ update_post now pid payload f = (None, f)
  /\ delete_post pid f = (false, f)
  /\ summarize_post env pid f = (inr None, f)
  /\ analyze_post env pid f = (None, f)
  /\ refresh_snapshot env pid f = (None, f)
  /\ analyze_post_stream env pid f = (None, mkWorld f [] []).
Proof.
  intros Hf.
  unfold _update_post, update_post, delete_post, summarize_post, analyze_post,
    refresh_snapshot, analyze_post_stream.
  rewrite Hf, (filter_absent _ _ Hf), Nat.eqb_refl. repeat split.
Qed.

Lemma not_found_changes_nothing_witness :
  _update_post "zz" (fun pp => inr pp) (Stored [post_with_buy])
    = (inr false, Stored [post_with_buy])
  /\ update_post "t1" "zz" (mkPayload None None None None None)
       (Stored [post_with_buy]) = (None, Stored [post_with_buy])
  /\ delete_post "zz" (Stored [post_with_buy]) = (false, Stored [post_with_buy])
  /\ summarize_post env_buy "zz" (Stored [post_with_buy])
     = (inr None, Stored [post_with_buy])
  /\ analyze_post env_buy "zz" (Stored [post_with_buy])
     = (None, Stored [post_with_buy])
  /\ refresh_snapshot env_buy "zz" (Stored [post_with_buy])
     = (None, Stored [post_with_buy])
  /\ analyze_post_stream env_buy "zz" (Stored [post_with_buy])
     = (None, mkWorld (Stored [post_with_buy]) [] []).
Proof.
  apply (not_found_changes_nothing env_buy "t1" "zz"
           (mkPayload None None None None None) (fun pp => inr pp)
           (Stored [post_with_buy])).
  reflexivity.
Defined.

Section TouchFacts.

Variable env : Env.
Variable pid : string.
Variable f : DataFile.

Lemma update_post_touches (now : string) (payload : Payload) :
  only_touches pid f (snd (update_post now pid payload f)).
Proof.
  unfold update_post. destruct (_find (_read f) pid) as [p|] eqn:Hf;
    [|apply only_touches_refl].
  apply only_touches_mutate. simpl. now apply _find_some in Hf.
Qed.

Lemma summarize_post_touches :
  only_touches pid f (snd (summarize_post env pid f)).
Proof.
  unfold summarize_post. destruct (_find (_read f) pid) as [p|] eqn:Hf;
    [|apply only_touches_refl].
  destruct (tickers p); simpl; [apply only_touches_refl|].
  destruct (analysis p); simpl; [|apply only_touches_refl].
  apply only_touches_mutate. simpl. now apply _find_some in Hf.
Qed.

Lemma analyze_post_touches :
  only_touches pid f (snd (analyze_post env pid f)).
Proof.
  unfold analyze_post. destruct (_find (_read f) pid) as [p|] eqn:Hf;
    [|apply only_touches_refl].
  destruct (run_tradingagents_analysis env (tickers p) (options p)).
  apply only_touches_mutate. simpl. now apply _find_some in Hf.
Qed.

Lemma refresh_snapshot_touches :
  only_touches pid f (snd (refresh_snapshot env pid f)).
Proof.
  unfold refresh_snapshot. destruct (_find (_read f) pid) as [p|] eqn:Hf;
    [|apply only_touches_refl].
  apply only_touches_mutate. simpl. now apply _find_some in Hf.
Qed.

Lemma analyze_post_stream_touches :
  only_touches pid f (file (snd (analyze_post_stream env pid f))).
Proof.
  destruct (stream_file_shape env pid f) as [Hs|(ps & Hps & Hs)]; rewrite Hs.
  - apply only_touches_refl.
  - now apply only_touches_mutate.
Qed.

End TouchFacts.

(** X7: the endpoints that address one post touch that post only: after
    an edit, a summary, a batch analysis, a snapshot refresh or a
    streaming run on [pid], the stored ids are the same in the same order
    and every post of another id is where it was, unchanged. *)
Theorem endpoints_touch_one_post
  (env : Env) (now pid : string) (payload : Payload) (f : DataFile) :
  only_touches pid f (snd (update_post now pid payload f))
  /\ only_touches pid f (snd (summarize_post env pid f))
  /\ only_touches pid f (snd (analyze_post env pid f))
  /\ only_touches pid f (snd (refresh_snapshot env pid f))
  /\ only_touches pid f (file (snd (analyze_post_stream env pid f))).
Proof.
  split; [apply update_post_touches|].
  split; [apply summarize_post_touches|].
  split; [apply analyze_post_touches|].
  split; [apply refresh_snapshot_touches | apply analyze_post_stream_touches].
Qed.

(** ** Reordering by a complete list; uniqueness of ids *)

Section ReorderMore.

Lemma first_mentions_NoDup (seen l : list string) :
  NoDup l -> (forall x, In x l -> ~ In x seen) -> first_mentions seen l = l.
Proof.
  revert seen; induction l as [|x r IH]; intros seen Hnd Hs; simpl; [reflexivity|].
  inversion Hnd as [|? ? Hx Hr]; subst.
  assert (E : str_in x seen = false)
    by (apply str_in_false, Hs; now left).
  rewrite E. f_equal. apply IH; [assumption|].
  intros y Hy [<-|Hin]; [contradiction|]. apply (Hs y); [now right | assumption].
Qed.

Lemma reorder_posts_read (order : list string) (f : DataFile) :
  NoDup (map id (_read f)) ->
  reorder_posts order f
  = (map id (lookup_all (_read f) (requested_ids (_read f) order)
             ++ unrequested (_read f) order),
     Stored (lookup_all (_read f) (requested_ids (_read f) order)
             ++ unrequested (_read f) order)).
Proof.
  intros Hnd. set (posts := _read f) in *.
  unfold reorder_posts. fold posts.
  rewrite (pick_requested_loop posts Hnd order [] [] []) by tauto.
  cbv zeta. simpl app. fold (requested_ids posts order).
  pose proof (append_remaining_loop posts
                (lookup_all posts (requested_ids posts order))
                (requested_ids posts order) Hnd) as H.
  destruct (fold_left append_remaining posts _) as [new_posts used'].
  simpl in H. subst new_posts.
  now rewrite (filter_requested posts order).
Qed.

Lemma reorder_posts_perm (order : list string) (f : DataFile) :
  NoDup (map id (_read f)) ->
  Permutation (_read f) (_read (snd (reorder_posts order f))).
Proof.
  intros Hnd. rewrite (reorder_posts_read order f Hnd). simpl.
  etransitivity;
    [apply (Permutation_partition (fun p => str_in (id p) order))|].
  apply Permutation_app; [|reflexivity].
  now apply picked_permutation.
Qed.

End ReorderMore.

(** X8: when the request lists every stored id exactly once, the new
    stored order is the requested order, and the response repeats it. *)
Theorem reorder_posts_complete_order (order : list string) (f : DataFile) :
  NoDup (map id (_read f)) ->
  Permutation order (map id (_read f)) ->
  fst (reorder_posts order f) = order
  /\ map id (_read (snd (reorder_posts order f))) = order.
Proof.
  intros Hnd Hperm.
  assert (Hord : NoDup order)
    by (eapply Permutation_NoDup; [symmetry; exact Hperm | exact Hnd]).
  assert (Hreq : requested_ids (_read f) order = order).
  { unfold requested_ids.
    assert (E : filter (fun x => str_in x (map id (_read f))) order = order).
    { apply forallb_filter_id. apply forallb_forall. intros x Hx.
      apply str_in_In. eapply Permutation_in; eassumption. }
    rewrite E. apply first_mentions_NoDup; [assumption | tauto]. }
  assert (Hun : unrequested (_read f) order = []).
  { unfold unrequested.
    assert (Hall : forall q, In q (_read f) -> str_in (id q) order = true).
    { intros q Hq. apply str_in_In.
      eapply Permutation_in; [symmetry; exact Hperm|]. now apply in_map. }
    revert Hall. generalize (_read f) as l.
    induction l as [|q r IH]; intros Hall; simpl; [reflexivity|].
    rewrite (Hall q) by now left. simpl. apply IH.
    intros q' Hq'. apply Hall. now right. }
  rewrite (reorder_posts_read order f Hnd), Hreq, Hun, app_nil_r. simpl.
  rewrite map_id_lookup_all; [auto|].
  intros i Hi. eapply Permutation_in; eassumption.
Qed.

Lemma reorder_posts_complete_order_witness :
  fst (reorder_posts ["c"; "a"; "b"]
         (Stored [sample_post "a" []; sample_post "b" []; sample_post "c" []]))
  = ["c"; "a"; "b"]
  /\ map id (_read (snd (reorder_posts ["c"; "a"; "b"]
                           (Stored [sample_post "a" []; sample_post "b" [];
                                    sample_post "c" []]))))
     = ["c"; "a"; "b"].
Proof.
  apply (reorder_posts_complete_order ["c"; "a"; "b"]
           (Stored [sample_post "a" []; sample_post "b" []; sample_post "c" []])).
  - simpl. repeat constructor; simpl; intuition discriminate.
  - simpl. apply Permutation_cons_app with (l1 := ["a"; "b"]) (l2 := []).
    reflexivity.
Defined.

(** ** Regenerating every post *)

Section AnalyzeAllFacts.

Variable envs : nat -> Env.

Lemma analyze_post_found (env : Env) (pid : string) (f : DataFile) (p : Post) :
  _find (_read f) pid = Some p ->
  exists p',
    analyze_post env pid f = (Some p', Stored (mutate_found (_read f) pid p'))
    /\ id p' = pid /\ tickers p' = tickers p
    /\ analysis p' <> None /\ snapshot p' <> None.
Proof.
  intros Hf. unfold analyze_post. rewrite Hf.
  destruct (run_tradingagents_analysis env (tickers p) (options p)) as [summ per].
  eexists. split; [reflexivity|]. simpl.
  repeat split; try discriminate. now apply _find_some in Hf.
Qed.

Lemma analyze_all_loop_spec (k : nat) (ps : list Post)
  (out : list (Exc Post)) (f : DataFile) :
  (forall p, In p ps -> In (id p) (map id (_read f))) ->
  exists ps',
    fst (analyze_all_loop envs k ps (out, f)) = (out ++ map inr ps')%list
    /\ map id ps' = map id ps
    /\ Forall (fun p' => analysis p' <> None /\ snapshot p' <> None) ps'
    /\ map id (_read (snd (analyze_all_loop envs k ps (out, f))))
       = map id (_read f).
Proof.
  revert k out f; induction ps as [|p r IH]; intros k out f Hin.
  - exists []. simpl. now rewrite app_nil_r.
  - simpl. destruct (_find (_read f) (id p)) as [q|] eqn:Hq.
    2: { exfalso. apply _find_none in Hq. apply Hq, Hin. now left. }
    destruct (analyze_post_found (envs k) (id p) f q Hq)
      as (p' & -> & Hid & _ & Ha & Hs).
    assert (Hids : map id (_read (Stored (mutate_found (_read f) (id p) p')))
                   = map id (_read f))
      by (simpl; now apply map_id_mutate_found).
    destruct (IH (S k) (out ++ [inr p'])%list
                (Stored (mutate_found (_read f) (id p) p')))
      as (ps' & Hout & Hmap & Hall & Hfile).
    { intros p0 Hp0. rewrite Hids. apply Hin. now right. }
    exists (p' :: ps'). rewrite Hout, Hfile, Hids, <- app_assoc. simpl.
    repeat split; auto. now rewrite Hid, Hmap.
Qed.

End AnalyzeAllFacts.

(** X9: [analyze_all] answers with one post per stored post, in stored
    order and without an error entry; every post returned carries an
    analysis and a snapshot; and the stored ids are the same, in the same
    order, afterwards. *)
Theorem analyze_all_answers (envs : nat -> Env) (f : DataFile) :
  exists ps',
    fst (analyze_all envs f) = map inr ps'
    /\ map id ps' = map id (_read f)
    /\ Forall (fun p' => analysis p' <> None /\ snapshot p' <> None) ps'
    /\ map id (_read (snd (analyze_all envs f))) = map id (_read f).
Proof.
  unfold analyze_all.
  destruct (analyze_all_loop_spec envs 0 (_read f) [] f) as (ps' & H).
  - intros p Hp. now apply in_map.
  - now exists ps'.
Qed.

(** X10: uniqueness of the stored ids is kept by every endpoint: by
    [create_post] when the id drawn is fresh, and by editing, deleting,
    reordering, summarising, analysing (batch, streaming, all posts) and
    refreshing a snapshot. *)
Theorem ids_stay_unique
  (env : Env) (envs : nat -> Env) (now new_id pid : string)
  (payload : Payload) (order : list string) (f : DataFile) :
  NoDup (map id (_read f)) ->
  ~ In new_id (map id (_read f)) ->
  NoDup (map id (_read (snd (create_post now new_id payload f))))
  /\ NoDup (map id (_read (snd (update_post now pid payload f))))
  /\ NoDup (map id (_read (snd (delete_post pid f))))
  /\ NoDup (map id (_read (snd (reorder_posts order f))))
  /\ NoDup (map id (_read (snd (summarize_post env pid f))))
  /\ NoDup (map id (_read (snd (analyze_post env pid f))))
  /\ NoDup (map id (_read (snd (refresh_snapshot env pid f))))
  /\ NoDup (map id (_read (file (snd (analyze_post_stream env pid f)))))
  /\ NoDup (map id (_read (snd (analyze_all envs f)))).
Proof.
  intros Hnd Hfresh.
  split.
  { simpl. rewrite map_app. simpl.
    apply NoDup_app; [assumption | repeat constructor; simpl; tauto |].
    intros x Hx [<-|[]]. contradiction. }
  split; [now rewrite (proj1 (update_post_touches pid f now payload))|].
  split.
  { unfold delete_post. destruct (_ =? _)%nat; simpl; [assumption|].
    clear Hfresh. induction (_read f) as [|q r IH]; simpl; [constructor|].
    inversion Hnd as [|? ? Hq Hr]; subst.
    destruct (String.eqb (id q) pid); simpl; [now apply IH|].
    constructor; [|now apply IH].
    intros Hin. apply Hq. apply in_map_iff in Hin as (x & Hx & Hin).
    apply filter_In in Hin as [Hin _]. rewrite <- Hx. now apply in_map. }
  split.
  { eapply Permutation_NoDup; [|exact Hnd].
    apply Permutation_map. now apply reorder_posts_perm. }
  split; [now rewrite (proj1 (summarize_post_touches env pid f))|].
  split; [now rewrite (proj1 (analyze_post_touches env pid f))|].
  split; [now rewrite (proj1 (refresh_snapshot_touches env pid f))|].
  split; [now rewrite (proj1 (analyze_post_stream_touches env pid f))|].
  destruct (analyze_all_loop_spec envs 0 (_read f) [] f) as (ps' & _ & _ & _ & H).
  - intros p Hp. now apply in_map.
  - unfold analyze_all. now rewrite H.
Qed.

Lemma ids_stay_unique_witness :
  NoDup (map id (_read (snd (create_post "t0" "p2"
                               (mkPayload None None None None None)
                               (Stored [post_with_buy])))))
  /\ NoDup (map id (_read (snd (update_post "t0" "p1"
                                  (mkPayload None None None None None)
                                  (Stored [post_with_buy])))))
  /\ NoDup (map id (_read (snd (delete_post "p1" (Stored [post_with_buy])))))
  /\ NoDup (map id (_read (snd (reorder_posts ["p1"] (Stored [post_with_buy])))))
  /\ NoDup (map id (_read (snd (summarize_post env_buy "p1"
                                  (Stored [post_with_buy])))))
  /\ NoDup (map id (_read (snd (analyze_post env_buy "p1"
                                  (Stored [post_with_buy])))))
  /\ NoDup (map id (_read (snd (refresh_snapshot env_buy "p1"
                                  (Stored [post_with_buy])))))
  /\ NoDup (map id (_read (file (snd (analyze_post_stream env_buy "p1"
                                        (Stored [post_with_buy]))))))
  /\ NoDup (map id (_read (snd (analyze_all (fun _ => env_buy)
                                  (Stored [post_with_buy]))))).
Proof.
  apply (ids_stay_unique env_buy (fun _ => env_buy) "t0" "p2" "p1"
           (mkPayload None None None None None) ["p1"] (Stored [post_with_buy])).
  - simpl. repeat constructor; simpl; tauto.
  - simpl. intuition discriminate.
Defined.

(** ** Summarising a post *)

(** X11: summarising a post straight after its creation fails when the
    post has tickers: its analysis is still [null], the assignment of the
    summary raises, and the data file stays as [create_post] left it. *)
Theorem summarize_created_post_raises
  (env : Env) (now new_id : string) (payload : Payload) (f : DataFile) :
  ~ In new_id (map id (_read f)) ->
  normalize_tickers (payload_get (payload_tickers payload)) <> [] ->
  summarize_post env new_id (snd (create_post now new_id payload f))
  = (inl "'NoneType' object does not support item assignment",
     snd (create_post now new_id payload f)).
Proof.
  intros Hfresh Hts. unfold summarize_post.
  simpl _read. rewrite _find_app_fresh.
  apply _find_none in Hfresh. rewrite Hfresh. simpl id.
  rewrite String.eqb_refl. simpl tickers.
  destruct (normalize_tickers (payload_get (payload_tickers payload)));
    [contradiction | reflexivity].
Qed.

Lemma summarize_created_post_raises_witness :
  summarize_post env_buy "p2"
    (snd (create_post "t0" "p2"
            (mkPayload None None (Some (Some [" aapl "])) None None)
            (Stored [post_with_buy])))
  = (inl "'NoneType' object does not support item assignment",
     snd (create_post "t0" "p2"
            (mkPayload None None (Some (Some [" aapl "])) None None)
            (Stored [post_with_buy]))).
Proof.
  apply (summarize_created_post_raises env_buy "t0" "p2"
           (mkPayload None None (Some (Some [" aapl "])) None None)
           (Stored [post_with_buy])).
  - simpl. intuition discriminate.
  - discriminate.
Defined.




(** ** Snapshots and batch results *)

Section SnapshotFacts.

Variable env : Env.
Variable p : Post.

Lemma snapshot_loop_keeps (k : string) (i : nat) (ts : list string)
  (snap : PyDict.t Quote) :
  ~ In k ts -> PyDict.get k (snapshot_loop env p i ts snap) = PyDict.get k snap.
Proof.
  revert i snap; induction ts as [|t r IH]; intros i snap Hk; simpl; [reflexivity|].
  simpl in Hk. rewrite IH by tauto. apply get_set_other. tauto.
Qed.

(** every listed ticker has the quote of its last pass *)
Lemma snapshot_loop_get (t : string) (i : nat) (ts : list string)
  (snap : PyDict.t Quote) :
  In t ts ->
  exists j, nth_error ts j = Some t
    /\ (forall j', nth_error ts j' = Some t -> j' <= j)
    /\ PyDict.get t (snapshot_loop env p i ts snap)
       = Some (mkQuote (get_latest_price env (i + j) t)
                 (pct_of (purchase_of p t) (get_latest_price env (i + j) t))).
Proof.
  intros Hin. rewrite snapshot_loop_assign.
  exact (get_assign_loop_last (batch_quote env p) t i ts snap Hin).
Qed.

Lemma is_suggestion_batch_entry (d : string) (i : nat) (t : string) :
  is_suggestion (suggestion (batch_entry env d i t)).
Proof.
  unfold batch_entry. destruct (propagate (engine env i t d)) as [e|[fs dec]];
    simpl; [right; now right | apply is_suggestion_norm].
Qed.

Lemma batch_per_present (d t : string) (i : nat) (ts : list string)
  (per : PyDict.t TickerResult) :
  In t ts ->
  exists v, PyDict.get t (batch_per env d i ts per) = Some v
            /\ is_suggestion (suggestion v).
Proof.
  revert i per; induction ts as [|t0 r IH]; intros i per Hin; [destruct Hin|].
  simpl. destruct (in_dec string_dec t r) as [Hr|Hr]; [now apply IH|].
  destruct Hin as [->|Hin]; [|contradiction].
  rewrite batch_per_keeps by assumption. rewrite get_set_same.
  eexists. split; [reflexivity | apply is_suggestion_batch_entry].
Qed.

Lemma fold_hold_keeps (sg : Signals) (k : string) (ts : list string)
  (per : PyDict.t TickerResult) :
  ~ In k ts ->
  PyDict.get k (fold_left (fun per t => PyDict.set t (mkTickerResult "Hold" sg) per)
                  ts per)
  = PyDict.get k per.
Proof.
  revert per; induction ts as [|t r IH]; intros per Hk; simpl; [reflexivity|].
  simpl in Hk. rewrite IH by tauto. apply get_set_other. tauto.
Qed.

Lemma fold_hold_present (sg : Signals) (t : string) (ts : list string)
  (per : PyDict.t TickerResult) :
  In t ts ->
  PyDict.get t (fold_left (fun per t => PyDict.set t (mkTickerResult "Hold" sg) per)
                  ts per)
  = Some (mkTickerResult "Hold" sg).
Proof.
  revert per; induction ts as [|t0 r IH]; intros per Hin; [destruct Hin|].
  simpl. destruct (in_dec string_dec t r) as [Hr|Hr]; [now apply IH|].
  destruct Hin as [->|Hin]; [|contradiction].
  rewrite fold_hold_keeps by assumption. apply get_set_same.
Qed.

(** the per-ticker mapping [run_tradingagents_analysis] returns, in each
    of its three branches *)
Lemma run_tradingagents_analysis_entries (ts : list string) (opts : Options) :
  (forall t, In t ts ->
     exists v, PyDict.get t (snd (run_tradingagents_analysis env ts opts)) = Some v
               /\ is_suggestion (suggestion v))
  /\ (forall k, ~ In k ts ->
        PyDict.get k (snd (run_tradingagents_analysis env ts opts)) = None).
Proof.
  unfold run_tradingagents_analysis.
  destruct (tradingagents_installed env); simpl.
  - destruct (import_error env) as [e|]; simpl.
    + split.
      * intros t Ht. rewrite fold_hold_present by assumption.
        eexists. split; [reflexivity | right; now right].
      * intros k Hk. now rewrite fold_hold_keeps.
    + rewrite propagate_loop_spec. simpl. split.
      * intros t Ht. now apply batch_per_present.
      * intros k Hk. now rewrite batch_per_keeps.
  - split.
    + intros t Ht. rewrite fold_hold_present by assumption.
      eexists. split; [reflexivity | right; now right].
    + intros k Hk. now rewrite fold_hold_keeps.
Qed.

End SnapshotFacts.

(** X13: [refresh_snapshot] on a stored post leaves the analysis alone
    and replaces the snapshot: every listed ticker gets the price of its
    last pass -- the pass of its last position in the ticker list -- and
    the percent change against its purchase price, and a ticker that is
    not listed has no quote any more.  The snapshot is the one a batch
    analysis stores. *)
Theorem refresh_snapshot_quotes
  (env : Env) (pid : string) (f : DataFile) (p : Post) :
  _find (_read f) pid = Some p ->
  exists p',
    refresh_snapshot env pid f
      = (Some p', Stored (mutate_found (_read f) pid p'))
    /\ analysis p' = analysis p
    /\ (forall t, In t (tickers p) ->
          exists j, nth_error (tickers p) j = Some t
            /\ (forall j', nth_error (tickers p) j' = Some t -> j' <= j)
            /\ PyDict.get t (snapshot_of p')
               = Some (mkQuote (get_latest_price env j t)
                         (percent_change (purchase_of p t)
                            (get_latest_price env j t))))
    /\ (forall k, ~ In k (tickers p) -> PyDict.get k (snapshot_of p') = None)
    /\ option_map snapshot_of (fst (analyze_post env pid f))
       = Some (snapshot_of p').
Proof.
  intros Hf. unfold refresh_snapshot, analyze_post. rewrite Hf.
  eexists. split; [reflexivity|]. split; [reflexivity|].
  split; [|split].
  - intros t Ht. unfold snapshot_of. cbn [snapshot or_empty].
    destruct (snapshot_loop_get env p t 0 (tickers p) [] Ht)
      as (j & Hj & Hlast & Hg).
    exists j. split; [exact Hj|]. split; [exact Hlast|].
    rewrite Hg. cbn [Nat.add]. do 2 f_equal.
    unfold pct_of. now destruct (purchase_of p t).
  - intros k Hk. unfold snapshot_of. cbn [snapshot or_empty].
    now rewrite snapshot_loop_keeps.
  - now destruct (run_tradingagents_analysis env (tickers p) (options p)).
Qed.

Lemma refresh_snapshot_quotes_witness :
  exists p',
    refresh_snapshot env_buy "p1" (Stored [post_with_buy])
      = (Some p', Stored (mutate_found [post_with_buy] "p1" p'))
    /\ analysis p' = analysis post_with_buy
    /\ (forall t, In t ["AAPL"] ->
          exists j, nth_error ["AAPL"] j = Some t
            /\ (forall j', nth_error ["AAPL"] j' = Some t -> j' <= j)
            /\ PyDict.get t (snapshot_of p')
               = Some (mkQuote (Some 150%float)
                         (percent_change (purchase_of post_with_buy t)
                            (Some 150%float))))
    /\ (forall k, ~ In k ["AAPL"] -> PyDict.get k (snapshot_of p') = None)
    /\ option_map snapshot_of (fst (analyze_post env_buy "p1" (Stored [post_with_buy])))
       = Some (snapshot_of p').
Proof.
  apply (refresh_snapshot_quotes env_buy "p1" (Stored [post_with_buy])
           post_with_buy).
  reflexivity.
Defined.

(** X14: whatever the engine does -- not installed, not importable,
    raising or returning -- a batch analysis of a stored post gives every
    listed ticker a per-ticker entry whose suggestion is Buy, Sell or
    Hold and no entry to any other ticker; the new analysis carries no
    report; and [row_suggestion] reads Buy, Sell or Hold from it for
    every ticker. *)
Theorem analyze_post_entries
  (env : Env) (pid : string) (f : DataFile) (p : Post) :
  _find (_read f) pid = Some p ->
  exists p' a',
    analyze_post env pid f = (Some p', Stored (mutate_found (_read f) pid p'))
    /\ analysis p' = Some a'
    /\ report a' = None
    /\ (forall t, In t (tickers p) ->
          exists v, PyDict.get t (per_ticker_of p') = Some v
                    /\ is_suggestion (suggestion v))
    /\ (forall k, ~ In k (tickers p) -> PyDict.get k (per_ticker_of p') = None)
    /\ (forall t, is_suggestion (row_suggestion a' t)).
Proof.
  intros Hf. unfold analyze_post. rewrite Hf.
  destruct (run_tradingagents_analysis_entries env (tickers p) (options p))
    as [Hin Hout].
  destruct (run_tradingagents_analysis env (tickers p) (options p)) as [summ per].
  simpl in Hin, Hout.
  do 2 eexists. split; [reflexivity|]. split; [reflexivity|].
  split; [reflexivity|]. split; [exact Hin|]. split; [exact Hout|].
  intros t. unfold row_suggestion. simpl.
  destruct (in_dec string_dec t (tickers p)) as [Ht|Ht].
  - destruct (Hin t Ht) as (v & -> & Hv). exact Hv.
  - rewrite (Hout t Ht). right; now right.
Qed.

Lemma analyze_post_entries_witness :
  exists p' a',
    analyze_post (env_raising "boom") "p1" (Stored [post_with_buy])
      = (Some p', Stored (mutate_found [post_with_buy] "p1" p'))
    /\ analysis p' = Some a'
    /\ report a' = None
    /\ (forall t, In t ["AAPL"] ->
          exists v, PyDict.get t (per_ticker_of p') = Some v
                    /\ is_suggestion (suggestion v))
    /\ (forall k, ~ In k ["AAPL"] -> PyDict.get k (per_ticker_of p') = None)
    /\ (forall t, is_suggestion (row_suggestion a' t)).
Proof.
  apply (analyze_post_entries (env_raising "boom") "p1" (Stored [post_with_buy])
           post_with_buy).
  reflexivity.
Defined.

(** ** The event stream and the report of a streaming run *)

Section StreamMore.

Variable env : Env.
Variable p : Post.
Variable d : string.

Lemma chunk_events_logs (t : string) (chunks : list GraphState) :
  Forall (is_log_for t) (chunk_events t chunks).
Proof.
  unfold chunk_events. induction chunks as [|c r IH]; simpl; [constructor|].
  apply Forall_app. split; [|exact IH].
  destruct (chunk_text c) as [text|]; repeat constructor. now exists text.
Qed.

Lemma ticker_trace_block (i : nat) (t : string) :
  ticker_block t (snd (ticker_trace env p d i t)).
Proof.
  destruct (ticker_trace_shape env p d i t) as (tail & evs & -> & H). simpl.
  destruct H as [(n & sg & c & pc & _ & -> & _)|(wr & e & _ & ->)].
  - exists (chunk_events t (stream_chunks (engine env i t d))),
      (EvTickerDone t n c pc).
    split; [reflexivity|]. split; [apply chunk_events_logs|].
    left. now exists n, c, pc.
  - exists (chunk_events t (stream_chunks (engine env i t d))),
      (EvTickerError t e).
    split; [reflexivity|]. split; [apply chunk_events_logs|].
    right. now exists e.
Qed.

Lemma loop_trace_blocks (i : nat) (ts : list string) :
  exists blocks,
    snd (loop_trace env p d i ts) = concat blocks
    /\ Forall2 ticker_block ts blocks.
Proof.
  revert i; induction ts as [|t r IH]; intros i.
  - exists []. split; [reflexivity | constructor].
  - simpl. pose proof (ticker_trace_block i t) as Ht.
    destruct (IH (S i)) as (blocks & Hb & Hall).
    destruct (ticker_trace env p d i t) as [txs evs].
    destruct (loop_trace env p d (S i) r) as [txs' evs']. simpl in *.
    exists (evs :: blocks). split; [simpl; now rewrite Hb | now constructor].
Qed.

Lemma snap_step_keeps (k : string) (mu : Mutator) (snap : PyDict.t Quote) :
  quoted_ticker mu <> Some k ->
  PyDict.get k (snap_step mu snap) = PyDict.get k snap.
Proof.
  destruct mu; simpl; intros H; try reflexivity.
  apply get_set_other. congruence.
Qed.

Lemma fold_snap_step_keeps (k : string) (txs : list Mutator)
  (snap : PyDict.t Quote) :
  Forall (fun mu => quoted_ticker mu <> Some k) txs ->
  PyDict.get k (fold_left (fun snap mu => snap_step mu snap) txs snap)
  = PyDict.get k snap.
Proof.
  revert snap; induction txs as [|mu r IH]; intros snap H; simpl; [reflexivity|].
  inversion H; subst. rewrite IH by assumption. now apply snap_step_keeps.
Qed.

Lemma chunk_logs_quoted (t : string) (chunks : list GraphState) :
  Forall (fun mu => quoted_ticker mu = None) (chunk_logs t chunks).
Proof.
  unfold chunk_logs. induction chunks as [|c r IH]; simpl; [constructor|].
  apply Forall_app. split; [|exact IH].
  destruct (chunk_text c); repeat constructor.
Qed.

Lemma ticker_trace_quoted (i : nat) (t : string) :
  Forall (fun mu => quoted_ticker mu = None \/ quoted_ticker mu = Some t)
         (fst (ticker_trace env p d i t)).
Proof.
  destruct (ticker_trace_shape env p d i t) as (tail & evs & -> & H). simpl.
  apply Forall_app. split.
  - eapply Forall_impl; [|apply chunk_logs_quoted]. simpl. tauto.
  - destruct H as [(n & sg & c & pc & -> & _)|(wr & e & -> & _)];
      repeat (apply Forall_cons || apply Forall_nil); simpl; auto.
Qed.

Lemma loop_trace_quoted_keeps (k : string) (i : nat) (ts : list string) :
  ~ In k ts ->
  Forall (fun mu => quoted_ticker mu <> Some k) (fst (loop_trace env p d i ts)).
Proof.
  revert i; induction ts as [|t r IH]; intros i Hk; simpl; [constructor|].
  pose proof (ticker_trace_quoted i t) as Ht. simpl in Hk.
  assert (Hr : ~ In k r) by tauto. specialize (IH (S i) Hr).
  destruct (ticker_trace env p d i t) as [txs evs].
  destruct (loop_trace env p d (S i) r) as [txs' evs']. simpl in *.
  apply Forall_app. split; [|exact IH].
  eapply Forall_impl; [|exact Ht]. simpl. intros mu [H|H] E; [congruence|].
  rewrite H in E. injection E as ->. tauto.
Qed.

End StreamMore.

(** X15: with the engine importable, the events of a streaming run on a
    stored post follow the state machine of the stream, whatever the
    engine does for each ticker: the start event, then for every ticker
    of the post, in order, one block made of its ticker-start event, log
    events of that ticker and exactly one ticker-done or ticker-error
    event, then the done event; and the run returns normally. *)
Theorem stream_events_follow_tickers
  (env : Env) (pid : string) (f : DataFile) (p : Post) :
  _find (_read f) pid = Some p ->
  import_error env = None ->
  exists w blocks,
    analyze_post_stream env pid f = (Some (inr tt), w)
    /\ events w = (EvStart pid (tickers p) :: concat blocks ++ [EvDone pid])%list
    /\ Forall2 ticker_block (tickers p) blocks.
Proof.
  intros Hf He.
  destruct (stream_run_completes env pid f p Hf He)
    as (w & p' & Hrun & Hev & _).
  destruct (loop_trace_blocks env p (date_of env (options p)) 0 (tickers p))
    as (blocks & Hb & Hall).
  exists w, blocks. split; [exact Hrun|]. split; [|exact Hall].
  now rewrite Hev, Hb.
Qed.

Lemma stream_events_follow_tickers_witness :
  exists w blocks,
    analyze_post_stream env_buy "p1" (Stored [post_with_buy])
      = (Some (inr tt), w)
    /\ events w = (EvStart "p1" ["AAPL"] :: concat blocks ++ [EvDone "p1"])%list
    /\ Forall2 ticker_block ["AAPL"] blocks.
Proof.
  apply (stream_events_follow_tickers env_buy "p1" (Stored [post_with_buy])
           post_with_buy); reflexivity.
Defined.

(** X16: a streaming run only ever appends to the report: whether the
    engine can be imported or not, the report of the stored post after
    the run starts with the report it had before. *)
Theorem stream_report_grows
  (env : Env) (pid : string) (f : DataFile) (p : Post) :
  _find (_read f) pid = Some p ->
  exists p' suffix,
    _find (_read (file (snd (analyze_post_stream env pid f)))) pid = Some p'
    /\ report_of p' = report_of p ++ suffix.
Proof.
  intros Hf. assert (Hid : id p = pid) by now apply _find_some in Hf.
  unfold analyze_post_stream. rewrite Hf.
  destruct (import_error env) as [e|] eqn:He.
  - rewrite (gen_import_error env pid p e He (mkWorld f [] []) p Hf).
    destruct (report_of_apply_all env [InitAnalysis; LogErr e] p) as (sfx & Hs).
    exists (apply_all env [InitAnalysis; LogErr e] p), sfx.
    split; [|exact Hs]. simpl.
    apply (_find_mutate_found _ _ p); [assumption|].
    change (id (apply_all env [InitAnalysis; LogErr e] p) = pid).
    now rewrite id_apply_all.
  - rewrite (gen_completes env pid p p (mkWorld f [] []) He Hf).
    set (d := date_of env (options p)).
    set (txs := (InitAnalysis :: fst (loop_trace env p d 0 (tickers p)))%list).
    set (lines := summary_lines (apply_all env txs p) (tickers p) d).
    destruct (report_of_apply_all env (txs ++ [SetSummary lines]) p) as (sfx & Hs).
    exists (apply_all env (txs ++ [SetSummary lines]) p), sfx.
    split; [|exact Hs]. simpl.
    rewrite apply_all_app. simpl.
    apply (_find_mutate_found _ _ p); [assumption|].
    change (id (run_mutator env (SetSummary lines) (apply_all env txs p)) = pid).
    now rewrite id_run_mutator, id_apply_all.
Qed.

Lemma stream_report_grows_witness :
  exists p' suffix,
    _find (_read (file (snd (analyze_post_stream env_buy "p1"
                               (Stored [post_with_buy]))))) "p1" = Some p'
    /\ report_of p' = report_of post_with_buy ++ suffix.
Proof.
  apply (stream_report_grows env_buy "p1" (Stored [post_with_buy]) post_with_buy).
  reflexivity.
Defined.

(** X17: a streaming run keeps what is stored for tickers that are not
    in the post's ticker list any more: their per-ticker entries and
    their quotes are the ones from before the run. *)
Theorem stream_keeps_unlisted
  (env : Env) (pid : string) (f : DataFile) (p : Post) (k : string) :
  _find (_read f) pid = Some p ->
  import_error env = None ->
  ~ In k (tickers p) ->
  exists w p',
    analyze_post_stream env pid f = (Some (inr tt), w)
    /\ _find (_read (file w)) pid = Some p'
    /\ PyDict.get k (per_ticker_of p') = PyDict.get k (per_ticker_of p)
    /\ PyDict.get k (snapshot_of p') = PyDict.get k (snapshot_of p).
Proof.
  intros Hf He Hk.
  destruct (stream_run_completes env pid f p Hf He)
    as (w & p' & Hrun & _ & _ & Hf' & Hper & Hsnap & _).
  exists w, p'. split; [exact Hrun|]. split; [exact Hf'|]. split.
  - rewrite Hper. apply fold_per_step_keeps. now apply loop_trace_keeps.
  - rewrite Hsnap. apply fold_snap_step_keeps.
    now apply loop_trace_quoted_keeps.
Qed.

Lemma stream_keeps_unlisted_witness :
  exists w p',
    analyze_post_stream env_buy "p1" (Stored [post_with_buy])
      = (Some (inr tt), w)
    /\ _find (_read (file w)) "p1" = Some p'
    /\ PyDict.get "MSFT" (per_ticker_of p')
       = PyDict.get "MSFT" (per_ticker_of post_with_buy)
    /\ PyDict.get "MSFT" (snapshot_of p')
       = PyDict.get "MSFT" (snapshot_of post_with_buy).
Proof.
  apply (stream_keeps_unlisted env_buy "p1" (Stored [post_with_buy])
           post_with_buy "MSFT"); try reflexivity.
  simpl. intuition discriminate.
Defined.

(** X18: when the engine raises for a ticker that occurs once in the
    list, the streaming run leaves the quote stored for that ticker as it
    was: no price is fetched for a failed ticker. *)
Theorem stream_failed_ticker_keeps_quote
  (env : Env) (pid : string) (f : DataFile) (p : Post)
  (before after : list string) (t e : string) :
  _find (_read f) pid = Some p ->
  import_error env = None ->
  tickers p = (before ++ t :: after)%list ->
  ~ In t before -> ~ In t after ->
  stream_raises (engine env (List.length before) t (date_of env (options p))) = Some e ->
  exists w p',
    analyze_post_stream env pid f = (Some (inr tt), w)
    /\ _find (_read (file w)) pid = Some p'
    /\ PyDict.get t (snapshot_of p') = PyDict.get t (snapshot_of p).
Proof.
  intros Hf He Hts Hb Ha Hraise.
  destruct (stream_run_completes env pid f p Hf He)
    as (w & p' & Hrun & _ & _ & Hf' & _ & Hsnap & _).
  set (d := date_of env (options p)) in *.
  exists w, p'. split; [exact Hrun|]. split; [exact Hf'|].
  assert (Hloop : fst (loop_trace env p d 0 (tickers p)) =
     (fst (loop_trace env p d 0 before)
      ++ (chunk_logs t (stream_chunks (engine env (List.length before) t d))
          ++ fst (error_trace t e))
      ++ fst (loop_trace env p d (S (List.length before)) after))%list).
  { rewrite Hts, loop_trace_app. simpl.
    unfold ticker_trace, error_trace. rewrite Hraise.
    now destruct (loop_trace env p d (S (List.length before)) after). }
  rewrite Hsnap, Hloop, !fold_left_app.
  rewrite (fold_snap_step_keeps t _ _
             (loop_trace_quoted_keeps env p d t _ after Ha)).
  simpl.
  rewrite fold_snap_step_keeps.
  - apply fold_snap_step_keeps. now apply loop_trace_quoted_keeps.
  - eapply Forall_impl; [|apply chunk_logs_quoted]. simpl. congruence.
Qed.

Lemma stream_failed_ticker_keeps_quote_witness :
  exists w p',
    analyze_post_stream (env_raising "boom") "p1" (Stored [post_with_buy])
      = (Some (inr tt), w)
    /\ _find (_read (file w)) "p1" = Some p'
    /\ PyDict.get "AAPL" (snapshot_of p')
       = PyDict.get "AAPL" (snapshot_of post_with_buy).
Proof.
  apply (stream_failed_ticker_keeps_quote (env_raising "boom") "p1"
           (Stored [post_with_buy]) post_with_buy [] [] "AAPL" "boom");
    try reflexivity; simpl; tauto.
Defined.

(** ** Wrapping log text *)

Section WrapFacts.


Lemma rfind_from_bounds (c : ascii) (s : string) (i start stop j : nat) :
  PyStr.rfind_from c s i start stop = Some j -> (start <= j < stop)%nat.
Proof.
  revert i; induction s as [|a r IH]; intros i; simpl; [discriminate|].
  destruct (PyStr.rfind_from c r (S i) start stop) as [j'|] eqn:E.
  - intros [= <-]. now apply (IH (S i)).
  - destruct (Nat.leb_spec start i); simpl; [|discriminate].
    destruct (Nat.ltb_spec i stop); simpl; [|discriminate].
    destruct (Ascii.eqb a c); [|discriminate].
    intros [= <-]. lia.
Qed.


Lemma wrap_line_fuel (line : string) (width : nat) (fuel1 fuel2 start : nat) :
  (1 <= width)%nat ->
  (String.length line - start <= fuel1)%nat ->
  (String.length line - start <= fuel2)%nat ->
  wrap_line fuel1 line width start = wrap_line fuel2 line width start.
Proof.
  intros Hw. revert fuel2 start; induction fuel1 as [|f1 IH]; intros fuel2 start H1 H2.
  - destruct fuel2 as [|f2]; [reflexivity|]. simpl.
    destruct (Nat.ltb_spec start (String.length line)); [lia | reflexivity].
  - destruct fuel2 as [|f2]; simpl.
    + destruct (Nat.ltb_spec start (String.length line)); [lia | reflexivity].
    + destruct (Nat.ltb_spec start (String.length line)) as [Hlt|]; [|reflexivity].
      set (stop := Nat.min (start + width) (String.length line)).
      assert (Hstop : (start < stop <= String.length line)%nat)
        by (unfold stop; lia).
      destruct (PyStr.rfind " " line start stop) as [sp|] eqn:E.
      * apply rfind_from_bounds in E.
        destruct (sp <=? start)%nat; f_equal; apply IH; lia.
      * f_equal. apply IH; lia.
Qed.

Lemma splitlines_from_no_linebreak (cur s : string) :
  no_linebreak s = true ->
  PyStr.splitlines_from cur s
  = if PyStr.truthy (cur ++ s) then [cur ++ s] else [].
Proof.
  revert cur; induction s as [|c r IH]; intros cur H; simpl.
  - now rewrite str_app_nil_r.
  - unfold no_linebreak in H. simpl in H. apply andb_prop in H as [Hc Hr].
    apply negb_true_iff, orb_false_iff in Hc as [Hcr Hlb].
    rewrite Hcr, Hlb, (IH _ Hr), str_app_assoc. reflexivity.
Qed.

End WrapFacts.


(** X20: the wrapping loop of a line ends by itself: for a width of at
    least one character, [len(line)] passes bring [start] to the end of
    the line, and any larger number of passes yields the same pieces. *)
Theorem wrap_line_enough_fuel (line : string) (width fuel : nat) :
  (1 <= width)%nat ->
  (String.length line <= fuel)%nat ->
  wrap_line fuel line width 0 = wrap_line (String.length line) line width 0.
Proof.
  intros Hw Hf. apply wrap_line_fuel; lia.
Qed.

Lemma wrap_line_enough_fuel_witness :
  wrap_line 50 "aaaa bbbb cccc" 6 0 = wrap_line 14 "aaaa bbbb cccc" 6 0.
Proof.
  apply (wrap_line_enough_fuel "aaaa bbbb cccc" 6 50); simpl; lia.
Defined.

(** X21: a text of ASCII characters that holds no line boundary and is
    at most 120 characters long is logged as it is. *)
Theorem _wrap_text_short_line (s : string) :
  is_ascii s = true ->
  no_linebreak s = true ->
  (String.length s <= 120)%nat ->
  _wrap_text s = s.
Proof.
  intros _ Hnl Hlen. unfold _wrap_text, _wrap_text_width, PyStr.splitlines.
  rewrite (splitlines_from_no_linebreak "" s Hnl). simpl append.
  destruct s as [|c r]; [reflexivity|]. cbv [PyStr.truthy]. cbn [flat_map].
  destruct (Nat.leb_spec (String.length (String c r)) 120); [|lia].
  reflexivity.
Qed.

Lemma _wrap_text_short_line_witness :
  _wrap_text "AAPL: warning Memory collection already exists; reusing existing memory."
  = "AAPL: warning Memory collection already exists; reusing existing memory.".
Proof.
  apply (_wrap_text_short_line
           "AAPL: warning Memory collection already exists; reusing existing memory.").
  - reflexivity.
  - reflexivity.
  - simpl. lia.
Defined.

(** ** Scheduler *)

(** X22: for every time of day, the scheduler sleeps at least ten
    seconds and at most one day; it wakes at the time of the daily run,
    except when that time is less than ten seconds ahead, in which case
    it sleeps the ten-second floor. *)
Theorem _sleep_until_next_run_bounds (now : Z) :
  (0 <= now < microseconds_per_day)%Z ->
  (10000000 <= _sleep_until_next_run now <= microseconds_per_day)%Z
  /\ (((now + _sleep_until_next_run now) mod microseconds_per_day = regen_time)%Z
      \/ (_sleep_until_next_run now = 10000000
          /\ regen_time - 10000000 < now < regen_time)%Z).
Proof.
  intros Hnow. unfold _sleep_until_next_run, regen_time, microseconds_per_day,
    DAILY_REGEN_HOUR, DAILY_REGEN_MIN in *.
  change ((13 * 3600 + 10 * 60) * 1000000)%Z with 47400000000%Z.
  change (86400 * 1000000)%Z with 86400000000%Z in *.
  destruct (Z.geb_spec now 47400000000) as [Hge|Hlt].
  - split; [lia|]. left.
    replace (now + Z.max 10000000 (47400000000 + 86400000000 - now))%Z
      with (47400000000 + 1 * 86400000000)%Z by lia.
    rewrite Z.mod_add by lia. now apply Z.mod_small.
  - split; [lia|].
    destruct (Z_le_gt_dec 10000000 (47400000000 - now)) as [H|H].
    + left. replace (now + Z.max 10000000 (47400000000 - now))%Z
        with 47400000000%Z by lia.
      now apply Z.mod_small.
    + right. lia.
Qed.

Lemma _sleep_until_next_run_bounds_witness :
  (10000000 <= _sleep_until_next_run 47400000000 <= microseconds_per_day)%Z
  /\ (((47400000000 + _sleep_until_next_run 47400000000) mod microseconds_per_day
       = regen_time)%Z
      \/ (_sleep_until_next_run 47400000000 = 10000000
          /\ regen_time - 10000000 < 47400000000 < regen_time)%Z).
Proof.
  apply (_sleep_until_next_run_bounds 47400000000).
  unfold microseconds_per_day. lia.
Defined.

(** ** Composition of transactions; case and whitespace *)

(** X23: two transactions on the same post compose: when the first
    mutator keeps the id, running the second transaction after the first
    leaves the data file that one transaction with the composed mutator
    leaves. *)
Theorem _update_post_compose
  (pid : string) (m1 m2 : Post -> Post) (f : DataFile) (p : Post) :
  _find (_read f) pid = Some p ->
  id (m1 p) = pid ->
  _update_post pid (fun pp => inr (m2 pp))
    (snd (_update_post pid (fun pp => inr (m1 pp)) f))
  = _update_post pid (fun pp => inr (m2 (m1 pp))) f.
Proof.
  intros Hf Hid. unfold _update_post at 2 3. rewrite Hf. simpl snd.
  unfold _update_post, _write. simpl _read.
  rewrite (_find_mutate_found _ _ p (m1 p) Hf Hid).
  now rewrite (mutate_found_twice pid _ (m1 p) _ Hid).
Qed.

Lemma _update_post_compose_witness :
  _update_post "p1" (fun pp => inr (upd_snap env_buy "MSFT" None None pp))
    (snd (_update_post "p1" (fun pp => inr (init_analysis env_buy pp))
            (Stored [post_with_buy])))
  = _update_post "p1"
      (fun pp => inr (upd_snap env_buy "MSFT" None None (init_analysis env_buy pp)))
      (Stored [post_with_buy]).
Proof.
  apply (_update_post_compose "p1" (init_analysis env_buy)
           (upd_snap env_buy "MSFT" None None) (Stored [post_with_buy])
           post_with_buy); reflexivity.
Defined.

Section CaseFacts.

Import PyStr.

Lemma lower_char_upper_char (c : ascii) : lower_char (upper_char c) = lower_char c.
Proof. destruct c as [[] [] [] [] [] [] [] []]; reflexivity. Qed.

Lemma upper_char_lower_char (c : ascii) : upper_char (lower_char c) = upper_char c.
Proof. destruct c as [[] [] [] [] [] [] [] []]; reflexivity. Qed.

Lemma lower_upper (s : string) : lower (upper s) = lower s.
Proof.
  induction s as [|c r IH]; simpl; [reflexivity|].
  now rewrite IH, lower_char_upper_char.
Qed.

Lemma upper_lower (s : string) : upper (lower s) = upper s.
Proof.
  induction s as [|c r IH]; simpl; [reflexivity|].
  now rewrite IH, upper_char_lower_char.
Qed.

Lemma parse_line_ticker_case (tk tk' : string) :
  upper tk' = upper tk ->
  forall dcs line, parse_line tk' dcs line = parse_line tk dcs line.
Proof. intros E dcs line. unfold parse_line. now rewrite E. Qed.

Lemma fold_parse_line_ticker_case (tk tk' : string) (lines : list string)
  (dcs : option string) :
  upper tk' = upper tk ->
  fold_left (parse_line tk') lines dcs = fold_left (parse_line tk) lines dcs.
Proof.
  intros E. revert dcs; induction lines as [|l r IH]; intros dcs; simpl;
    [reflexivity|].
  now rewrite IH, (parse_line_ticker_case tk tk' E).
Qed.

End CaseFacts.

(** X24: on a text of ASCII characters the lenient normaliser does not
    depend on the case of the text or on whitespace around it: the
    uppercased, the lowercased and the stripped text are normalised to
    the same suggestion as the text itself. *)
Theorem _norm_case_and_space (s : string) :
  is_ascii s = true ->
  _norm (Some (PyStr.upper s)) = _norm (Some s)
  /\ _norm (Some (PyStr.lower s)) = _norm (Some s)
  /\ _norm (Some (PyStr.strip s)) = _norm (Some s).
Proof.
  intros _. unfold _norm. repeat split.
  - now rewrite <- upper_strip, lower_upper.
  - rewrite <- lower_strip.
    assert (H : forall x, PyStr.lower (PyStr.lower x) = PyStr.lower x).
    { intros x. rewrite <- (lower_upper (PyStr.lower x)), upper_lower.
      apply lower_upper. }
    now rewrite H.
  - now rewrite strip_idem.
Qed.

Lemma _norm_case_and_space_witness :
  _norm (Some (PyStr.upper "  Strong Buy ")) = _norm (Some "  Strong Buy ")
  /\ _norm (Some (PyStr.lower "  Strong Buy ")) = _norm (Some "  Strong Buy ")
  /\ _norm (Some (PyStr.strip "  Strong Buy ")) = _norm (Some "  Strong Buy ").
Proof.
  apply (_norm_case_and_space "  Strong Buy "). reflexivity.
Defined.

(** X25: the report scanner matches a ticker of ASCII characters without
    regard to case: looking for the uppercased or the lowercased ticker
    gives the decision found for the ticker as written. *)
Theorem parse_from_report_ticker_case (report_text tk : string) :
  is_ascii tk = true ->
  parse_from_report report_text (PyStr.upper tk) = parse_from_report report_text tk
  /\ parse_from_report report_text (PyStr.lower tk)
     = parse_from_report report_text tk.
Proof.
  intros _. unfold parse_from_report. destruct (negb (PyStr.truthy report_text));
    [split; reflexivity|].
  split; apply fold_parse_line_ticker_case;
    [apply upper_idem | apply upper_lower].
Qed.

Lemma parse_from_report_ticker_case_witness :
  parse_from_report "AAPL final decision: sell" (PyStr.upper "Aapl")
  = parse_from_report "AAPL final decision: sell" "Aapl"
  /\ parse_from_report "AAPL final decision: sell" (PyStr.lower "Aapl")
     = parse_from_report "AAPL final decision: sell" "Aapl".
Proof.
  apply (parse_from_report_ticker_case "AAPL final decision: sell" "Aapl").
  reflexivity.
Defined.

(** ** Summarising after a streaming run *)

Section AfterStream.

Variable env : Env.




End AfterStream.


